(** * tradebot: exchange gateway, risk manager, position manager, target pool

    A shallow embedding of the Python sources
    ([binance_client.py], [risk.py], [position.py], [market_data.py])
    and the properties stated about them.

    Conventions of the embedding:
    - Python [float] values are exact rationals ([Q]); [int] values are [Z].
      Comparisons are the boolean ones of [Q], so two representations of the
      same rational behave alike, as two equal floats do.  Binary rounding is
      not modelled: a statement about an exact quantity that the code
      floors or rounds is made for inputs where the floating-point
      computation gives the same result.
    - an exception is a value of [exn]; code that can raise returns
      [result A]; [try ... except Exception] is [try_except].
    - what the venue, the clock and the calendar answer is an argument of
      the function that asks; the requests sent and the sleeps made are
      returned beside the result.
    - logging has no effect, and no presentation sink is attached
      ([self.ui] is [None]).
    - calls are taken one after another: a call runs to its end before the
      next one starts.  The exception is [update_trailing_stop], which two
      tasks await without a lock: its awaits are the stages of
      [Position.stage], and other calls can run between them. *)

From Stdlib Require Import QArith Qround Qabs Qpower Lqa Lia ZArith String.
From stdpp Require Import base gmap strings list sorting.

(** ** Python values, exceptions and arithmetic *)
Module Py.

(** The exception classes the sources raise or catch.  [CustomError] and its
    five subclasses come from [exceptions.py]; [OtherException] stands for any
    other subclass of [Exception]. *)
Inductive exn : Type :=
| BinanceAPIException (code : option Z)
| ClientError
| JSONDecodeError
| ValueError
| TypeError
| ZeroDivisionError
| UnboundLocalError
| KeyError
| IndexError
| OtherException
| CustomError
| NetworkError
| APIError
| AccountError
| InputError
| StrategyError.

Inductive result (A : Type) : Type :=
| Ok (a : A)
| Raise (e : exn).
Arguments Ok {A} a.
Arguments Raise {A} e.

#[export] Instance result_ret : MRet result := fun A a => Ok a.
#[export] Instance result_bind : MBind result := fun A B f m =>
  match m with
  | Ok a => f a
  | Raise e => Raise e
  end.

(** [try: body except Exception as e: handler e] *)
Definition try_except {A} (body : result A) (handler : exn -> result A) : result A :=
  match body with
  | Ok a => Ok a
  | Raise e => handler e
  end.

(** Reading a local variable that may not have been assigned. *)
Definition read_local {A} (v : option A) : result A :=
  match v with
  | Some a => Ok a
  | None => Raise UnboundLocalError
  end.

Local Open Scope Q_scope.

Definition Qltb (a b : Q) : bool := negb (Qle_bool b a).

(** [min(a, b)] and [max(a, b)]: the first argument wins a tie. *)
Definition py_min (a b : Q) : Q := if Qltb b a then b else a.
Definition py_max (a b : Q) : Q := if Qltb a b then b else a.

(** [a / b] *)
Definition py_truediv (a b : Q) : result Q :=
  if Qeq_bool b 0 then Raise ZeroDivisionError else Ok (a / b).

(** [int(x)]: truncation towards zero. *)
Definition py_int (x : Q) : Z := Z.quot (Qnum x) (Zpos (Qden x)).

(** Rounding to the nearest integer, ties to the even one. *)
Definition round_half_even (x : Q) : Z :=
  let f := Qfloor x in
  let d := x - inject_Z f in
  if Qltb d (1 # 2) then f
  else if Qltb (1 # 2) d then (f + 1)%Z
  else if Z.even f then f else (f + 1)%Z.

(** [round(x, ndigits)] *)
Definition py_round (x : Q) (ndigits : Z) : Q :=
  inject_Z (round_half_even (x * Qpower 10 ndigits)) / Qpower 10 ndigits.

End Py.
Export Py.

(** ** [strategy.py]: the parameters the modelled code reads

    [load_config] starts from [DEFAULT_PARAMS], so every key is present and
    [StrategyParams.get] returns a value of the type below. *)
Record StrategyParams : Type := {
  max_open_positions : Z;
  max_daily_trades : Z;
  account_risk_per_trade : Q;
  max_account_risk : Q;
  max_drawdown : Q;
  default_leverage : Z;
  max_leverage : Z;
  auto_leverage : bool;
  static_sl_percent : Q;
  trailing_sl : bool;
  trailing_sl_distance : Q;
  trailing_sl_interval : Q;
  position_size_type : string;
  fixed_position_size : Q;
  partial_close_enabled : bool;
  partial_close_threshold : Q;
  partial_close_percentage : Q;
  profit_threshold_daily : Q;
  loss_threshold_daily : Q
}.

(** [DEFAULT_PARAMS] of [config.py] with no environment override. *)
Definition DEFAULT_PARAMS : StrategyParams := {|
  max_open_positions := 5;
  max_daily_trades := 20;
  account_risk_per_trade := 1;
  max_account_risk := 5;
  max_drawdown := 10;
  default_leverage := 3;
  max_leverage := 10;
  auto_leverage := true;
  static_sl_percent := 2;
  trailing_sl := true;
  trailing_sl_distance := 1;
  trailing_sl_interval := 1 # 2;
  position_size_type := "RISK_BASED";
  fixed_position_size := 100;
  partial_close_enabled := true;
  partial_close_threshold := 2;
  partial_close_percentage := 50;
  profit_threshold_daily := 3;
  loss_threshold_daily := 5
|}.

(** The dictionary [get_symbol_precision] returns. *)
Record SymbolInfo : Type := {
  price_precision : Z;
  qty_precision : Z;
  min_qty : Q;
  tick_size : Q;
  min_notional : Q
}.

(** An element of [get_open_positions]. *)
Record Position : Type := {
  pos_symbol : string;
  pos_amount : Q;
  pos_entry_price : Q;
  pos_mark_price : Q;
  pos_leverage : Z;
  pos_side : string
}.

(** ** [risk.py]: [RiskManager] *)
Module Risk.
Local Open Scope Q_scope.

(** An entry of the balances dictionary of [get_account_balance]. *)
Record Balance : Type := {
  wallet_balance : Q;
  unrealized_pnl : Q;
  margin_balance : Q;
  available_balance : Q;
  max_withdraw_amount : Q
}.

(** A day of [daily_pnl]. *)
Record DailyStats : Type := {
  total_pnl : Q;
  trade_count : Z;
  win_count : Z;
  loss_count : Z
}.

(** A line of the [position_history] ledger. *)
Record TradeRecord : Type := {
  tr_symbol : string;
  tr_side : string;
  tr_quantity : Q;
  tr_entry_price : Q;
  tr_exit_price : option Q;
  tr_pnl : option Q;
  tr_type : string
}.

Record RiskManager : Type := {
  strategy : StrategyParams;
  balances : gmap string Balance;
  open_positions : list Position;
  position_history : list TradeRecord;
  daily_pnl : gmap string DailyStats;
  drawdown : Q;
  initial_balance : Q;
  peak_balance : Q;
  protection_mode : bool
}.

Definition get_total_balance (self : RiskManager) : Q :=
  match balances self !! "USDT" with
  | Some b => wallet_balance b + unrealized_pnl b
  | None => 0
  end.

Definition get_available_balance (self : RiskManager) : Q :=
  match balances self !! "USDT" with
  | Some b => available_balance b
  | None => 0
  end.

(** The stop-loss distance in percent, lines 164-170. *)
Definition sl_percent (st : StrategyParams) (entry_price stop_loss_price : Q)
    (signal_type : string) : result Q :=
  if Qeq_bool entry_price 0 || Qeq_bool stop_loss_price 0 then
    mret (static_sl_percent st)
  else if bool_decide (signal_type = "LONG") then
    d ← py_truediv (entry_price - stop_loss_price) entry_price;
    mret (Qabs d * 100)
  else
    d ← py_truediv (stop_loss_price - entry_price) entry_price;
    mret (Qabs d * 100).

(** The leverage choice, lines 173-180. *)
Definition choose_leverage (st : StrategyParams) (sl_pct : Q) : result Z :=
  let max_leverage := max_leverage st in
  if auto_leverage st then
    r ← py_truediv 10 sl_pct;
    mret (py_int (py_max 1 (py_min (inject_Z max_leverage) r)))
  else
    mret (default_leverage st).

(** The [else] branch of the sizing mode test, lines 153-195: the notional
    in USDT and the leverage it assigns to [target_leverage]. *)
Definition risk_based_notional (self : RiskManager) (available_balance : Q)
    (entry_price stop_loss_price : Q) (signal_type : string)
    (signal_strength : Q) : result (Q * Z) :=
  let st := strategy self in
  let account_risk_pct := account_risk_per_trade st in
  let adjusted_risk := account_risk_pct * (signal_strength / 100) * (3 # 2) in
  let adjusted_risk := py_min adjusted_risk account_risk_pct in
  let risk_amount := (available_balance * adjusted_risk) / 100 in
  sl_pct ← sl_percent st entry_price stop_loss_price signal_type;
  target_leverage ← choose_leverage st sl_pct;
  position_size_usdt ←
    py_truediv (risk_amount * inject_Z target_leverage) (sl_pct / 100);
  let position_size_usdt :=
    if bool_decide (position_size_type st = "DYNAMIC") then
      if (0 <? Z.of_nat (length (open_positions self)))%Z then
        let reduction_factor :=
          1 - inject_Z (Z.of_nat (length (open_positions self))) * (1 # 5) in
        let reduction_factor := py_max (1 # 5) reduction_factor in
        position_size_usdt * reduction_factor
      else position_size_usdt
    else position_size_usdt in
  mret (position_size_usdt, target_leverage).

(** Lines 149-195: the notional and the state of the local variable
    [target_leverage], which the [FIXED] branch never assigns. *)
Definition target_notional (self : RiskManager) (available_balance : Q)
    (entry_price stop_loss_price : Q) (signal_type : string)
    (signal_strength : Q) : result (Q * option Z) :=
  let st := strategy self in
  if bool_decide (position_size_type st = "FIXED") then
    mret (fixed_position_size st, None)
  else
    '(position_size_usdt, target_leverage) ←
      risk_based_notional self available_balance entry_price stop_loss_price
        signal_type signal_strength;
    mret (position_size_usdt, Some target_leverage).

(** Lines 203-205: the notional is at most a quarter of the balance. *)
Definition cap_notional (available_balance position_size_usdt : Q) : Q :=
  let max_position_usdt := available_balance * (1 # 4) in
  py_min position_size_usdt max_position_usdt.

(** Lines 207-222: from the capped notional to the order quantity.  The
    quotient by the lot step and its floor are exact here.  In the code
    they are floating point: for a lot step that is no binary fraction the
    quotient can fall just below the whole number of steps, as
    [125.0 / 0.00001], which is floored to 12499999. *)
Definition notional_to_quantity (info : SymbolInfo) (entry_price : Q)
    (position_size_usdt : Q) (target_leverage : option Z) : result (Q * Z) :=
  quantity ← py_truediv position_size_usdt entry_price;
  target_leverage ← read_local target_leverage;
  let leveraged_quantity := quantity * inject_Z target_leverage in
  let qty_step := min_qty info in
  let precision := qty_precision info in
  steps ← py_truediv leveraged_quantity qty_step;
  let rounded_quantity := inject_Z (Qfloor steps) * qty_step in
  let rounded_quantity := py_round rounded_quantity precision in
  mret (rounded_quantity, target_leverage).

(** The body of the [try] of [calculate_position_size].  [symbol_info] is
    what [client.get_symbol_precision(symbol)] answers. *)
Definition calculate_position_size_body (self : RiskManager)
    (symbol_info : result SymbolInfo) (entry_price stop_loss_price : Q)
    (signal_type : string) (signal_strength : Q) : result (Q * Z) :=
  let st := strategy self in
  if protection_mode self then mret (0, default_leverage st)
  else
    info ← symbol_info;
    let available_balance := get_available_balance self in
    '(position_size_usdt, target_leverage) ←
      target_notional self available_balance entry_price stop_loss_price
        signal_type signal_strength;
    if Qltb position_size_usdt (min_notional info) then
      target_leverage ← read_local target_leverage;
      mret (0, target_leverage)
    else
      let position_size_usdt := cap_notional available_balance position_size_usdt in
      notional_to_quantity info entry_price position_size_usdt target_leverage.

Definition calculate_position_size (self : RiskManager)
    (symbol_info : result SymbolInfo) (entry_price stop_loss_price : Q)
    (signal_type : string) (signal_strength : Q) : result (Q * Z) :=
  try_except
    (calculate_position_size_body self symbol_info entry_price stop_loss_price
       signal_type signal_strength)
    (fun _ => mret (0, default_leverage (strategy self))).

(** The loop of [_calculate_total_account_risk] over the open positions. *)
Fixpoint account_risk_loop (total_balance : Q) (positions : list Position)
    (total_risk : Q) : result Q :=
  match positions with
  | [] => mret total_risk
  | pos :: rest =>
      let position_value := Qabs (pos_amount pos * pos_mark_price pos) in
      r ← py_truediv position_value
            (total_balance * inject_Z (pos_leverage pos));
      let position_risk_pct := r * 100 in
      account_risk_loop total_balance rest (total_risk + position_risk_pct)
  end.

Definition _calculate_total_account_risk (self : RiskManager) : result Q :=
  let total_balance := get_total_balance self in
  if Qle_bool total_balance 0 then mret 0
  else account_risk_loop total_balance (open_positions self) 0.

(** The body of the [try] of [check_risk_limits]; [today] is
    [datetime.now().strftime('%Y-%m-%d')]. *)
Definition check_risk_limits_body (self : RiskManager) (today : string)
    : result bool :=
  let st := strategy self in
  if protection_mode self then mret false
  else if Qltb (max_drawdown st) (drawdown self) then mret false
  else if (max_open_positions st <=? Z.of_nat (length (open_positions self)))%Z
  then mret false
  else
    let daily_trade_count :=
      match daily_pnl self !! today with
      | Some d => trade_count d
      | None => 0%Z
      end in
    if (max_daily_trades st <=? daily_trade_count)%Z then mret false
    else
      let daily_profit :=
        match daily_pnl self !! today with
        | Some d => total_pnl d
        | None => 0
        end in
      let daily_profit_pct :=
        if Qltb 0 (initial_balance self)
        then (daily_profit / initial_balance self) * 100
        else 0 in
      if Qltb (profit_threshold_daily st) daily_profit_pct then mret false
      else if Qltb daily_profit_pct (- loss_threshold_daily st) then mret false
      else
        account_risk ← _calculate_total_account_risk self;
        if Qltb (max_account_risk st) account_risk then mret false
        else mret true.

Definition check_risk_limits (self : RiskManager) (today : string) : result bool :=
  try_except (check_risk_limits_body self today) (fun _ => mret false).

(** [record_trade]: the ledger line appended and the day's statistics
    updated; the line is also what the method returns. *)
Definition record_trade (self : RiskManager) (today : string)
    (symbol side : string) (quantity entry_price : Q)
    (exit_price pnl : option Q) (trade_type : string)
    : RiskManager * TradeRecord :=
  let trade_info := {|
    tr_symbol := symbol; tr_side := side; tr_quantity := quantity;
    tr_entry_price := entry_price; tr_exit_price := exit_price;
    tr_pnl := pnl; tr_type := trade_type |} in
  let stats := default
    {| total_pnl := 0; trade_count := 0; win_count := 0; loss_count := 0 |}
    (daily_pnl self !! today) in
  let stats := {|
    total_pnl := total_pnl stats; trade_count := (trade_count stats + 1)%Z;
    win_count := win_count stats; loss_count := loss_count stats |} in
  let closing := bool_decide (trade_type = "CLOSE")
                 || bool_decide (trade_type = "SL")
                 || bool_decide (trade_type = "TP") in
  let stats :=
    match pnl with
    | Some p =>
        if closing then
          {| total_pnl := total_pnl stats + p; trade_count := trade_count stats;
             win_count := if Qltb 0 p then (win_count stats + 1)%Z
                          else win_count stats;
             loss_count := if Qltb 0 p then loss_count stats
                           else (loss_count stats + 1)%Z |}
        else stats
    | None => stats
    end in
  ({| strategy := strategy self; balances := balances self;
      open_positions := open_positions self;
      position_history := position_history self ++ [trade_info];
      daily_pnl := <[today := stats]> (daily_pnl self);
      drawdown := drawdown self; initial_balance := initial_balance self;
      peak_balance := peak_balance self;
      protection_mode := protection_mode self |}, trade_info).

(** [get_position_for_symbol]: the first open position of the symbol. *)
Definition get_position_for_symbol (self : RiskManager) (symbol : string)
    : option Position :=
  List.find (fun pos => bool_decide (pos_symbol pos = symbol)) (open_positions self).

Definition _calculate_position_pnl_percent (position : Position)
    (current_price : Q) : result Q :=
  if bool_decide (pos_side position = "LONG") then
    d ← py_truediv (current_price - pos_entry_price position)
          (pos_entry_price position);
    mret (d * 100)
  else
    d ← py_truediv (pos_entry_price position - current_price)
          (pos_entry_price position);
    mret (d * 100).

End Risk.

(** ** [binance_client.py]: the retrying gateway *)
Module Gateway.
Local Open Scope Q_scope.

(** What [api_retry] does that the outside can observe: a call of the wrapped
    function at an attempt number, and an [asyncio.sleep]. *)
Inductive event : Type :=
| Call (attempt : Z)
| Sleep (seconds : Q).

Record BinanceClient : Type := {
  max_retries : Z;
  last_api_call_time : Q;
  min_time_between_calls : Q
}.

(** [BinanceClient.__init__] with its default arguments. *)
Definition new_client : BinanceClient :=
  {| max_retries := 5; last_api_call_time := 0; min_time_between_calls := 1 # 20 |}.

(** The decorator [timer_decorator]: it returns what the function returns
    and re-raises what it raises. *)
Definition timer_decorator {A} (r : result A) : result A :=
  match r with
  | Ok a => Ok a
  | Raise e => Raise e
  end.

(** The decorator [exception_handler], lines 49-64: three [except] clauses
    tried in order. *)
Definition exception_handler {A} (r : result A) : result A :=
  match r with
  | Ok a => Ok a
  | Raise e =>
      match e with
      | BinanceAPIException _ | ClientError => Raise NetworkError
      | JSONDecodeError | ValueError | TypeError => Raise InputError
      | _ => Raise CustomError
      end
  end.

Section api_retry.
Context {V : Type}.

(** What the wrapped function does when it is called at a given attempt. *)
Variable func : Z -> result V.

(** The rate limit before the lock, lines 102-105. *)
Definition rate_gate (self : BinanceClient) (now : Q) : list event :=
  let time_since_last_call := now - last_api_call_time self in
  if Qltb time_since_last_call (min_time_between_calls self)
  then [Sleep (min_time_between_calls self - time_since_last_call)]
  else [].

(** The [for attempt in range(1, max_retries + 1)] loop, lines 109-179, run
    over the attempts still to make.  The second component is [Ok (Some v)]
    when the call returned [v], [Ok None] when the loop ended without a
    [return] (the method then returns [None]), and [Raise e] when the loop
    raised [e]. *)
Fixpoint retry_loop (max_retries : Z) (attempts : list Z)
    : list event * result (option V) :=
  match attempts with
  | [] => ([], Ok None)
  | attempt :: rest =>
      let next := retry_loop max_retries rest in
      match func attempt with
      | Ok result => ([Call attempt], Ok (Some result))
      | Raise (BinanceAPIException error_code) =>
          if bool_decide (error_code = Some (-1021)%Z)
             || bool_decide (error_code = Some (-1022)%Z) then
            (Call attempt :: next.1, next.2)
          else if bool_decide (error_code = Some (-1003)%Z) then
            let wait_time := (2 ^ attempt * 2)%Z in
            (Call attempt :: Sleep (inject_Z wait_time) :: next.1, next.2)
          else if bool_decide (error_code = Some (-2010)%Z) then
            ([Call attempt], Raise AccountError)
          else if bool_decide (error_code = Some (-2011)%Z) then
            ([Call attempt], Raise APIError)
          else if bool_decide (error_code = Some (-1121)%Z) then
            ([Call attempt], Raise InputError)
          else if (attempt <? max_retries)%Z then
            let wait_time := (2 ^ attempt)%Z in
            (Call attempt :: Sleep (inject_Z wait_time) :: next.1, next.2)
          else
            ([Call attempt], Raise APIError)
      | Raise _ =>
          if (attempt <? max_retries)%Z then
            let wait_time := (2 ^ attempt)%Z in
            (Call attempt :: Sleep (inject_Z wait_time) :: next.1, next.2)
          else
            ([Call attempt], Raise CustomError)
      end
  end.

(** The undecorated method: the client afterwards, the events in order and
    the result.  [now] is the clock at entry, [finish] the clock when a call
    succeeds. *)
Definition api_retry_body (self : BinanceClient) (now finish : Q)
    : BinanceClient * list event * result (option V) :=
  let gate := rate_gate self now in
  let loop := retry_loop (max_retries self) (seqZ 1 (max_retries self)) in
  let self' :=
    match loop.2 with
    | Ok (Some _) =>
        {| max_retries := max_retries self; last_api_call_time := finish;
           min_time_between_calls := min_time_between_calls self |}
    | _ => self
    end in
  (self', gate ++ loop.1, loop.2).

(** [BinanceClient.api_retry] as callers see it: the method under
    [@exception_handler] and [@timer_decorator]. *)
Definition api_retry (self : BinanceClient) (now finish : Q)
    : BinanceClient * list event * result (option V) :=
  let '(self', events, r) := api_retry_body self now finish in
  (self', events, exception_handler (timer_decorator r)).

End api_retry.

Definition calls (events : list event) : list Z :=
  omap (fun e => match e with Call a => Some a | Sleep _ => None end) events.

Definition sleeps (events : list event) : list Q :=
  omap (fun e => match e with Sleep s => Some s | Call _ => None end) events.

(** The error codes the loop names. *)
Definition special_codes : list (option Z) :=
  [Some (-1021)%Z; Some (-1022)%Z; Some (-1003)%Z; Some (-2010)%Z;
   Some (-2011)%Z; Some (-1121)%Z].

(** The exceptions that reach one of the two exponential back-off branches:
    an API error with no code of its own, or any other exception. *)
Definition backed_off (e : exn) : Prop :=
  match e with
  | BinanceAPIException code => code ∉ special_codes
  | _ => True
  end.

(** What those branches raise at the last attempt. *)
Definition final_error (e : exn) : exn :=
  match e with
  | BinanceAPIException _ => APIError
  | _ => CustomError
  end.

(** A venue that answers every attempt with the same exception. *)
Definition always_raises {V : Type} (e : exn) : Z -> result V := fun _ => Raise e.

End Gateway.

(** ** Python dictionaries whose order matters

    A [dict] keeps its keys in insertion order, and [sorted] is stable, so
    the order of [targets] decides ties between equal scores: the
    dictionary is the list of its items in insertion order. *)
Module Dict.
Section dict.
Context {V : Type}.

Definition keys (d : list (string * V)) : list string := d.*1.

(** [d.get(k)] *)
Fixpoint get (k : string) (d : list (string * V)) : option V :=
  match d with
  | [] => None
  | (k', v) :: rest => if bool_decide (k' = k) then Some v else get k rest
  end.

(** [d[k] = v]: an existing key keeps its place, a new one goes last. *)
Fixpoint set (k : string) (v : V) (d : list (string * V)) : list (string * V) :=
  match d with
  | [] => [(k, v)]
  | (k', v') :: rest =>
      if bool_decide (k' = k) then (k', v) :: rest else (k', v') :: set k v rest
  end.

(** [del d[k]] *)
Definition del (k : string) (d : list (string * V)) : result (list (string * V)) :=
  match get k d with
  | None => Raise KeyError
  | Some _ => Ok (filter (fun kv => kv.1 ≠ k) d)
  end.

End dict.
End Dict.

(** [sorted(items, key=...)]: a stable sort; [before x y] tells whether [x]
    may stay in front of a [y] that followed it in the input. *)
Section stable_sort.
Context {A : Type} (before : A -> A -> bool).

Fixpoint insert_sorted (x : A) (l : list A) : list A :=
  match l with
  | [] => [x]
  | y :: rest => if before x y then x :: y :: rest else y :: insert_sorted x rest
  end.

Definition sorted (l : list A) : list A := foldr insert_sorted [] l.

End stable_sort.

(** ** [market_data.py]: [DynamicTargetPool] *)
Module Pool.
Local Open Scope Q_scope.

(** The data of a target: its numeric fields by name ([score],
    [last_update], [last_price], ...).  Fields that hold no number play no
    part in the modelled methods. *)
Abbreviation TargetData := (gmap string Q).

Record FailureRecord : Type := {
  f_count : Z;
  last_failure : Q;
  reasons : list string
}.

Record SuccessRecord : Type := {
  s_count : Z;
  last_success : Q;
  s_data : TargetData
}.

Record DynamicTargetPool : Type := {
  targets : list (string * TargetData);
  max_pool_size : Z;
  last_full_refresh : Q;
  attempt_failures : gmap string FailureRecord;
  success_history : gmap string SuccessRecord
}.

(** [DynamicTargetPool.__init__] *)
Definition new_pool (max_pool_size : Z) : DynamicTargetPool :=
  {| targets := []; max_pool_size := max_pool_size; last_full_refresh := 0;
     attempt_failures := ∅; success_history := ∅ |}.

Definition with_targets (self : DynamicTargetPool)
    (t : list (string * TargetData)) : DynamicTargetPool :=
  {| targets := t; max_pool_size := max_pool_size self;
     last_full_refresh := last_full_refresh self;
     attempt_failures := attempt_failures self;
     success_history := success_history self |}.

(** The sort key [x[1].get('score', 0)]. *)
Definition score_of (x : string * TargetData) : Q := default 0 (x.2 !! "score").

(** Lines 50-58: the entry merged or inserted, stamped with the clock. *)
Definition upsert_entry (targets : list (string * TargetData)) (symbol : string)
    (data : TargetData) (current_time : Q) : list (string * TargetData) :=
  match Dict.get symbol targets with
  | Some old => Dict.set symbol (<["last_update" := current_time]> (data ∪ old)) targets
  | None => Dict.set symbol (<["last_update" := current_time]> data) targets
  end.

(** Lines 65-67: [for i in range(to_remove): del targets[sorted_targets[i][0]]] *)
Fixpoint evict (sorted_targets : list (string * TargetData)) (indices : list nat)
    (targets : list (string * TargetData)) : result (list (string * TargetData)) :=
  match indices with
  | [] => Ok targets
  | i :: rest =>
      match sorted_targets !! i with
      | None => Raise IndexError
      | Some (symbol_to_remove, _) =>
          targets ← Dict.del symbol_to_remove targets;
          evict sorted_targets rest targets
      end
  end.

(** Lines 61-67: the pool cut down to [max_pool_size]. *)
Definition limit_pool (max_pool_size : Z) (targets : list (string * TargetData))
    : result (list (string * TargetData)) :=
  if (max_pool_size <? Z.of_nat (length targets))%Z then
    let sorted_targets :=
      sorted (fun x y => Qle_bool (score_of x) (score_of y)) targets in
    let to_remove := (Z.of_nat (length targets) - max_pool_size)%Z in
    evict sorted_targets (seq 0 (Z.to_nat to_remove)) targets
  else Ok targets.

(** [add_or_update_target]; [current_time] is [time.time()]. *)
Definition add_or_update_target (self : DynamicTargetPool) (symbol : string)
    (data : TargetData) (current_time : Q) : result DynamicTargetPool :=
  let merged := upsert_entry (targets self) symbol data current_time in
  kept ← limit_pool (max_pool_size self) merged;
  mret (with_targets self kept).

Definition with_failures (self : DynamicTargetPool)
    (f : gmap string FailureRecord) : DynamicTargetPool :=
  {| targets := targets self; max_pool_size := max_pool_size self;
     last_full_refresh := last_full_refresh self;
     attempt_failures := f;
     success_history := success_history self |}.

Definition with_successes (self : DynamicTargetPool)
    (h : gmap string SuccessRecord) : DynamicTargetPool :=
  {| targets := targets self; max_pool_size := max_pool_size self;
     last_full_refresh := last_full_refresh self;
     attempt_failures := attempt_failures self;
     success_history := h |}.

(** [targets[symbol]['score'] *= factor]: the pool afterwards, or the
    [KeyError] of a target that has no score. *)
Definition scale_score (self : DynamicTargetPool) (symbol : string)
    (data : TargetData) (factor : Q) : DynamicTargetPool * result () :=
  match data !! "score" with
  | Some score =>
      (with_targets self
         (Dict.set symbol (<["score" := score * factor]> data) (targets self)),
       Ok ())
  | None => (self, Raise KeyError)
  end.

(** [record_attempt_failure]: the pool afterwards and how the call ended.
    The failure is booked before the score is touched, so it stays booked
    when the score update raises. *)
Definition record_attempt_failure (self : DynamicTargetPool)
    (symbol reason : string) (current_time : Q) : DynamicTargetPool * result () :=
  let record :=
    match attempt_failures self !! symbol with
    | None =>
        {| f_count := 1; last_failure := current_time; reasons := [reason] |}
    | Some f =>
        {| f_count := f_count f + 1; last_failure := current_time;
           reasons := reasons f ++ [reason] |}
    end in
  let self := with_failures self (<[symbol := record]> (attempt_failures self)) in
  match Dict.get symbol (targets self) with
  | Some data =>
      let failure_count := f_count record in
      let penalty_factor := py_min (1 # 2) (inject_Z failure_count * (1 # 10)) in
      scale_score self symbol data (1 - penalty_factor)
  | None => (self, Ok ())
  end.

(** [record_success] *)
Definition record_success (self : DynamicTargetPool) (symbol : string)
    (data : option TargetData) (current_time : Q) : DynamicTargetPool * result () :=
  let record :=
    match success_history self !! symbol with
    | None =>
        {| s_count := 1; last_success := current_time; s_data := default ∅ data |}
    | Some s =>
        {| s_count := s_count s + 1; last_success := current_time;
           s_data := match data with
                     | Some d => if bool_decide (d = ∅) then s_data s else d
                     | None => s_data s
                     end |}
    end in
  let self := with_successes self (<[symbol := record]> (success_history self)) in
  match Dict.get symbol (targets self) with
  | Some data =>
      let success_count := s_count record in
      let bonus_factor := py_min (3 # 10) (inject_Z success_count * (1 # 20)) in
      scale_score self symbol data (1 + bonus_factor)
  | None => (self, Ok ())
  end.

(** [is_symbol_cooling_down]; [current_time] is [time.time()]. *)
Definition is_symbol_cooling_down (self : DynamicTargetPool) (symbol : string)
    (current_time : Q) : bool :=
  match attempt_failures self !! symbol with
  | None => false
  | Some f =>
      let last_failure := last_failure f in
      let failure_count := f_count f in
      let cooling_period := Z.min 3600 (failure_count * 300) in
      Qltb (current_time - last_failure) (inject_Z cooling_period)
  end.

(** The slice [l[:count]], also for a negative [count]. *)
Definition py_slice_to {A} (l : list A) (count : Z) : list A :=
  if (0 <=? count)%Z then take (Z.to_nat count) l
  else take (Z.to_nat (Z.of_nat (length l) + count)) l.

(** The targets [get_top_targets] keeps, in dictionary order. *)
Definition available_targets (self : DynamicTargetPool) (exclude_cooling : bool)
    (current_time : Q) : list (string * TargetData) :=
  filter
    (fun x => negb (exclude_cooling && is_symbol_cooling_down self x.1 current_time))
    (targets self).

(** [get_top_targets] *)
Definition get_top_targets (self : DynamicTargetPool) (count : Z)
    (exclude_cooling : bool) (current_time : Q) : list string :=
  let available_targets := available_targets self exclude_cooling current_time in
  let sorted_targets :=
    sorted (fun x y => Qle_bool (score_of y) (score_of x)) available_targets in
  let top_targets := py_slice_to sorted_targets count in
  top_targets.*1.

(** A dictionary holds a key once. *)
Definition well_formed (self : DynamicTargetPool) : Prop :=
  NoDup (Dict.keys (targets self)).

Definition size (self : DynamicTargetPool) : Z := Z.of_nat (length (targets self)).

(** A sequence of [add_or_update_target] calls: symbol, data and clock. *)
Fixpoint upserts (self : DynamicTargetPool) (ops : list (string * TargetData * Q))
    : result DynamicTargetPool :=
  match ops with
  | [] => Ok self
  | (symbol, data, current_time) :: rest =>
      self ← add_or_update_target self symbol data current_time;
      upserts self rest
  end.

(** Every score of the pool lies in [0, 100]. *)
Definition scores_in_range (self : DynamicTargetPool) : Prop :=
  forall x, x ∈ targets self -> 0 <= score_of x /\ score_of x <= 100.

(** [y] scores at least as much as [x]. *)
Definition score_le (x y : string * TargetData) : Prop :=
  score_of x <= score_of y.

(** The targets [get_top_targets] may return that score at least as much as
    [x]; [x] is one of them when it may be returned. *)
Definition rivals (self : DynamicTargetPool) (current_time : Q)
    (x : string * TargetData) : list (string * TargetData) :=
  filter (fun y => Qle_bool (score_of x) (score_of y))
    (available_targets self true current_time).

(** The failure counters start at 1 and only grow. *)
Definition failures_counted (self : DynamicTargetPool) : Prop :=
  forall symbol f, attempt_failures self !! symbol = Some f -> (1 <= f_count f)%Z.

End Pool.

(** ** [position.py]: [PositionManager] *)
Module Position.
Local Open Scope Q_scope.

(** An entry of [active_trades].  [partially_closed] is [false] for a record
    that has no such key, as [.get('partially_closed')] is then [None]. *)
Record ActiveTrade : Type := {
  at_side : string;
  at_quantity : Q;
  at_entry_price : Q;
  at_leverage : Z;
  at_stop_loss : Q;
  at_partially_closed : bool
}.

(** An entry of [stop_orders]. *)
Record StopOrder : Type := {
  so_order_id : option Z;
  so_price : Q;
  so_quantity : Q
}.

(** What the venue answers to an accepted order, as far as it is read. *)
Record OrderResult : Type := {
  orderId : option Z;
  avgPrice : option Q;
  executedQty : option Q
}.

(** The requests sent to the venue. *)
Inductive request : Type :=
| CancelAll (symbol : string)
| StopMarket (symbol side : string) (quantity stop_price : Q)
| Market (symbol side : string) (quantity : Q) (reduce_only : bool).

Record PositionManager : Type := {
  risk_manager : Risk.RiskManager;
  strategy : StrategyParams;
  active_trades : gmap string ActiveTrade;
  stop_orders : gmap string StopOrder
}.

(** [update_stop_loss].  [symbol_info] is the answer of
    [get_symbol_precision], [stop_reply] the answer of
    [create_stop_market_order]: an exception, a falsy result ([None]) or an
    order.  [cancel_pending_orders] catches its own exceptions and changes
    nothing in the manager.  The result is the manager afterwards, the
    requests sent and the value returned. *)
Definition update_stop_loss (self : PositionManager) (symbol : string)
    (new_stop_price : Q) (symbol_info : result SymbolInfo)
    (stop_reply : result (option OrderResult))
    : PositionManager * list request * option StopOrder :=
  match Risk.get_position_for_symbol (risk_manager self) symbol with
  | None => (self, [], None)
  | Some position =>
      match symbol_info with
      | Raise _ => (self, [], None)
      | Ok info =>
          let price_precision := price_precision info in
          let new_stop_price := py_round new_stop_price price_precision in
          let reduce_side :=
            if bool_decide (pos_side position = "LONG") then "SELL" else "BUY" in
          let cancel :=
            match stop_orders self !! symbol with
            | Some _ => [CancelAll symbol]
            | None => []
            end in
          let sent :=
            cancel ++ [StopMarket symbol reduce_side (Qabs (pos_amount position))
                         new_stop_price] in
          match stop_reply with
          | Ok (Some stop_order) =>
              let entry := {| so_order_id := orderId stop_order;
                              so_price := new_stop_price;
                              so_quantity := Qabs (pos_amount position) |} in
              let trades :=
                match active_trades self !! symbol with
                | Some t =>
                    <[symbol := {| at_side := at_side t;
                                   at_quantity := at_quantity t;
                                   at_entry_price := at_entry_price t;
                                   at_leverage := at_leverage t;
                                   at_stop_loss := new_stop_price;
                                   at_partially_closed := at_partially_closed t |}]>
                      (active_trades self)
                | None => active_trades self
                end in
              ({| risk_manager := risk_manager self; strategy := strategy self;
                  active_trades := trades;
                  stop_orders := <[symbol := entry]> (stop_orders self) |},
               sent, Some entry)
          | _ => (self, sent, None)
          end
      end
  end.

(** [update_trailing_stop] *)
Definition update_trailing_stop (self : PositionManager) (symbol : string)
    (current_price : Q) (symbol_info : result SymbolInfo)
    (stop_reply : result (option OrderResult))
    : PositionManager * list request * option StopOrder :=
  match Risk.get_position_for_symbol (risk_manager self) symbol with
  | None => (self, [], None)
  | Some position =>
      if negb (trailing_sl (strategy self)) then (self, [], None)
      else
        match stop_orders self !! symbol with
        | None => (self, [], None)
        | Some order =>
            let current_stop := so_price order in
            let st := strategy self in
            let unchanged := (self, [], stop_orders self !! symbol) in
            let moved new_stop :=
              let '(self', sent, _) :=
                update_stop_loss self symbol new_stop symbol_info stop_reply in
              (self', sent, stop_orders self' !! symbol) in
            if bool_decide (pos_side position = "LONG") then
              let trailing_distance := current_price * (trailing_sl_distance st / 100) in
              let new_stop := current_price - trailing_distance in
              if Qltb current_stop new_stop then
                let threshold := current_stop * (1 + trailing_sl_interval st / 100) in
                if Qltb threshold new_stop then moved new_stop else unchanged
              else unchanged
            else
              let trailing_distance := current_price * (trailing_sl_distance st / 100) in
              let new_stop := current_price + trailing_distance in
              if Qltb new_stop current_stop then
                let threshold := current_stop * (1 - trailing_sl_interval st / 100) in
                if Qltb new_stop threshold then moved new_stop else unchanged
              else unchanged
        end
  end.

(** *** The trailing stop between its awaits

    [update_trailing_stop] and [update_stop_loss] take no lock, and two
    tasks await [update_trailing_stop]: the position monitor (main.py line
    395) and [check_and_process_signal] (line 548).  A call reads the
    stored stop at line 283, before its first await, and writes it at line
    348, after its last, so other calls can run in between.  A [stage] is
    a point at which a call is suspended, with the local variables it
    still reads, or its return. *)
Inductive stage : Type :=
| AwaitPrecision (position : Position) (new_stop_price : Q)
| AwaitCancel (position : Position) (new_stop_price : Q)
| AwaitStopOrder (position : Position) (new_stop_price : Q)
| Returned (r : option StopOrder).

(** What comes back from the request a call is suspended at:
    [get_symbol_precision], [cancel_pending_orders] (which catches its own
    exceptions) and [create_stop_market_order]. *)
Inductive answer : Type :=
| PrecisionIs (symbol_info : result SymbolInfo)
| CancelDone
| StopOrderIs (stop_reply : result (option OrderResult)).

(** From the entry of [update_trailing_stop] to the first await, which is
    the [get_symbol_precision] of [update_stop_loss] (lines 269-325). *)
Definition trailing_begin (self : PositionManager) (symbol : string)
    (current_price : Q) : stage :=
  match Risk.get_position_for_symbol (risk_manager self) symbol with
  | None => Returned None
  | Some position =>
      if negb (trailing_sl (strategy self)) then Returned None
      else
        match stop_orders self !! symbol with
        | None => Returned None
        | Some order =>
            let current_stop := so_price order in
            let st := strategy self in
            let unchanged := Returned (stop_orders self !! symbol) in
            let moved new_stop :=
              match Risk.get_position_for_symbol (risk_manager self) symbol with
              | None => unchanged
              | Some position => AwaitPrecision position new_stop
              end in
            if bool_decide (pos_side position = "LONG") then
              let trailing_distance := current_price * (trailing_sl_distance st / 100) in
              let new_stop := current_price - trailing_distance in
              if Qltb current_stop new_stop then
                let threshold := current_stop * (1 + trailing_sl_interval st / 100) in
                if Qltb threshold new_stop then moved new_stop else unchanged
              else unchanged
            else
              let trailing_distance := current_price * (trailing_sl_distance st / 100) in
              let new_stop := current_price + trailing_distance in
              if Qltb new_stop current_stop then
                let threshold := current_stop * (1 - trailing_sl_interval st / 100) in
                if Qltb new_stop threshold then moved new_stop else unchanged
              else unchanged
        end
  end.

(** From one await to the next (lines 326-370 and 311): [self] is the
    manager as it is when the answer arrives.  The result is the manager,
    the request sent on the way and the stage reached.  An answer is
    delivered only to the request it answers. *)
Definition trailing_resume (self : PositionManager) (symbol : string)
    (at_stage : stage) (a : answer) : PositionManager * list request * stage :=
  let reduce_side position :=
    if bool_decide (pos_side position = "LONG") then "SELL" else "BUY" in
  let stop_request position new_stop_price :=
    StopMarket symbol (reduce_side position) (Qabs (pos_amount position))
      new_stop_price in
  match at_stage, a with
  | AwaitPrecision position new_stop_price, PrecisionIs (Raise _) =>
      (self, [], Returned (stop_orders self !! symbol))
  | AwaitPrecision position new_stop_price, PrecisionIs (Ok info) =>
      let new_stop_price := py_round new_stop_price (price_precision info) in
      match stop_orders self !! symbol with
      | Some _ => (self, [CancelAll symbol], AwaitCancel position new_stop_price)
      | None =>
          (self, [stop_request position new_stop_price],
           AwaitStopOrder position new_stop_price)
      end
  | AwaitCancel position new_stop_price, CancelDone =>
      (self, [stop_request position new_stop_price],
       AwaitStopOrder position new_stop_price)
  | AwaitStopOrder position new_stop_price, StopOrderIs (Ok (Some stop_order)) =>
      let entry := {| so_order_id := orderId stop_order;
                      so_price := new_stop_price;
                      so_quantity := Qabs (pos_amount position) |} in
      let trades :=
        match active_trades self !! symbol with
        | Some t =>
            <[symbol := {| at_side := at_side t;
                           at_quantity := at_quantity t;
                           at_entry_price := at_entry_price t;
                           at_leverage := at_leverage t;
                           at_stop_loss := new_stop_price;
                           at_partially_closed := at_partially_closed t |}]>
              (active_trades self)
        | None => active_trades self
        end in
      let self := {| risk_manager := risk_manager self; strategy := strategy self;
                     active_trades := trades;
                     stop_orders := <[symbol := entry]> (stop_orders self) |} in
      (self, [], Returned (stop_orders self !! symbol))
  | AwaitStopOrder position new_stop_price, StopOrderIs _ =>
      (self, [], Returned (stop_orders self !! symbol))
  | _, _ => (self, [], at_stage)
  end.

(** A suspended call runs to its return with nothing in between: the
    precision, the cancellation and the stop order are answered in this
    order. *)
Definition trailing_finish (self : PositionManager) (symbol : string)
    (at_stage : stage) (symbol_info : result SymbolInfo)
    (stop_reply : result (option OrderResult))
    : PositionManager * list request * option StopOrder :=
  let '(self, sent1, at_stage) :=
    trailing_resume self symbol at_stage (PrecisionIs symbol_info) in
  let '(self, sent2, at_stage) := trailing_resume self symbol at_stage CancelDone in
  let '(self, sent3, at_stage) :=
    trailing_resume self symbol at_stage (StopOrderIs stop_reply) in
  (self, sent1 ++ sent2 ++ sent3,
   match at_stage with Returned r => r | _ => None end).

(** The manager after other calls of [update_trailing_stop] for the symbol
    have run from entry to return, each with its price and its answers. *)
Definition meanwhile (self : PositionManager) (symbol : string)
    (others : list (Q * result SymbolInfo * result (option OrderResult)))
    : PositionManager :=
  foldl (fun self '(current_price, symbol_info, stop_reply) =>
           (update_trailing_stop self symbol current_price symbol_info
              stop_reply).1.1)
        self others.

(** The candidate stop and the anti-chatter threshold in the words of the
    specification: [currentPrice * (1 -/+ trailDistance/100)] and
    [currentStop * (1 +/- trailInterval/100)]. *)
Definition candidate_stop (st : StrategyParams) (side : string)
    (current_price : Q) : Q :=
  if bool_decide (side = "LONG")
  then current_price * (1 - trailing_sl_distance st / 100)
  else current_price * (1 + trailing_sl_distance st / 100).

Definition chatter_threshold (st : StrategyParams) (side : string)
    (current_stop : Q) : Q :=
  if bool_decide (side = "LONG")
  then current_stop * (1 + trailing_sl_interval st / 100)
  else current_stop * (1 - trailing_sl_interval st / 100).

(** [x] lies beyond [bound] in the direction that favours the position:
    above it for LONG, below it for SHORT. *)
Definition beyond (side : string) (bound x : Q) : Prop :=
  if bool_decide (side = "LONG") then bound < x else x < bound.

(** [new] is not on the unfavourable side of [old]. *)
Definition not_worse (side : string) (old new : Q) : Prop :=
  if bool_decide (side = "LONG") then old <= new else new <= old.

(** A price the rounding to the symbol's price precision leaves alone. *)
Definition on_grid (info : SymbolInfo) (price : Q) : Prop :=
  py_round price (price_precision info) == price.

(** The body of the [try] of [process_partial_close].  [market_reply] is the
    answer of [create_market_order], [today] the date [record_trade] reads.
    No statement changes the manager before the last one that can raise, so
    a raised exception leaves the manager as it was; the requests sent are
    kept beside the result. *)
Definition process_partial_close_body (self : PositionManager) (symbol : string)
    (current_price : Q) (market_reply : result (option OrderResult))
    (today : string)
    : list request * result (PositionManager * option Risk.TradeRecord) :=
  let st := strategy self in
  if negb (partial_close_enabled st) then ([], Ok (self, None))
  else
    match Risk.get_position_for_symbol (risk_manager self) symbol with
    | None => ([], Ok (self, None))
    | Some position =>
        match Risk._calculate_position_pnl_percent position current_price with
        | Raise e => ([], Raise e)
        | Ok pnl_pct =>
            if Qltb (partial_close_threshold st) pnl_pct then
              if match active_trades self !! symbol with
                 | Some t => at_partially_closed t
                 | None => false
                 end
              then ([], Ok (self, None))
              else
                let close_pct := partial_close_percentage st in
                let close_qty := Qabs (pos_amount position) * (close_pct / 100) in
                let close_side :=
                  if bool_decide (pos_side position = "LONG") then "SELL" else "BUY" in
                let sent := [Market symbol close_side close_qty true] in
                match market_reply with
                | Raise e => (sent, Raise e)
                | Ok None => (sent, Ok (self, None))
                | Ok (Some order_result) =>
                    let filled_price := default current_price (avgPrice order_result) in
                    let filled_qty := default close_qty (executedQty order_result) in
                    let pnl :=
                      if bool_decide (pos_side position = "LONG")
                      then (filled_price - pos_entry_price position) * filled_qty
                      else (pos_entry_price position - filled_price) * filled_qty in
                    let '(rm, trade_info) :=
                      Risk.record_trade (risk_manager self) today symbol
                        close_side filled_qty (pos_entry_price position)
                        (Some filled_price) (Some pnl) "TP" in
                    let trades :=
                      match active_trades self !! symbol with
                      | Some t =>
                          <[symbol := {| at_side := at_side t;
                                         at_quantity := at_quantity t - filled_qty;
                                         at_entry_price := at_entry_price t;
                                         at_leverage := at_leverage t;
                                         at_stop_loss := at_stop_loss t;
                                         at_partially_closed := true |}]>
                            (active_trades self)
                      | None => active_trades self
                      end in
                    (sent,
                     Ok ({| risk_manager := rm; strategy := strategy self;
                            active_trades := trades;
                            stop_orders := stop_orders self |},
                         Some trade_info))
                end
            else ([], Ok (self, None))
        end
    end.

(** [process_partial_close]: the manager afterwards, the requests sent and
    the value returned ([None] also when the body raised). *)
Definition process_partial_close (self : PositionManager) (symbol : string)
    (current_price : Q) (market_reply : result (option OrderResult))
    (today : string)
    : PositionManager * list request * option Risk.TradeRecord :=
  match process_partial_close_body self symbol current_price market_reply today with
  | (sent, Ok (self', r)) => (self', sent, r)
  | (sent, Raise _) => (self, sent, None)
  end.

(** One pass of the monitor over a symbol: the positions the account
    refresh reports, the mark price, and what the venue answers to the
    partial close. *)
Record Tick : Type := {
  tick_positions : list Position;
  tick_price : Q;
  tick_reply : result (option OrderResult);
  tick_today : string
}.

Definition refresh_positions (self : PositionManager) (positions : list Position)
    : PositionManager :=
  let rm := risk_manager self in
  {| risk_manager :=
       {| Risk.strategy := Risk.strategy rm; Risk.balances := Risk.balances rm;
          Risk.open_positions := positions;
          Risk.position_history := Risk.position_history rm;
          Risk.daily_pnl := Risk.daily_pnl rm; Risk.drawdown := Risk.drawdown rm;
          Risk.initial_balance := Risk.initial_balance rm;
          Risk.peak_balance := Risk.peak_balance rm;
          Risk.protection_mode := Risk.protection_mode rm |};
     strategy := strategy self; active_trades := active_trades self;
     stop_orders := stop_orders self |}.

(** [process_partial_close] of one symbol over successive passes: the
    manager at the end and the trades the calls returned, in order. *)
Fixpoint partial_close_run (self : PositionManager) (symbol : string)
    (ticks : list Tick) : PositionManager * list Risk.TradeRecord :=
  match ticks with
  | [] => (self, [])
  | t :: rest =>
      let self := refresh_positions self (tick_positions t) in
      let '(self, _, r) :=
        process_partial_close self symbol (tick_price t) (tick_reply t)
          (tick_today t) in
      let '(self, closes) := partial_close_run self symbol rest in
      (self, from_option (fun x => [x]) [] r ++ closes)
  end.

(** A pass at which the account refresh lists a position of the symbol
    whose profit is above [partial_close_threshold] at the pass's price,
    and the venue accepts the market order. *)
Definition pass_in_profit (self : PositionManager) (symbol : string) (t : Tick)
    : Prop :=
  exists position pnl_pct order_result,
    Risk.get_position_for_symbol
      (risk_manager (refresh_positions self (tick_positions t))) symbol
    = Some position /\
    Risk._calculate_position_pnl_percent position (tick_price t) = Ok pnl_pct /\
    partial_close_threshold (strategy self) < pnl_pct /\
    tick_reply t = Ok (Some order_result).

End Position.

(** ** The states of the scenarios *)
Module Scenario.
Local Open Scope Q_scope.

(** An account of 10000 USDT, all of it available. *)
Definition account_10000 : gmap string Risk.Balance :=
  {[ "USDT" := {| Risk.wallet_balance := 10000; Risk.unrealized_pnl := 0;
                  Risk.margin_balance := 10000;
                  Risk.available_balance := 10000;
                  Risk.max_withdraw_amount := 10000 |} ]}.

(** Scenario A: the default parameters (risk 1%, automatic leverage, at
    most 10x) on that account, no position open. *)
Definition manager_A : Risk.RiskManager :=
  {| Risk.strategy := DEFAULT_PARAMS; Risk.balances := account_10000;
     Risk.open_positions := []; Risk.position_history := [];
     Risk.daily_pnl := ∅; Risk.drawdown := 0;
     Risk.initial_balance := 10000; Risk.peak_balance := 10000;
     Risk.protection_mode := false |}.

(** A symbol with lot step 0.001, tick 0.01 and the default minimum
    notional of [get_symbol_precision]. *)
Definition symbol_A : SymbolInfo :=
  {| price_precision := 2; qty_precision := 3; min_qty := 1 # 1000;
     tick_size := 1 # 100; min_notional := 5 |}.

(** The same manager with the circuit breaker on. *)
Definition manager_protected : Risk.RiskManager :=
  {| Risk.strategy := DEFAULT_PARAMS; Risk.balances := account_10000;
     Risk.open_positions := []; Risk.position_history := [];
     Risk.daily_pnl := ∅; Risk.drawdown := 0;
     Risk.initial_balance := 10000; Risk.peak_balance := 10000;
     Risk.protection_mode := true |}.

(** The default parameters with [POSITION_SIZE_TYPE=FIXED]. *)
Definition params_fixed : StrategyParams :=
  {| max_open_positions := 5; max_daily_trades := 20;
     account_risk_per_trade := 1; max_account_risk := 5; max_drawdown := 10;
     default_leverage := 3; max_leverage := 10; auto_leverage := true;
     static_sl_percent := 2; trailing_sl := true; trailing_sl_distance := 1;
     trailing_sl_interval := 1 # 2; position_size_type := "FIXED";
     fixed_position_size := 100; partial_close_enabled := true;
     partial_close_threshold := 2; partial_close_percentage := 50;
     profit_threshold_daily := 3; loss_threshold_daily := 5 |}.

(** Scenario C: a pool of three scored targets in which [XRPUSDT] has
    failed three times, the last time at clock 1000. *)
Definition pool_C : Pool.DynamicTargetPool :=
  {| Pool.targets :=
       [("BTCUSDT", {[ "score" := 70 ]}); ("XRPUSDT", {[ "score" := 60 ]});
        ("ETHUSDT", {[ "score" := 65 ]})];
     Pool.max_pool_size := 100; Pool.last_full_refresh := 0;
     Pool.attempt_failures :=
       {[ "XRPUSDT" := {| Pool.f_count := 3; Pool.last_failure := 1000;
                          Pool.reasons := ["a"; "b"; "c"] |} ]};
     Pool.success_history := ∅ |}.

(** A pool whose one target has the score 100 and no trade behind it. *)
Definition pool_top_score : Pool.DynamicTargetPool :=
  {| Pool.targets := [("BTCUSDT", {[ "score" := 100 ]})];
     Pool.max_pool_size := 100; Pool.last_full_refresh := 0;
     Pool.attempt_failures := ∅; Pool.success_history := ∅ |}.

(** A long position of 10 coins entered at 0.5, and the account that
    holds it. *)
Definition long_position : Position :=
  {| pos_symbol := "DOGEUSDT"; pos_amount := 10; pos_entry_price := 1 # 2;
     pos_mark_price := 5097 # 10000; pos_leverage := 3; pos_side := "LONG" |}.

Definition manager_long : Risk.RiskManager :=
  {| Risk.strategy := DEFAULT_PARAMS; Risk.balances := account_10000;
     Risk.open_positions := [long_position]; Risk.position_history := [];
     Risk.daily_pnl := ∅; Risk.drawdown := 0;
     Risk.initial_balance := 10000; Risk.peak_balance := 10000;
     Risk.protection_mode := false |}.

(** The position manager of that position, with a stop at 0.502 stored as
    [calculate_stop_loss] returns it when it falls back to the unrounded
    price. *)
Definition trader_off_grid : Position.PositionManager :=
  {| Position.risk_manager := manager_long;
     Position.strategy := DEFAULT_PARAMS;
     Position.active_trades := ∅;
     Position.stop_orders :=
       {[ "DOGEUSDT" := {| Position.so_order_id := Some 1%Z;
                           Position.so_price := 502 # 1000;
                           Position.so_quantity := 10 |} ]} |}.

(** The same position with a stop at 0.49, a price of two decimals. *)
Definition trader_on_grid : Position.PositionManager :=
  {| Position.risk_manager := manager_long;
     Position.strategy := DEFAULT_PARAMS;
     Position.active_trades := ∅;
     Position.stop_orders :=
       {[ "DOGEUSDT" := {| Position.so_order_id := Some 1%Z;
                           Position.so_price := 49 # 100;
                           Position.so_quantity := 10 |} ]} |}.

(** A symbol with tick 0.01. *)
Definition symbol_two_decimals : SymbolInfo :=
  {| price_precision := 2; qty_precision := 0; min_qty := 1;
     tick_size := 1 # 100; min_notional := 5 |}.

(** The venue accepts the order and reports nothing about its fill. *)
Definition accepted : result (option Position.OrderResult) :=
  Ok (Some {| Position.orderId := Some 2%Z; Position.avgPrice := None;
              Position.executedQty := None |}).

(** The position manager when the bot itself opened the position. *)
Definition trader_tracked : Position.PositionManager :=
  {| Position.risk_manager := manager_long;
     Position.strategy := DEFAULT_PARAMS;
     Position.active_trades :=
       {[ "DOGEUSDT" := {| Position.at_side := "LONG";
                           Position.at_quantity := 10;
                           Position.at_entry_price := 1 # 2;
                           Position.at_leverage := 3;
                           Position.at_stop_loss := 49 # 100;
                           Position.at_partially_closed := false |} ]};
     Position.stop_orders := ∅ |}.

(** A pass of the monitor at the price 0.52, four percent above the
    entry, the venue accepting the order. *)
Definition tick_in_profit : Position.Tick :=
  {| Position.tick_positions := [long_position];
     Position.tick_price := 52 # 100;
     Position.tick_reply := accepted;
     Position.tick_today := "2026-01-05" |}.

(** The position manager when the position was opened by hand: the account
    refresh reports it, [active_trades] has no record of it. *)
Definition trader_untracked : Position.PositionManager :=
  {| Position.risk_manager := manager_long;
     Position.strategy := DEFAULT_PARAMS;
     Position.active_trades := ∅;
     Position.stop_orders := ∅ |}.

(** The next pass: the venue now reports the 5 coins that are left. *)
Definition long_position_halved : Position :=
  {| pos_symbol := "DOGEUSDT"; pos_amount := 5; pos_entry_price := 1 # 2;
     pos_mark_price := 52 # 100; pos_leverage := 3; pos_side := "LONG" |}.

Definition tick_after_close : Position.Tick :=
  {| Position.tick_positions := [long_position_halved];
     Position.tick_price := 52 # 100;
     Position.tick_reply := accepted;
     Position.tick_today := "2026-01-05" |}.

(** The venue accepts the order and reports 3 coins executed. *)
Definition partly_filled : result (option Position.OrderResult) :=
  Ok (Some {| Position.orderId := Some 2%Z; Position.avgPrice := Some (52 # 100);
              Position.executedQty := Some 3 |}).

Definition manager_fixed : Risk.RiskManager :=
  {| Risk.strategy := params_fixed; Risk.balances := account_10000;
     Risk.open_positions := []; Risk.position_history := [];
     Risk.daily_pnl := ∅; Risk.drawdown := 0;
     Risk.initial_balance := 10000; Risk.peak_balance := 10000;
     Risk.protection_mode := false |}.

End Scenario.

(** * The gateway methods built on [api_retry] (binance_client.py) *)

Module Methods.
Import Gateway.
Local Open Scope Q_scope.

(** The sum of a list of durations, for the time an event list spends
    asleep. *)
Definition total (l : list Q) : Q := foldr Qplus 0 l.

Section methods.
Context {V : Type}.

(** What the python-binance function does at each attempt. *)
Variable func : Z -> result V.

(** [create_market_order], lines 393-406: the parameters are put together
    and the method is [return await self.api_retry(...)] under
    [@exception_handler].  [create_limit_order], [create_stop_market_order],
    [create_take_profit_market_order], [create_trailing_stop_order],
    [cancel_all_open_orders], [get_all_orders] and [get_open_orders] have
    the same shape. *)
Definition create_market_order (self : BinanceClient) (now finish : Q)
    : BinanceClient * list event * result (option V) :=
  let '(self', events, r) := api_retry func self now finish in
  (self', events, exception_handler r).

(** What ["No need to change margin type" in str(e)] answers for an API
    error, and the dictionary returned in that case. *)
Variable no_need_to_change : option Z -> bool.
Variable already_set : V.

(** [set_margin_type], lines 379-391: an [except BinanceAPIException]
    around the call of [api_retry], under [@exception_handler]. *)
Definition set_margin_type (self : BinanceClient) (now finish : Q)
    : BinanceClient * list event * result (option V) :=
  let '(self', events, r) := api_retry func self now finish in
  let handled :=
    match r with
    | Raise (BinanceAPIException code) =>
        if no_need_to_change code then Ok (Some already_set)
        else Raise (BinanceAPIException code)
    | _ => r
    end in
  (self', events, exception_handler handled).

End methods.
End Methods.

(** * The opportunity score (market_data.py) *)

Module Market.
Import Pool.
Local Open Scope Q_scope.

(** [DynamicTargetPool.get_target_data], lines 188-198. *)
Definition get_target_data (self : DynamicTargetPool) (symbol : string)
    : option TargetData :=
  Dict.get symbol (targets self).

(** [d.get(key, fallback)] for a numeric field. *)
Definition get_or (d : TargetData) (key : string) (fallback : Q) : Q :=
  default fallback (d !! key).

(** Lines 871-882: the points for the 24 hour price change. *)
Definition price_change_score (price_change : Q) : Q :=
  if Qltb 10 (Qabs price_change) then 20
  else if Qltb 5 (Qabs price_change) then 15
  else if Qltb 2 (Qabs price_change) then 10
  else 5.

(** Lines 888-892: the bonus for a volatile market. *)
Definition volatility_bonus (volatility_score : Q) : Q :=
  if Qltb 3 volatility_score then 10
  else if Qltb 2 volatility_score then 5
  else 0.

(** Lines 895-954: the points of the technical indicators; 0 when there are
    none ([if technical_data:] is false for an empty dictionary). *)
Definition technical_score (technical_data : TargetData) : Q :=
  if bool_decide (technical_data = ∅) then 0
  else
    let rsi := get_or technical_data "rsi" 50 in
    let rsi_score := if Qltb rsi 30 then 15 else if Qltb 70 rsi then 10 else 5 in
    let rsi_trend := get_or technical_data "rsi_trend" 0 in
    let rsi_score := if Qeq_bool rsi_trend 0 then rsi_score else rsi_score + 5 in
    let macd := get_or technical_data "macd" 0 in
    let macd_signal := get_or technical_data "macd_signal" 0 in
    let macd_score :=
      if (Qltb 0 macd && Qltb 0 macd_signal) || (Qltb macd 0 && Qltb macd_signal 0)
      then 5 else 0 in
    let macd_score :=
      if Qltb (Qabs (macd - macd_signal)) (5 # 10000) then macd_score + 10
      else macd_score in
    let ema_trend := get_or technical_data "ema_trend" 0 in
    let ema_score := if Qeq_bool ema_trend 0 then 0 else 10 in
    let adx := get_or technical_data "adx" 0 in
    let adx_score := if Qltb 30 adx then 15 else if Qltb 20 adx then 10 else 5 in
    let bb_width := get_or technical_data "bb_width" 1 in
    let bb_score :=
      if Qltb bb_width (1 # 10) then 15
      else if Qltb bb_width (2 # 10) then 10
      else 0 in
    (rsi_score + macd_score + ema_score + adx_score + bb_score) / 5.

(** Lines 956-960: the score before the factors of the pool's history. *)
Definition raw_score (price_data technical_data market_state : TargetData) : Q :=
  let base_score := 50 in
  let price_change := get_or price_data "price_change_24h" 0 in
  let volatility_score := get_or market_state "volatility_score" 1 in
  let final_score :=
    base_score + price_change_score price_change
    + volatility_bonus volatility_score in
  let technical_score := technical_score technical_data in
  if Qltb 0 technical_score then (final_score + technical_score) / 2
  else final_score.

(** Lines 962-976: the penalty for failed attempts. *)
Definition cooling_factor (pool : DynamicTargetPool) (symbol : string)
    (current_time : Q) : Q :=
  match attempt_failures pool !! symbol with
  | None => 1
  | Some failures =>
      let failure_count := inject_Z (f_count failures) in
      let time_since_failure := current_time - last_failure failures in
      if Qltb time_since_failure 3600 then
        py_max (3 # 10) (1 - failure_count * (1 # 10))
      else if Qltb time_since_failure 7200 then
        py_max (6 # 10) (1 - failure_count * (1 # 20))
      else 1
  end.

(** Lines 978-986: the bonus for past successes. *)
Definition success_factor (pool : DynamicTargetPool) (symbol : string) : Q :=
  match success_history pool !! symbol with
  | None => 1
  | Some success =>
      let success_count := inject_Z (s_count success) in
      py_min (15 # 10) (1 + success_count * (1 # 20))
  end.

(** [MarketDataManager.calculate_opportunity_score], lines 853-999.
    [market_state] is what [get_market_state] answers, [current_time] is
    [time.time()]; the [except] clause turns an exception into the score
    0. *)
Definition calculate_opportunity_score (pool : DynamicTargetPool)
    (symbol : string) (price_data technical_data : TargetData)
    (market_state : result TargetData) (current_time : Q) : Q :=
  let body : result Q :=
    market_state ← market_state;
    let final_score := raw_score price_data technical_data market_state in
    let final_score :=
      final_score * cooling_factor pool symbol current_time
      * success_factor pool symbol in
    mret (py_max 0 (py_min 100 final_score)) in
  match body with
  | Ok final_score => final_score
  | Raise _ => 0
  end.

(** [refresh_targets_data], lines 258-277, for one symbol whose price and
    ticker were read: the target data are put together, scored, and handed
    to [add_or_update_target].  [current_time] is the clock at the start of
    the refresh, [score_time] and [update_time] the clock inside the two
    calls. *)
Definition store_target (pool : DynamicTargetPool) (symbol : string)
    (last_price price_change_24h : Q) (technical_data : TargetData)
    (full_refresh : bool) (market_state : result TargetData)
    (current_time score_time update_time : Q) : result DynamicTargetPool :=
  let target_data : TargetData :=
    <["last_check" := current_time]>
      (<["price_change_24h" := price_change_24h]>
         {[ "last_price" := last_price ]}) in
  let opportunity_score :=
    calculate_opportunity_score pool symbol target_data
      (if full_refresh then technical_data else ∅) market_state score_time in
  let target_data := <["score" := opportunity_score]> target_data in
  let target_data := <["opportunity_score" := opportunity_score]> target_data in
  add_or_update_target pool symbol target_data update_time.

(** A pool that no success or failure was recorded in for the symbol. *)
Definition no_history (pool : DynamicTargetPool) (symbol : string) : Prop :=
  attempt_failures pool !! symbol = None /\ success_history pool !! symbol = None.

End Market.

(** * The rest of [RiskManager] (risk.py) *)

(** ** [update_account_info] *)
Module Account.
Import Risk.
Local Open Scope Q_scope.

(** [{pos['symbol']: pos for pos in positions}] *)
Definition by_symbol (positions : list Position) : list (string * Position) :=
  foldl (fun d pos => Dict.set (pos_symbol pos) pos d) [] positions.

Definition with_account (self : RiskManager) (b : gmap string Balance)
    (positions : list Position) : RiskManager :=
  {| strategy := strategy self; balances := b; open_positions := positions;
     position_history := position_history self; daily_pnl := daily_pnl self;
     drawdown := drawdown self; initial_balance := initial_balance self;
     peak_balance := peak_balance self;
     protection_mode := protection_mode self |}.

Definition with_peak_balance (self : RiskManager) (peak : Q) : RiskManager :=
  {| strategy := strategy self; balances := balances self;
     open_positions := open_positions self;
     position_history := position_history self; daily_pnl := daily_pnl self;
     drawdown := drawdown self; initial_balance := initial_balance self;
     peak_balance := peak;
     protection_mode := protection_mode self |}.

Definition with_drawdown (self : RiskManager) (d : Q) : RiskManager :=
  {| strategy := strategy self; balances := balances self;
     open_positions := open_positions self;
     position_history := position_history self; daily_pnl := daily_pnl self;
     drawdown := d; initial_balance := initial_balance self;
     peak_balance := peak_balance self;
     protection_mode := protection_mode self |}.

(** Lines 62-71: the body of the loop over the current positions. *)
Definition book_opened (previous_positions : list (string * Position))
    (today : string) (self : RiskManager) (item : string * Position)
    : RiskManager :=
  let '(symbol, pos) := item in
  match Dict.get symbol previous_positions with
  | None =>
      (record_trade self today symbol
         (if bool_decide (pos_side pos = "LONG") then "BUY" else "SELL")
         (Qabs (pos_amount pos)) (pos_entry_price pos) None None
         "MANUAL_OPEN").1
  | Some _ => self
  end.

(** Lines 82-93: the body of the loop over the previous positions. *)
Definition book_closed (current_positions : list (string * Position))
    (today : string) (self : RiskManager) (item : string * Position)
    : RiskManager :=
  let '(symbol, prev_pos) := item in
  match Dict.get symbol current_positions with
  | None =>
      (record_trade self today symbol
         (if bool_decide (pos_side prev_pos = "LONG") then "SELL" else "BUY")
         (Qabs (pos_amount prev_pos)) (pos_entry_price prev_pos) (Some 0) (Some 0)
         "MANUAL_CLOSE").1
  | Some _ => self
  end.

(** [update_account_info], lines 46-116.  [balances_reply] is the answer of
    [get_account_balance]; [positions_reply] is the answer of
    [get_open_positions], which catches its own exceptions and answers the
    empty list then; [today] is the date [record_trade] reads.  The
    balances are the first attribute assigned, so an exception of
    [get_account_balance] leaves the manager as it was. *)
Definition update_account_info (self : RiskManager)
    (balances_reply : result (gmap string Balance))
    (positions_reply : list Position) (today : string) : RiskManager * bool :=
  let previous_positions := by_symbol (open_positions self) in
  match balances_reply with
  | Raise _ => (self, false)
  | Ok b =>
      let self := with_account self b positions_reply in
      let current_positions := by_symbol (open_positions self) in
      let self := foldl (book_opened previous_positions today) self current_positions in
      let self := foldl (book_closed current_positions today) self previous_positions in
      let total_balance := get_total_balance self in
      let self :=
        if Qltb (peak_balance self) total_balance
        then with_peak_balance self total_balance else self in
      let self :=
        if Qltb 0 (peak_balance self)
        then with_drawdown self
               (((peak_balance self - total_balance) / peak_balance self) * 100)
        else self in
      (self, true)
  end.

(** The ledger lines of the two loops. *)
Definition manual_open (pos : Position) : TradeRecord :=
  {| tr_symbol := pos_symbol pos;
     tr_side := if bool_decide (pos_side pos = "LONG") then "BUY" else "SELL";
     tr_quantity := Qabs (pos_amount pos); tr_entry_price := pos_entry_price pos;
     tr_exit_price := None; tr_pnl := None; tr_type := "MANUAL_OPEN" |}.

Definition manual_close (pos : Position) : TradeRecord :=
  {| tr_symbol := pos_symbol pos;
     tr_side := if bool_decide (pos_side pos = "LONG") then "SELL" else "BUY";
     tr_quantity := Qabs (pos_amount pos); tr_entry_price := pos_entry_price pos;
     tr_exit_price := Some 0; tr_pnl := Some 0; tr_type := "MANUAL_CLOSE" |}.

(** The positions of [l] whose symbol no position of [others] has. *)
Definition missing_from (others l : list Position) : list Position :=
  filter (fun pos => pos_symbol pos ∉ pos_symbol <$> others) l.

(** The number of trades booked for a day. *)
Definition trades_on (self : RiskManager) (day : string) : Z :=
  match daily_pnl self !! day with
  | Some d => trade_count d
  | None => 0
  end.

(** What [record_trade] leaves alone. *)
Definition same_account (a b : RiskManager) : Prop :=
  strategy a = strategy b /\ balances a = balances b /\
  open_positions a = open_positions b /\ drawdown a = drawdown b /\
  initial_balance a = initial_balance b /\ peak_balance a = peak_balance b /\
  protection_mode a = protection_mode b.

(** The manager between the two loops and the balance arithmetic of
    [update_account_info]. *)
Definition booked (self : RiskManager) (b : gmap string Balance)
    (positions_reply : list Position) (today : string) : RiskManager :=
  foldl (book_closed (by_symbol positions_reply) today)
    (foldl (book_opened (by_symbol (open_positions self)) today)
       (with_account self b positions_reply) (by_symbol positions_reply))
    (by_symbol (open_positions self)).

End Account.

(** ** The protection mode *)
Module Protection.
Import Risk.
Local Open Scope Q_scope.

(** What [enter_protection_mode] is given as its reason. *)
Inductive reason : Type :=
| NoReason
| HighVolatility (btc_volatility : Q)
| RapidPositions (position_change_rate : Q)
| RapidDrawdown (drawdown : Q)
| ExtremeMovement.

(** The risk manager with the attributes the record [RiskManager] leaves
    out. *)
Record Guard : Type := {
  manager : RiskManager;
  protection_reason : reason;
  protection_start_time : option Q;
  position_history_timestamps : list Q
}.

Definition with_protection_mode (rm : RiskManager) (b : bool) : RiskManager :=
  {| strategy := strategy rm; balances := balances rm;
     open_positions := open_positions rm;
     position_history := position_history rm; daily_pnl := daily_pnl rm;
     drawdown := drawdown rm; initial_balance := initial_balance rm;
     peak_balance := peak_balance rm; protection_mode := b |}.

(** [_calculate_position_change_rate], lines 350-372; [now] is
    [datetime.now().timestamp()]. *)
Definition _calculate_position_change_rate (self : Guard) (now : Q) : Q :=
  let one_hour_ago := now - 3600 in
  let recent_positions :=
    length (filter (fun ts => Qltb one_hour_ago ts = true)
              (position_history_timestamps self)) in
  let one_day_ago := now - 86400 in
  let day_positions :=
    length (filter (fun ts => Qltb one_day_ago ts = true)
              (position_history_timestamps self)) in
  let hourly_avg :=
    if (0 <? day_positions)%nat then inject_Z (Z.of_nat day_positions) / 24 else 1 in
  if Qltb 0 hourly_avg then
    let change_rate := (inject_Z (Z.of_nat recent_positions) / hourly_avg - 1) * 100 in
    py_max 0 change_rate
  else 0.

(** [_is_rapid_drawdown] *)
Definition _is_rapid_drawdown (self : Guard) : bool :=
  Qltb 5 (drawdown (manager self)).

(** [enter_protection_mode]; [now] is [datetime.now()].
    [_tighten_all_stop_losses] is a stub that does nothing. *)
Definition enter_protection_mode (self : Guard) (r : reason) (now : Q) : Guard :=
  if negb (protection_mode (manager self)) then
    {| manager := with_protection_mode (manager self) true;
       protection_reason := r;
       protection_start_time := Some now;
       position_history_timestamps := position_history_timestamps self |}
  else self.

(** [exit_protection_mode]: the subtraction raises [TypeError] when no
    start time is set. *)
Definition exit_protection_mode (self : Guard) (now : Q) : result Guard :=
  if protection_mode (manager self) then
    match protection_start_time self with
    | None => Raise TypeError
    | Some _ =>
        Ok {| manager := with_protection_mode (manager self) false;
              protection_reason := NoReason;
              protection_start_time := None;
              position_history_timestamps := position_history_timestamps self |}
    end
  else Ok self.

(** [_should_exit_protection_mode] *)
Definition _should_exit_protection_mode (self : Guard) (now : Q) : bool :=
  if negb (protection_mode (manager self)) then false
  else
    match protection_start_time self with
    | None => false
    | Some start =>
        let duration := now - start in
        if Qltb 7200 duration then true
        else Qltb (drawdown (manager self)) 3
    end.

(** [detect_market_anomalies], lines 314-348.  [btc_volatility] and
    [extreme_price_movement] are the two keys of [market_data], [None] for
    a key that is absent; the clock reads of the call are taken at the one
    instant [now].  An exception is answered with [False]. *)
Definition detect_market_anomalies (self : Guard) (btc_volatility : option Q)
    (extreme_price_movement : option bool) (now : Q) : Guard * bool :=
  let btc_volatility := default 1 btc_volatility in
  if Qltb 3 btc_volatility then
    (enter_protection_mode self (HighVolatility btc_volatility) now, true)
  else
    let position_change_rate := _calculate_position_change_rate self now in
    if Qltb 300 position_change_rate then
      (enter_protection_mode self (RapidPositions position_change_rate) now, true)
    else if Qltb 5 (drawdown (manager self)) && _is_rapid_drawdown self then
      (enter_protection_mode self (RapidDrawdown (drawdown (manager self))) now,
       true)
    else if default false extreme_price_movement then
      (enter_protection_mode self ExtremeMovement now, true)
    else if protection_mode (manager self) && _should_exit_protection_mode self now
    then
      match exit_protection_mode self now with
      | Ok self => (self, false)
      | Raise _ => (self, false)
      end
    else (self, false).

(** The timestamps later than [since]. *)
Definition opened_since (self : Guard) (since : Q) : Z :=
  Z.of_nat (length (filter (fun ts => Qltb since ts = true)
                      (position_history_timestamps self))).

End Protection.

(** ** Stop loss, take profit and the closing rule *)
Module Exits.
Import Risk.
Local Open Scope Q_scope.

(** [calculate_stop_loss], lines 468-506.  [symbol_info] is the answer of
    [get_symbol_precision]; the [except] clause answers the price at the
    static distance, not rounded. *)
Definition calculate_stop_loss (self : RiskManager)
    (symbol_info : result SymbolInfo) (entry_price : Q) (signal_type : string)
    (market_volatility : Q) : Q :=
  match symbol_info with
  | Ok symbol_info =>
      let price_precision := price_precision symbol_info in
      let static_sl_pct := static_sl_percent (strategy self) in
      let adjusted_sl_pct := static_sl_pct * market_volatility in
      let adjusted_sl_pct := py_max (1 # 2) (py_min 10 adjusted_sl_pct) in
      let sl_price :=
        if bool_decide (signal_type = "LONG")
        then entry_price * (1 - adjusted_sl_pct / 100)
        else entry_price * (1 + adjusted_sl_pct / 100) in
      py_round sl_price price_precision
  | Raise _ =>
      let sl_pct := static_sl_percent (strategy self) in
      if bool_decide (signal_type = "LONG")
      then entry_price * (1 - sl_pct / 100)
      else entry_price * (1 + sl_pct / 100)
  end.

(** An element of the list [calculate_take_profit_levels] returns. *)
Record TakeProfitLevel : Type := {
  level : Z;
  price : Q;
  percentage : Q;
  target_pct : Q
}.

(** [calculate_take_profit_levels], lines 427-466.  [tp_targets] and
    [tp_quantities] are the strategy's [take_profit_targets] and
    [take_profit_quantities]. *)
Definition calculate_take_profit_levels (tp_targets tp_quantities : list Q)
    (symbol_info : result SymbolInfo) (entry_price : Q) (signal_type : string)
    : list TakeProfitLevel :=
  match tp_targets, tp_quantities with
  | [], _ | _, [] => []
  | _, _ =>
      match symbol_info with
      | Raise _ => []
      | Ok symbol_info =>
          let price_precision := price_precision symbol_info in
          imap (fun i '(target_pct, qty_pct) =>
                  let tp_price :=
                    if bool_decide (signal_type = "LONG")
                    then entry_price * (1 + target_pct / 100)
                    else entry_price * (1 - target_pct / 100) in
                  let tp_price := py_round tp_price price_precision in
                  {| level := Z.of_nat i + 1; price := tp_price;
                     percentage := qty_pct; target_pct := target_pct |})
               (zip tp_targets tp_quantities)
      end
  end.

(** [should_close_position], lines 677-698; the division of
    [_calculate_position_pnl_percent] is not guarded. *)
Definition should_close_position (self : RiskManager) (symbol : string)
    (current_price : Q) (signal_type : string) : result (bool * string) :=
  match get_position_for_symbol self symbol with
  | None => mret (false, "")
  | Some position =>
      let position_side := pos_side position in
      if (bool_decide (position_side = "LONG") && bool_decide (signal_type = "SHORT"))
         || (bool_decide (position_side = "SHORT") && bool_decide (signal_type = "LONG"))
      then mret (true, "Ters sinyal")
      else if partial_close_enabled (strategy self) then
        pnl_pct ← _calculate_position_pnl_percent position current_price;
        if Qltb (partial_close_threshold (strategy self)) pnl_pct
        then mret (true, "Kısmi kar alma")
        else mret (false, "")
      else mret (false, "")
  end.

(** The prices of a list of levels. *)
Definition prices (levels : list TakeProfitLevel) : list Q := price <$> levels.

End Exits.

(** * The filters of [StrategyParams] (strategy.py) *)

Module Strategy.
Local Open Scope Q_scope.




(** [s.endswith(suffix)] *)
Fixpoint endswith (s suffix : string) : bool :=
  if String.eqb s suffix then true
  else match s with
       | EmptyString => false
       | String _ rest => endswith rest suffix
       end.

(** [any(l)] for a list of strings: some string is not empty. *)
Definition any (l : list string) : bool :=
  existsb (fun s => negb (String.eqb s "")) l.

(** [get_trading_symbols], lines 217-232, with the three parameters it
    reads. *)
Definition get_trading_symbols (whitelist_symbols blacklist_symbols : list string)
    (quote_asset : string) (all_symbols : list string) : list string :=
  let filtered_symbols :=
    if any whitelist_symbols
    then filter (fun s => s ∈ whitelist_symbols) all_symbols
    else filter (fun s => s ∉ blacklist_symbols) all_symbols in
  filter (fun s => endswith s quote_asset = true) filtered_symbols.

End Strategy.

(** * Opening and closing positions (position.py) *)

Module Desk.
Import Risk Position Exits.
Local Open Scope Q_scope.

(** An entry of a list of [take_profit_orders]. *)
Record TakeProfitOrder : Type := {
  tpo_level : Z;
  tpo_order_id : option Z;
  tpo_price : Q;
  tpo_quantity : Q;
  tpo_target_pct : Q
}.

(** The position manager with the attributes the record [PositionManager]
    leaves out: its [take_profit_orders], and the
    [position_history_timestamps] of its risk manager, to which
    [record_trade] adds the clock for a trade of type [OPEN]. *)
Record Book : Type := {
  manager : PositionManager;
  take_profit_orders : gmap string (list TakeProfitOrder);
  position_history_timestamps : list Q
}.

(** The requests that change something at the venue. *)
Inductive call : Type :=
| SetMarginType (symbol : string)
| SetLeverage (symbol : string) (leverage : Z)
| Order (r : request)
| TakeProfitMarket (symbol side : string) (quantity stop_price : Q).

(** How a coroutine ends: it returns, or it waits for a lock that is never
    released.  [position_lock] is an [asyncio.Lock], which is not
    reentrant: a coroutine that awaits the lock while holding it is never
    resumed, as only the holder releases it. *)
Inductive outcome (A : Type) : Type :=
| Returns (a : A)
| Waits.
Arguments Returns {A} a.
Arguments Waits {A}.

(** The body of [close_position] under the lock, lines 184-251.
    [market_reply] is the answer of [create_market_order], [today] the date
    [record_trade] reads.  [cancel_pending_orders] catches its own
    exceptions, so the cancel request is followed by the market order
    whatever the venue answers to it. *)
Definition close_position_body (self : Book) (symbol : string)
    (market_reply : result (option OrderResult)) (today : string)
    : Book * list call * option TradeRecord :=
  let pm := manager self in
  match get_position_for_symbol (risk_manager pm) symbol with
  | None => (self, [], None)
  | Some position =>
      let close_side :=
        if bool_decide (pos_side position = "LONG") then "SELL" else "BUY" in
      let sent :=
        [Order (CancelAll symbol);
         Order (Market symbol close_side (Qabs (pos_amount position)) true)] in
      match market_reply with
      | Raise _ => (self, sent, None)
      | Ok None => (self, sent, None)
      | Ok (Some order_result) =>
          let filled_price :=
            default (pos_mark_price position) (avgPrice order_result) in
          let filled_qty :=
            default (Qabs (pos_amount position)) (executedQty order_result) in
          let pnl :=
            if bool_decide (pos_side position = "LONG")
            then (filled_price - pos_entry_price position) * filled_qty
            else (pos_entry_price position - filled_price) * filled_qty in
          let '(rm, trade_info) :=
            record_trade (risk_manager pm) today symbol close_side filled_qty
              (pos_entry_price position) (Some filled_price) (Some pnl) "CLOSE" in
          ({| manager :=
                {| risk_manager := rm; strategy := Position.strategy pm;
                   active_trades := delete symbol (active_trades pm);
                   stop_orders := delete symbol (stop_orders pm) |};
              take_profit_orders := delete symbol (take_profit_orders self);
              position_history_timestamps := position_history_timestamps self |},
           sent, Some trade_info)
      end
  end.

(** The ledger line of an accepted close. *)
Definition close_line (symbol : string) (position : Position)
    (order_result : OrderResult) : TradeRecord :=
  let filled_price := default (pos_mark_price position) (avgPrice order_result) in
  let filled_qty :=
    default (Qabs (pos_amount position)) (executedQty order_result) in
  {| tr_symbol := symbol;
     tr_side := if bool_decide (pos_side position = "LONG") then "SELL" else "BUY";
     tr_quantity := filled_qty;
     tr_entry_price := pos_entry_price position;
     tr_exit_price := Some filled_price;
     tr_pnl :=
       Some (if bool_decide (pos_side position = "LONG")
             then (filled_price - pos_entry_price position) * filled_qty
             else (pos_entry_price position - filled_price) * filled_qty);
     tr_type := "CLOSE" |}.

(** [close_position]: [async with self.position_lock] around the body.
    [lock_held] tells whether the calling coroutine holds the lock
    already. *)
Definition close_position (lock_held : bool) (self : Book) (symbol : string)
    (market_reply : result (option OrderResult)) (today : string)
    : outcome (Book * list call * option TradeRecord) :=
  if lock_held then Waits
  else Returns (close_position_body self symbol market_reply today).

(** What the venue and the clock answer during one [open_position]. *)
Record Venue : Type := {
  today : string;
  now : Q;
  mark_price : result Q;
  info_for_stop : result SymbolInfo;
  info_for_size : result SymbolInfo;
  info_for_levels : result SymbolInfo;
  margin_reply : result ();
  leverage_reply : result ();
  market_reply : result (option OrderResult);
  stop_reply : result (option OrderResult);
  take_profit_reply : Z -> result (option OrderResult);
  close_reply : result (option OrderResult)
}.

(** What [open_position] returns: [None], the position already held, or
    the ledger line of the new position. *)
Inductive opened : Type :=
| NotOpened
| Held (position : Position)
| Opened (trade_info : TradeRecord).

(** Lines 145-160: the loop over the take-profit levels.  The result is
    the requests sent, the orders stored, and whether the loop ran to its
    end ([false] when a request raised). *)
Fixpoint place_take_profits (symbol reduce_side : string) (filled_qty : Q)
    (reply : Z -> result (option OrderResult)) (tp_levels : list TakeProfitLevel)
    (placed : list TakeProfitOrder)
    : list call * list TakeProfitOrder * bool :=
  match tp_levels with
  | [] => ([], placed, true)
  | tp :: rest =>
      let tp_qty := filled_qty * (percentage tp / 100) in
      let request := TakeProfitMarket symbol reduce_side tp_qty (price tp) in
      match reply (level tp) with
      | Raise _ => ([request], placed, false)
      | Ok tp_order =>
          let placed :=
            match tp_order with
            | Some o =>
                placed ++ [{| tpo_level := level tp; tpo_order_id := orderId o;
                              tpo_price := price tp; tpo_quantity := tp_qty;
                              tpo_target_pct := target_pct tp |}]
            | None => placed
            end in
          let '(sent, placed, finished) :=
            place_take_profits symbol reduce_side filled_qty reply rest placed in
          (request :: sent, placed, finished)
      end
  end.

Definition with_take_profits (self : Book) (symbol : string)
    (orders : list TakeProfitOrder) : Book :=
  {| manager := manager self;
     take_profit_orders := <[symbol := orders]> (take_profit_orders self);
     position_history_timestamps := position_history_timestamps self |}.

(** Lines 52-176 of [open_position]: from the mark price to the return
    of the ledger line.  [tp_targets] and [tp_quantities] are the
    strategy's [take_profit_targets] and [take_profit_quantities].  Any
    exception ends the call with [None]; what was stored before it stays
    stored. *)
Definition enter_position (self : Book) (symbol signal_type : string)
    (signal_strength market_volatility : Q) (tp_targets tp_quantities : list Q)
    (v : Venue) : Book * list call * opened :=
  let pm := manager self in
  let rm := risk_manager pm in
  match mark_price v with
  | Raise _ => (self, [], NotOpened)
  | Ok current_price =>
      if Qle_bool current_price 0 then (self, [], NotOpened)
      else
        let stop_loss_price :=
          calculate_stop_loss rm (info_for_stop v) current_price signal_type
            market_volatility in
        match calculate_position_size rm (info_for_size v) current_price
                stop_loss_price signal_type signal_strength with
        | Raise _ => (self, [], NotOpened)
        | Ok (quantity, leverage) =>
            if Qle_bool quantity 0 then (self, [], NotOpened)
            else
              match margin_reply v with
              | Raise _ => (self, [SetMarginType symbol], NotOpened)
              | Ok _ =>
                  match leverage_reply v with
                  | Raise _ =>
                      (self, [SetMarginType symbol; SetLeverage symbol leverage],
                       NotOpened)
                  | Ok _ =>
                      let side :=
                        if bool_decide (signal_type = "LONG") then "BUY" else "SELL" in
                      let reduce_side :=
                        if bool_decide (signal_type = "LONG") then "SELL" else "BUY" in
                      let sent :=
                        [SetMarginType symbol; SetLeverage symbol leverage;
                         Order (Market symbol side quantity false)] in
                      match market_reply v with
                      | Raise _ => (self, sent, NotOpened)
                      | Ok None => (self, sent, NotOpened)
                      | Ok (Some order_result) =>
                          let filled_price :=
                            default current_price (avgPrice order_result) in
                          let filled_qty :=
                            default quantity (executedQty order_result) in
                          let '(rm, trade_info) :=
                            record_trade rm (today v) symbol side filled_qty
                              filled_price None None "OPEN" in
                          let trade :=
                            {| at_side := signal_type; at_quantity := filled_qty;
                               at_entry_price := filled_price;
                               at_leverage := leverage;
                               at_stop_loss := stop_loss_price;
                               at_partially_closed := false |} in
                          let recorded stops :=
                            {| manager :=
                                 {| risk_manager := rm;
                                    strategy := Position.strategy pm;
                                    active_trades :=
                                      <[symbol := trade]> (active_trades pm);
                                    stop_orders := stops |};
                               take_profit_orders := take_profit_orders self;
                               position_history_timestamps :=
                                 position_history_timestamps self ++ [now v] |} in
                          let sent :=
                            sent ++ [Order (StopMarket symbol reduce_side filled_qty
                                              stop_loss_price)] in
                          match stop_reply v with
                          | Raise _ => (recorded (stop_orders pm), sent, NotOpened)
                          | Ok stop_order =>
                              let self :=
                                match stop_order with
                                | Some o =>
                                    recorded
                                      (<[symbol :=
                                           {| so_order_id := orderId o;
                                              so_price := stop_loss_price;
                                              so_quantity := filled_qty |}]>
                                         (stop_orders pm))
                                | None => recorded (stop_orders pm)
                                end in
                              match tp_targets with
                              | [] => (self, sent, Opened trade_info)
                              | _ =>
                                  match calculate_take_profit_levels tp_targets
                                          tp_quantities (info_for_levels v)
                                          filled_price signal_type with
                                  | [] => (self, sent, Opened trade_info)
                                  | tp_levels =>
                                      let '(orders, placed, finished) :=
                                        place_take_profits symbol reduce_side
                                          filled_qty (take_profit_reply v)
                                          tp_levels [] in
                                      (with_take_profits self symbol placed,
                                       sent ++ orders,
                                       if finished then Opened trade_info
                                       else NotOpened)
                                  end
                              end
                          end
                      end
                  end
              end
        end
  end.

(** [open_position], lines 31-179.  The body runs under
    [async with self.position_lock]; the [close_position] of line 50 is
    awaited while the lock is held. *)
Definition open_position (self : Book) (symbol signal_type : string)
    (signal_strength market_volatility : Q) (tp_targets tp_quantities : list Q)
    (v : Venue) : outcome (Book * list call * opened) :=
  let rm := risk_manager (manager self) in
  match check_risk_limits rm (today v) with
  | Ok true =>
      match get_position_for_symbol rm symbol with
      | Some existing_position =>
          if (bool_decide (pos_side existing_position = "LONG")
              && bool_decide (signal_type = "LONG"))
             || (bool_decide (pos_side existing_position = "SHORT")
                 && bool_decide (signal_type = "SHORT"))
          then Returns (self, [], Held existing_position)
          else
            match close_position true self symbol (close_reply v) (today v) with
            | Waits => Waits
            | Returns (self, closing, _) =>
                let '(self, sent, r) :=
                  enter_position self symbol signal_type signal_strength
                    market_volatility tp_targets tp_quantities v in
                Returns (self, closing ++ sent, r)
            end
      | None =>
          Returns (enter_position self symbol signal_type signal_strength
                     market_volatility tp_targets tp_quantities v)
      end
  | _ => Returns (self, [], NotOpened)
  end.

(** The requests among the calls that place an order. *)
Definition places_order (c : call) : bool :=
  match c with
  | Order (Market _ _ _ _) | Order (StopMarket _ _ _ _)
  | TakeProfitMarket _ _ _ _ => true
  | _ => false
  end.

Definition orders (calls : list call) : list call :=
  filter (fun c => places_order c = true) calls.

End Desk.

(** * Position books and venues for the examples *)

Module Cases.
Local Open Scope Q_scope.

Definition book_of (pm : Position.PositionManager) : Desk.Book :=
  {| Desk.manager := pm; Desk.take_profit_orders := ∅;
     Desk.position_history_timestamps := [] |}.

(** The account of scenario A with no position and no order. *)
Definition book_A : Desk.Book :=
  book_of {| Position.risk_manager := Scenario.manager_A;
             Position.strategy := DEFAULT_PARAMS;
             Position.active_trades := ∅; Position.stop_orders := ∅ |}.

(** The same account with [POSITION_SIZE_TYPE=FIXED]. *)
Definition book_fixed : Desk.Book :=
  book_of {| Position.risk_manager := Scenario.manager_fixed;
             Position.strategy := Scenario.params_fixed;
             Position.active_trades := ∅; Position.stop_orders := ∅ |}.

(** The same account in protection mode. *)
Definition book_protected : Desk.Book :=
  book_of {| Position.risk_manager := Scenario.manager_protected;
             Position.strategy := DEFAULT_PARAMS;
             Position.active_trades := ∅; Position.stop_orders := ∅ |}.

(** The account that holds the long position the bot opened. *)
Definition book_long : Desk.Book := book_of Scenario.trader_tracked.

(** A venue that quotes the mark price 100, knows the symbol of scenario
    A and accepts every request, but for the stop order, which it answers
    as given. *)
Definition venue_A (stop : result (option Position.OrderResult)) : Desk.Venue :=
  {| Desk.today := "2026-01-05"; Desk.now := 1000;
     Desk.mark_price := Ok 100;
     Desk.info_for_stop := Ok Scenario.symbol_A;
     Desk.info_for_size := Ok Scenario.symbol_A;
     Desk.info_for_levels := Ok Scenario.symbol_A;
     Desk.margin_reply := Ok (); Desk.leverage_reply := Ok ();
     Desk.market_reply := Scenario.accepted;
     Desk.stop_reply := stop;
     Desk.take_profit_reply := fun _ => Scenario.accepted;
     Desk.close_reply := Scenario.accepted |}.

End Cases.

(** * Acting on a signal (position.py) *)

Module Signals.
Import Risk Position Exits Desk.
Local Open Scope Q_scope.

(** The keys of a signal that [check_and_process_signal] reads. *)
Record Signal : Type := {
  tradable : bool;
  signal : string;
  signal_strength : Q;
  last_price : Q
}.

Definition with_manager (self : Book) (pm : PositionManager) : Book :=
  {| manager := pm; take_profit_orders := take_profit_orders self;
     position_history_timestamps := position_history_timestamps self |}.

(** [signal['signal'] in ["LONG", "SHORT"]] *)
Definition directional (s : Signal) : bool :=
  bool_decide (signal s = "LONG") || bool_decide (signal s = "SHORT").

(** Lines 467-493 and 518-546: [open_position] and what is made of its
    result. *)
Definition try_open (self : Book) (symbol : string) (s : Signal)
    (market_volatility : Q) (tp_targets tp_quantities : list Q) (v : Venue)
    : outcome (Book * list call * bool) :=
  match open_position self symbol (signal s) (signal_strength s)
          market_volatility tp_targets tp_quantities v with
  | Waits => Waits
  | Returns (self, sent, NotOpened) => Returns (self, sent, false)
  | Returns (self, sent, _) => Returns (self, sent, true)
  end.

(** [check_and_process_signal], lines 454-551.  [v] holds the answers of
    the venue to [close_position] and [open_position]; [trail_info] and
    [trail_reply] are the answers to [update_trailing_stop], and
    [partial_reply] the answer to [process_partial_close].  The lock is
    free when the method is entered.  An exception is answered with
    [False]. *)
Definition check_and_process_signal (self : Book) (symbol : string) (s : Signal)
    (market_volatility : Q) (tp_targets tp_quantities : list Q) (v : Venue)
    (trail_info : result SymbolInfo)
    (trail_reply partial_reply : result (option OrderResult))
    : outcome (Book * list call * bool) :=
  if negb (tradable s) then Returns (self, [], false)
  else
    let rm := risk_manager (manager self) in
    let current_price := last_price s in
    match get_position_for_symbol rm symbol with
    | None =>
        if directional s
        then try_open self symbol s market_volatility tp_targets tp_quantities v
        else Returns (self, [], false)
    | Some _ =>
        match should_close_position rm symbol current_price (signal s) with
        | Raise _ => Returns (self, [], false)
        | Ok (true, reason) =>
            match close_position false self symbol (close_reply v) (today v) with
            | Waits => Waits
            | Returns (self, closing, None) => Returns (self, closing, false)
            | Returns (self, closing, Some _) =>
                if directional s then
                  match try_open self symbol s market_volatility tp_targets
                          tp_quantities v with
                  | Waits => Waits
                  | Returns (self, sent, r) => Returns (self, closing ++ sent, r)
                  end
                else Returns (self, closing, true)
            end
        | Ok (false, _) =>
            let '(pm, trailing, trailing_updated) :=
              update_trailing_stop (manager self) symbol current_price
                trail_info trail_reply in
            let '(pm, closing, partial_close) :=
              process_partial_close pm symbol current_price partial_reply
                (today v) in
            Returns (with_manager self pm, Order <$> (trailing ++ closing),
                     bool_decide (is_Some trailing_updated)
                     || bool_decide (is_Some partial_close))
        end
    end.

End Signals.

(** * Properties *)

(** ** Arithmetic *)
Section arithmetic.
Local Open Scope Q_scope.

Lemma bind_Ok {A B} (a : A) (f : A -> result B) : (Ok a ≫= f) = f a.
Proof. reflexivity. Qed.

Lemma bind_Raise {A B} (e : exn) (f : A -> result B) : (Raise e ≫= f) = Raise e.
Proof. reflexivity. Qed.

Lemma Qltb_lt (a b : Q) : Qltb a b = true <-> a < b.
Proof.
  unfold Qltb. rewrite negb_true_iff. split.
  - intros H. apply Qnot_le_lt. intros Hle. apply Qle_bool_iff in Hle. congruence.
  - intros H. destruct (Qle_bool b a) eqn:E; [|done].
    apply Qle_bool_iff in E. lra.
Qed.

Lemma Qltb_ge (a b : Q) : Qltb a b = false <-> b <= a.
Proof. unfold Qltb. rewrite negb_false_iff. apply Qle_bool_iff. Qed.

Lemma py_min_l (a b : Q) : py_min a b <= a.
Proof.
  unfold py_min. destruct (Qltb b a) eqn:E; [|lra].
  apply Qltb_lt in E. lra.
Qed.

Lemma py_min_r (a b : Q) : py_min a b <= b.
Proof.
  unfold py_min. destruct (Qltb b a) eqn:E; [lra|].
  apply Qltb_ge in E. lra.
Qed.

Lemma py_min_glb (a b c : Q) : c <= a -> c <= b -> c <= py_min a b.
Proof. unfold py_min. destruct (Qltb b a); done. Qed.

Lemma py_truediv_ok (a b : Q) : ~ b == 0 -> py_truediv a b = Ok (a / b).
Proof.
  intros Hb. unfold py_truediv.
  destruct (Qeq_bool b 0) eqn:E; [|done].
  apply Qeq_bool_iff in E. done.
Qed.

Lemma py_truediv_zero (a b : Q) : b == 0 -> py_truediv a b = Raise ZeroDivisionError.
Proof. intros Hb. unfold py_truediv. apply Qeq_bool_iff in Hb. by rewrite Hb. Qed.

Lemma Qpower_10_pos (p : Z) : 0 < Qpower 10 p.
Proof. apply Qpower_0_lt. lra. Qed.

(** Rounding leaves an integer where it is. *)
Lemma round_half_even_Z (x : Q) (n : Z) : x == inject_Z n -> round_half_even x = n.
Proof.
  intros Hx. unfold round_half_even.
  rewrite (Qfloor_comp _ _ Hx), Qfloor_Z.
  assert (Qltb (x - inject_Z n) (1 # 2) = true) as ->; [|done].
  apply Qltb_lt. lra.
Qed.

Lemma py_round_Z (x : Q) (n p : Z) :
  (0 <= p)%Z -> x == inject_Z n -> py_round x p == inject_Z n.
Proof.
  intros Hp Hx. unfold py_round.
  assert (H10 : Qpower 10 p == inject_Z (10 ^ p)).
  { rewrite Zpower_Qpower by done. reflexivity. }
  rewrite (round_half_even_Z _ (n * 10 ^ p)).
  - rewrite inject_Z_mult. rewrite <- H10. field.
    pose proof (Qpower_10_pos p). lra.
  - rewrite Hx, H10, inject_Z_mult. reflexivity.
Qed.

End arithmetic.

(** ** [RiskManager]: sizing and limits *)
Section risk_properties.
Import Risk.
Local Open Scope Q_scope.

Lemma check_risk_limits_protected (self : RiskManager) (today : string) :
  protection_mode self = true -> check_risk_limits self today = Ok false.
Proof.
  intros H. unfold check_risk_limits, check_risk_limits_body. by rewrite H.
Qed.

Lemma calculate_position_size_protected (self : RiskManager)
    (symbol_info : result SymbolInfo) (entry_price stop_loss_price : Q)
    (signal_type : string) (signal_strength : Q) :
  protection_mode self = true ->
  calculate_position_size self symbol_info entry_price stop_loss_price
    signal_type signal_strength = Ok (0, default_leverage (strategy self)).
Proof.
  intros H. unfold calculate_position_size, calculate_position_size_body.
  by rewrite H.
Qed.

(** C4.  While protection mode is on, [check_risk_limits] answers [False]
    whatever the drawdown, the position count, the day's trades and the
    account risk are, and [calculate_position_size] returns size 0 (with the
    default leverage) whatever the symbol, the prices and the signal are. *)
Theorem protection_mode_blocks_entries (self : RiskManager) (today : string)
    (symbol_info : result SymbolInfo) (entry_price stop_loss_price : Q)
    (signal_type : string) (signal_strength : Q) :
  protection_mode self = true ->
  check_risk_limits self today = Ok false /\
  calculate_position_size self symbol_info entry_price stop_loss_price
    signal_type signal_strength = Ok (0, default_leverage (strategy self)).
Proof.
  intros H. split.
  - by apply check_risk_limits_protected.
  - by apply calculate_position_size_protected.
Qed.

Lemma protection_mode_blocks_entries_witness :
  check_risk_limits Scenario.manager_protected "2026-01-05" = Ok false /\
  calculate_position_size Scenario.manager_protected (Ok Scenario.symbol_A)
    100 98 "LONG" 80 = Ok (0, 3%Z).
Proof.
  apply (protection_mode_blocks_entries Scenario.manager_protected).
  reflexivity.
Defined.

(** In the [FIXED] mode the body always ends in an exception: the venue's,
    a division by zero, or the read of the unassigned [target_leverage]. *)
Lemma fixed_mode_body_raises (self : RiskManager)
    (symbol_info : result SymbolInfo) (entry_price stop_loss_price : Q)
    (signal_type : string) (signal_strength : Q) :
  protection_mode self = false ->
  position_size_type (strategy self) = "FIXED" ->
  exists e, calculate_position_size_body self symbol_info entry_price
         stop_loss_price signal_type signal_strength = Raise e.
Proof.
  intros Hp Hf. unfold calculate_position_size_body. rewrite Hp.
  destruct symbol_info as [info|e]; [|by exists e].
  rewrite bind_Ok. unfold target_notional. rewrite Hf.
  rewrite bool_decide_eq_true_2 by done.
  change (mret ?x) with (Ok x). rewrite bind_Ok.
  destruct (Qltb _ _).
  - by exists UnboundLocalError.
  - unfold notional_to_quantity.
    destruct (py_truediv _ entry_price) as [q|e]; [|by exists e].
    by exists UnboundLocalError.
Qed.

(** C10.  [calculate_position_size] always returns a pair and never raises;
    when a step of its body raises, the pair is [(0, default_leverage)]; and
    in the [FIXED] sizing mode, where [target_leverage] is never assigned,
    the pair is [(0, default_leverage)] for every input. *)
Theorem calculate_position_size_never_raises (self : RiskManager)
    (symbol_info : result SymbolInfo) (entry_price stop_loss_price : Q)
    (signal_type : string) (signal_strength : Q) :
  let size := calculate_position_size self symbol_info entry_price
                stop_loss_price signal_type signal_strength in
  let body := calculate_position_size_body self symbol_info entry_price
                stop_loss_price signal_type signal_strength in
  (exists quantity leverage, size = Ok (quantity, leverage)) /\
  (forall e, body = Raise e -> size = Ok (0, default_leverage (strategy self))) /\
  (position_size_type (strategy self) = "FIXED" ->
   size = Ok (0, default_leverage (strategy self))).
Proof.
  intros size body. split; [|split].
  - subst size. unfold calculate_position_size. fold body.
    destruct body as [[q l]|e]; simpl; eauto.
  - intros e He. subst size. unfold calculate_position_size. fold body.
    by rewrite He.
  - intros Hf. destruct (protection_mode self) eqn:Hp.
    + by apply calculate_position_size_protected.
    + destruct (fixed_mode_body_raises self symbol_info entry_price
        stop_loss_price signal_type signal_strength Hp Hf) as [e He].
      subst size. unfold calculate_position_size. by rewrite He.
Qed.

Lemma calculate_position_size_never_raises_witness :
  calculate_position_size Scenario.manager_fixed (Ok Scenario.symbol_A)
    100 98 "LONG" 80 = Ok (0, 3%Z).
Proof.
  apply (calculate_position_size_never_raises Scenario.manager_fixed
           (Ok Scenario.symbol_A) 100 98 "LONG" 80).
  reflexivity.
Defined.

(** In exact arithmetic a quantity that is a whole number survives the
    lot step and the rounding when the step is the inverse of a whole
    number.  (In binary floating point the quotient by a step such as
    0.00001 can land just below the whole number.) *)
Lemma notional_to_quantity_on_grid (info : SymbolInfo) (entry psu : Q)
    (lev n : Z) (k : positive) :
  ~ entry == 0 ->
  psu / entry * inject_Z lev == inject_Z n ->
  min_qty info == 1 # k ->
  (0 <= qty_precision info)%Z ->
  exists q, notional_to_quantity info entry psu (Some lev) = Ok (q, lev)
            /\ q == inject_Z n.
Proof.
  intros He Hn Hk Hp. unfold notional_to_quantity.
  rewrite (py_truediv_ok _ entry) by done. rewrite bind_Ok.
  simpl read_local. rewrite bind_Ok.
  rewrite py_truediv_ok; last first.
  { rewrite Hk. unfold Qeq. simpl. lia. }
  rewrite bind_Ok. eexists; split; [reflexivity|].
  apply py_round_Z; [done|].
  assert (Hs : psu / entry * inject_Z lev / min_qty info
               == inject_Z (n * Z.pos k)).
  { rewrite Hn, Hk, inject_Z_mult.
    assert (inject_Z (Z.pos k) == / (1 # k)) as -> by (unfold Qeq; simpl; lia).
    reflexivity. }
  rewrite (Qfloor_comp _ _ Hs), Qfloor_Z, Hk, inject_Z_mult.
  assert (inject_Z (Z.pos k) * (1 # k) == 1) by (unfold Qeq; simpl; lia).
  rewrite <- Qmult_assoc, H. ring.
Qed.

(** The inputs of scenario A give the quantity 125, which is not 25. *)
Lemma scenario_A_quantity_is_125_not_25 :
  exists quantity,
    calculate_position_size Scenario.manager_A (Ok Scenario.symbol_A)
      100 98 "LONG" 80 = Ok (quantity, 5%Z) /\
    quantity == 125 /\ ~ quantity == 25.
Proof.
  eexists. split; [vm_compute; reflexivity|]. split; [reflexivity|].
  intros H. vm_compute in H. discriminate.
Qed.

(** C1, amended.  For the inputs of scenario A (LONG, strength 80, entry
    100, stop 98, balance 10000, risk 1%, automatic leverage up to 10) and a
    symbol whose minimum notional is at most 25000, whose lot step is 0.001
    and whose quantity precision is not negative, [calculate_position_size]
    selects leverage 5, computes the notional 25000, caps it at 2500 and
    returns the quantity 125, which is the capped notional over the entry
    price times the leverage.  The lot step is fixed because the numbers
    here are exact rationals: with the step 0.001 the floating-point run
    of the code gives the same floor, 125000 steps, and the quantity
    125.0. *)
Theorem scenario_A_position_size (info : SymbolInfo) :
  min_notional info <= 25000 ->
  min_qty info == 1 # 1000 ->
  (0 <= qty_precision info)%Z ->
  exists notional quantity,
    target_notional Scenario.manager_A 10000 100 98 "LONG" 80
      = Ok (notional, Some 5%Z) /\
    notional == 25000 /\
    cap_notional 10000 notional == 2500 /\
    calculate_position_size Scenario.manager_A (Ok info) 100 98 "LONG" 80
      = Ok (quantity, 5%Z) /\
    quantity == 125.
Proof.
  intros Hmin Hk Hp.
  assert (Ht : target_notional Scenario.manager_A 10000 100 98 "LONG" 80
               = Ok (500000000 # 20000, Some 5%Z)) by (vm_compute; reflexivity).
  destruct (notional_to_quantity_on_grid info 100
              (cap_notional 10000 (500000000 # 20000)) 5 125 1000)
    as (q & Hq & Hq125); [done|by vm_compute|done|done|].
  exists (500000000 # 20000), q. split; [done|]. split; [reflexivity|].
  split; [reflexivity|]. split; [|done].
  unfold calculate_position_size, calculate_position_size_body.
  change (protection_mode Scenario.manager_A) with false. cbv iota.
  rewrite bind_Ok.
  change (get_available_balance Scenario.manager_A) with 10000.
  rewrite Ht, bind_Ok.
  assert (Qltb (500000000 # 20000) (min_notional info) = false) as ->.
  { apply Qltb_ge. assert ((500000000 # 20000) == 25000) by reflexivity. lra. }
  by rewrite Hq.
Qed.

Lemma scenario_A_position_size_witness :
  exists notional quantity,
    target_notional Scenario.manager_A 10000 100 98 "LONG" 80
      = Ok (notional, Some 5%Z) /\
    notional == 25000 /\
    cap_notional 10000 notional == 2500 /\
    calculate_position_size Scenario.manager_A (Ok Scenario.symbol_A)
      100 98 "LONG" 80 = Ok (quantity, 5%Z) /\
    quantity == 125.
Proof.
  apply (scenario_A_position_size Scenario.symbol_A).
  - vm_compute. discriminate.
  - reflexivity.
  - vm_compute. discriminate.
Defined.

End risk_properties.

(** ** The gateway: attempts, sleeps and what the caller receives *)
Section gateway_properties.
Import Gateway.
Local Open Scope Z_scope.
Context {V : Type}.
Implicit Types (func : Z -> result V) (self : BinanceClient).

Lemma calls_app (l1 l2 : list event) : calls (l1 ++ l2) = calls l1 ++ calls l2.
Proof. unfold calls. apply omap_app. Qed.

Lemma calls_rate_gate self now : calls (rate_gate self now) = [].
Proof. unfold rate_gate. by destruct (Qltb _ _). Qed.

(** Every iteration calls the function once, so the calls are a prefix of
    the attempts. *)
Lemma retry_loop_calls_prefix func (max : Z) (attempts : list Z) :
  calls (retry_loop func max attempts).1 `prefix_of` attempts.
Proof.
  induction attempts as [|a rest IH]; simpl; [done|].
  assert (Hskip : forall l, calls (Call a :: l) = a :: calls l) by done.
  assert (Hsleep : forall s l, calls (Call a :: Sleep s :: l) = a :: calls l) by done.
  assert (Hstop : [a] `prefix_of` a :: rest) by (apply prefix_cons, prefix_nil).
  destruct (func a) as [v|e]; simpl; [done|].
  destruct e; simpl; repeat case_bool_decide; simpl;
    repeat (destruct (_ <? _)); simpl;
    rewrite ?Hskip, ?Hsleep; try done; by apply prefix_cons.
Qed.

Lemma api_retry_events func self now finish :
  (api_retry func self now finish).1.2
  = rate_gate self now
    ++ (retry_loop func (max_retries self) (seqZ 1 (max_retries self))).1.
Proof. unfold api_retry, api_retry_body. done. Qed.

Lemma at_most_max_retries func self now finish :
  Z.of_nat (length (calls (api_retry func self now finish).1.2))
  <= Z.max 0 (max_retries self).
Proof.
  rewrite api_retry_events, calls_app, calls_rate_gate. simpl.
  pose proof (prefix_length _ _
    (retry_loop_calls_prefix func (max_retries self) (seqZ 1 (max_retries self)))) as H.
  rewrite length_seqZ in H. lia.
Qed.

Lemma retry_loop_fail_fast func (max : Z) (rest : list Z) (code : Z) :
  func 1 = Raise (BinanceAPIException (Some code)) ->
  code = -2010 \/ code = -1121 ->
  retry_loop func max (1 :: rest)
  = ([Call 1],
     Raise (if bool_decide (code = -2010) then AccountError else InputError)).
Proof.
  intros Hf Hc. simpl. rewrite Hf.
  destruct Hc as [-> | ->]; by repeat case_bool_decide.
Qed.

Lemma retry_loop_clock_skew func (max : Z) (attempts : list Z) (code : Z) :
  code = -1021 \/ code = -1022 ->
  (forall a, func a = Raise (BinanceAPIException (Some code))) ->
  retry_loop func max attempts = (Call <$> attempts, Ok None).
Proof.
  intros Hc Hf. induction attempts as [|a rest IH]; simpl; [done|].
  rewrite Hf, IH. simpl.
  destruct Hc as [-> | ->]; by repeat case_bool_decide.
Qed.

Lemma retry_loop_weight_limit func (max : Z) (attempts : list Z) :
  (forall a, func a = Raise (BinanceAPIException (Some (-1003)))) ->
  retry_loop func max attempts
  = (attempts ≫= (fun a => [Call a; Sleep (inject_Z (2 ^ a * 2))]), Ok None).
Proof.
  intros Hf. induction attempts as [|a rest IH]; simpl; [done|].
  rewrite Hf, IH. simpl. by repeat case_bool_decide.
Qed.

Lemma retry_loop_step_backoff func (max a : Z) (rest : list Z) (e : exn) :
  func a = Raise e -> backed_off e -> a < max ->
  retry_loop func max (a :: rest)
  = (Call a :: Sleep (inject_Z (2 ^ a)) :: (retry_loop func max rest).1,
     (retry_loop func max rest).2).
Proof.
  intros Hf He Ha. simpl. rewrite Hf.
  apply Z.ltb_lt in Ha. rewrite Ha.
  destruct e; try done.
  unfold backed_off, special_codes in He.
  repeat case_bool_decide; subst; try done; exfalso; apply He; set_solver.
Qed.

Lemma retry_loop_step_last func (max : Z) (rest : list Z) (e : exn) :
  func max = Raise e -> backed_off e ->
  retry_loop func max (max :: rest) = ([Call max], Raise (final_error e)).
Proof.
  intros Hf He. simpl. rewrite Hf, Z.ltb_irrefl.
  destruct e; try done.
  unfold backed_off, special_codes in He.
  repeat case_bool_decide; subst; try done; exfalso; apply He; set_solver.
Qed.

Lemma retry_loop_backoff func (max : Z) (e : exn) (k : nat) (a0 : Z) :
  (forall a, func a = Raise e) -> backed_off e ->
  a0 + Z.of_nat k = max ->
  retry_loop func max (seqZ a0 (Z.of_nat (S k)))
  = ((seqZ a0 (Z.of_nat k) ≫= (fun a => [Call a; Sleep (inject_Z (2 ^ a))]))
       ++ [Call max],
     Raise (final_error e)).
Proof.
  intros Hf He. revert a0. induction k as [|k IH]; intros a0 Hk.
  - replace a0 with max by lia.
    rewrite seqZ_cons, (seqZ_nil _ (Z.pred _)) by lia.
    by rewrite (retry_loop_step_last _ _ _ e).
  - rewrite seqZ_cons by lia.
    rewrite (retry_loop_step_backoff _ _ _ _ e) by (done || lia).
    replace (Z.pred (Z.of_nat (S (S k)))) with (Z.of_nat (S k)) by lia.
    rewrite IH by lia.
    rewrite (seqZ_cons a0 (Z.of_nat (S k))) by lia.
    replace (Z.pred (Z.of_nat (S k))) with (Z.of_nat k) by lia.
    done.
Qed.

Lemma exception_handler_final (e : exn) (A : Type) :
  exception_handler (timer_decorator (Raise (final_error e) : result A))
  = Raise CustomError.
Proof. by destruct e. Qed.

(** C2.  When the first attempt fails with the insufficient-balance code
    -2010 (or the invalid-symbol code -1121), the body of [api_retry] makes
    that one attempt, sleeps for no back-off and raises [AccountError]
    ([InputError]); the decorated method the callers use hands them a plain
    [CustomError] instead, as [exception_handler] catches the error in its
    last clause. *)
Theorem fail_fast_error_is_rewrapped func self (now finish : Q) (code : Z) :
  1 <= max_retries self ->
  func 1 = Raise (BinanceAPIException (Some code)) ->
  code = -2010 \/ code = -1121 ->
  api_retry_body func self now finish
  = (self, rate_gate self now ++ [Call 1],
     Raise (if bool_decide (code = -2010) then AccountError else InputError)) /\
  api_retry func self now finish
  = (self, rate_gate self now ++ [Call 1], Raise CustomError).
Proof.
  intros Hmax Hf Hc.
  assert (Hbody : api_retry_body func self now finish
    = (self, rate_gate self now ++ [Call 1],
       Raise (if bool_decide (code = -2010) then AccountError else InputError))).
  { unfold api_retry_body. rewrite seqZ_cons by lia.
    by rewrite (retry_loop_fail_fast _ _ _ code). }
  split; [done|]. unfold api_retry. rewrite Hbody.
  by case_bool_decide.
Qed.

(** C3.  With [max_retries] at least 1: the wrapped function is never
    called more than [max_retries] times; when every attempt fails with a
    clock-skew code the method calls it [max_retries] times without
    sleeping and returns [None]; when every attempt fails with the
    weight-limit code it sleeps [2^attempt * 2] after each attempt, the last
    one too, and returns [None]; in both cases no error reaches the caller.
    When every attempt fails with another retried error, the body sleeps
    [2^attempt] between attempts and raises [APIError] (API error) or
    [CustomError] (other exception) at the last one, and the caller of the
    decorated method receives [CustomError] in either case. *)
Theorem retries_exhausted self (now finish : Q) :
  1 <= max_retries self ->
  let n := max_retries self in
  let gate := rate_gate self now in
  (forall func,
     Z.of_nat (length (calls (api_retry func self now finish).1.2)) <= n) /\
  (forall code, code = -1021 \/ code = -1022 ->
     api_retry (V:=V) (always_raises (BinanceAPIException (Some code))) self now finish
     = (self, gate ++ (Call <$> seqZ 1 n), Ok None)) /\
  api_retry (V:=V) (always_raises (BinanceAPIException (Some (-1003)))) self now finish
  = (self,
     gate ++ (seqZ 1 n ≫= (fun a => [Call a; Sleep (inject_Z (2 ^ a * 2))])),
     Ok None) /\
  (forall e, backed_off e ->
     api_retry_body (V:=V) (always_raises e) self now finish
     = (self,
        gate ++ (seqZ 1 (n - 1) ≫= (fun a => [Call a; Sleep (inject_Z (2 ^ a))]))
             ++ [Call n],
        Raise (final_error e)) /\
     api_retry (V:=V) (always_raises e) self now finish
     = (self,
        gate ++ (seqZ 1 (n - 1) ≫= (fun a => [Call a; Sleep (inject_Z (2 ^ a))]))
             ++ [Call n],
        Raise CustomError)).
Proof.
  intros Hmax n gate. split; [|split; [|split]].
  - intros func. pose proof (at_most_max_retries func self now finish). lia.
  - intros code Hc. unfold api_retry, api_retry_body.
    by rewrite (retry_loop_clock_skew _ _ _ code).
  - unfold api_retry, api_retry_body. by rewrite retry_loop_weight_limit.
  - intros e He.
    assert (Hbody : api_retry_body (V:=V) (always_raises e) self now finish
      = (self,
         gate ++ (seqZ 1 (n - 1) ≫= (fun a => [Call a; Sleep (inject_Z (2 ^ a))]))
              ++ [Call n],
         Raise (final_error e))).
    { unfold api_retry_body.
      replace (seqZ 1 (max_retries self))
        with (seqZ 1 (Z.of_nat (S (Z.to_nat (n - 1))))) by (f_equal; lia).
      rewrite (retry_loop_backoff _ _ e (Z.to_nat (n - 1)) 1) by (done || lia).
      simpl. by rewrite Z2Nat.id by lia. }
    split; [done|]. unfold api_retry. rewrite Hbody.
    by rewrite exception_handler_final.
Qed.

End gateway_properties.

Lemma fail_fast_error_is_rewrapped_witness :
  Gateway.api_retry_body (V:=()) (Gateway.always_raises (BinanceAPIException (Some (-2010)%Z)))
    Gateway.new_client 1 2
  = (Gateway.new_client, [Gateway.Call 1], Raise AccountError) /\
  Gateway.api_retry (V:=()) (Gateway.always_raises (BinanceAPIException (Some (-2010)%Z)))
    Gateway.new_client 1 2
  = (Gateway.new_client, [Gateway.Call 1], Raise CustomError).
Proof.
  apply (fail_fast_error_is_rewrapped
           (Gateway.always_raises (BinanceAPIException (Some (-2010)%Z)))
           Gateway.new_client 1 2 (-2010)%Z).
  - vm_compute. discriminate.
  - reflexivity.
  - by left.
Defined.

Lemma retries_exhausted_witness :
  Gateway.api_retry (V:=()) (Gateway.always_raises (BinanceAPIException (Some (-1003)%Z)))
    Gateway.new_client 1 2
  = (Gateway.new_client,
     [Gateway.Call 1; Gateway.Sleep 4; Gateway.Call 2; Gateway.Sleep 8;
      Gateway.Call 3; Gateway.Sleep 16; Gateway.Call 4; Gateway.Sleep 32;
      Gateway.Call 5; Gateway.Sleep 64],
     Ok None).
Proof.
  apply (retries_exhausted (V:=()) Gateway.new_client 1 2).
  vm_compute. discriminate.
Defined.

(** ** Dictionaries and the stable sort *)
Section dict_properties.
Context {V : Type}.
Implicit Types (d : list (string * V)) (k : string) (v : V).

Lemma dict_get_Some d k v : Dict.get k d = Some v -> (k, v) ∈ d.
Proof.
  induction d as [|[k' v'] d IH]; simpl; [done|].
  case_bool_decide as Hk.
  - intros [= ->]. subst. apply elem_of_cons. by left.
  - intros H. apply elem_of_cons. right. by apply IH.
Qed.

Lemma dict_get_None d k : Dict.get k d = None <-> k ∉ Dict.keys d.
Proof.
  unfold Dict.keys. induction d as [|[k' v'] d IH]; simpl.
  - split; [intros _; apply not_elem_of_nil|done].
  - case_bool_decide as Hk; rewrite not_elem_of_cons.
    + split; [done|]. intros [? _]. by subst.
    + rewrite IH. split; [by intros ?; split|by intros [_ ?]].
Qed.

Lemma dict_get_is_Some d k : k ∈ Dict.keys d -> is_Some (Dict.get k d).
Proof.
  intros Hk. destruct (Dict.get k d) eqn:E; [by eexists|].
  by apply dict_get_None in E.
Qed.

Lemma dict_keys_set_present d k v :
  k ∈ Dict.keys d -> Dict.keys (Dict.set k v d) = Dict.keys d.
Proof.
  unfold Dict.keys. induction d as [|[k' v'] d IH]; simpl.
  - by intros ?%elem_of_nil.
  - intros Hin. case_bool_decide as Hk; simpl; [done|].
    f_equal. apply IH. apply elem_of_cons in Hin as [?|?]; [by subst|done].
Qed.

Lemma dict_keys_set_absent d k v :
  k ∉ Dict.keys d -> Dict.keys (Dict.set k v d) = Dict.keys d ++ [k].
Proof.
  unfold Dict.keys. induction d as [|[k' v'] d IH]; simpl; [done|].
  intros [Hne Hin]%not_elem_of_cons.
  rewrite bool_decide_eq_false_2 by done. simpl. f_equal. by apply IH.
Qed.

Lemma dict_set_NoDup d k v :
  NoDup (Dict.keys d) -> NoDup (Dict.keys (Dict.set k v d)).
Proof.
  intros Hd. destruct (decide (k ∈ Dict.keys d)) as [Hin|Hin].
  - by rewrite dict_keys_set_present.
  - rewrite dict_keys_set_absent by done.
    apply NoDup_app. split; [done|]. split; [|apply NoDup_singleton].
    intros x Hx ->%list_elem_of_singleton. done.
Qed.

Lemma dict_set_length d k v :
  length (Dict.set k v d) = if decide (k ∈ Dict.keys d) then length d else S (length d).
Proof.
  rewrite <- (length_fmap fst (Dict.set k v d)), <- (length_fmap fst d).
  fold (Dict.keys (Dict.set k v d)). fold (Dict.keys d).
  case_decide.
  - by rewrite dict_keys_set_present.
  - rewrite dict_keys_set_absent, length_app by done. simpl. lia.
Qed.

Lemma dict_del_ok d k :
  k ∈ Dict.keys d -> Dict.del k d = Ok (filter (fun kv => kv.1 ≠ k) d).
Proof.
  intros Hk. unfold Dict.del. by destruct (dict_get_is_Some d k Hk) as [v ->].
Qed.

Lemma dict_keys_del d k :
  Dict.keys (filter (fun kv => kv.1 ≠ k) d) = filter (fun k' => k' ≠ k) (Dict.keys d).
Proof.
  unfold Dict.keys. induction d as [|[k' v] d IH]; [done|].
  rewrite filter_cons, (fmap_cons fst). cbn [fst]. rewrite filter_cons.
  destruct (decide (k' ≠ k)); [rewrite fmap_cons|]; by rewrite IH.
Qed.

(** With distinct keys an item is known by its key. *)
Lemma dict_item_unique d (x y : string * V) :
  NoDup (Dict.keys d) -> x ∈ d -> y ∈ d -> x.1 = y.1 -> x = y.
Proof.
  unfold Dict.keys. induction d as [|z d IH]; simpl.
  - by intros _ ?%elem_of_nil.
  - intros [Hz Hd]%NoDup_cons [->|Hx]%elem_of_cons [->|Hy]%elem_of_cons Hk;
      [done| | |by apply IH].
    + exfalso. apply Hz. rewrite Hk. by apply list_elem_of_fmap_2.
    + exfalso. apply Hz. rewrite <- Hk. by apply list_elem_of_fmap_2.
Qed.

End dict_properties.

Section filter_properties.
Context {A : Type} (P : A -> Prop) `{!forall x, Decision (P x)}.

Lemma filter_all (l : list A) : (forall x, x ∈ l -> P x) -> filter P l = l.
Proof.
  induction l as [|x l IH]; intros Hl; [done|].
  rewrite filter_cons_True by (apply Hl; left).
  f_equal. apply IH. intros y Hy. apply Hl. by right.
Qed.

Lemma filter_none (l : list A) : (forall x, x ∈ l -> ~ P x) -> filter P l = [].
Proof.
  induction l as [|x l IH]; intros Hl; [done|].
  rewrite filter_cons_False by (apply Hl; left).
  apply IH. intros y Hy. apply Hl. by right.
Qed.

End filter_properties.

Section sort_properties.
Context {A : Type} (before : A -> A -> bool).

Lemma insert_sorted_Permutation (x : A) (l : list A) :
  insert_sorted before x l ≡ₚ x :: l.
Proof.
  induction l as [|y l IH]; simpl; [done|].
  destruct (before x y); [done|].
  rewrite IH. apply Permutation_swap.
Qed.

Lemma sorted_Permutation (l : list A) : sorted before l ≡ₚ l.
Proof.
  induction l as [|x l IH]; simpl; [done|].
  by rewrite insert_sorted_Permutation, IH.
Qed.

Context (R : relation A).
Hypothesis before_R : forall x y, before x y = true -> R x y.
Hypothesis not_before_R : forall x y, before x y = false -> R y x.
Hypothesis R_trans : Transitive R.

Lemma insert_sorted_StronglySorted (x : A) (l : list A) :
  StronglySorted R l -> StronglySorted R (insert_sorted before x l).
Proof.
  induction 1 as [|y l Hl IH Hy]; simpl.
  - repeat constructor.
  - destruct (before x y) eqn:E.
    + constructor; [by constructor|].
      constructor; [by apply before_R|].
      eapply Forall_impl; [exact Hy|]. intros z Hz.
      by etrans; [apply before_R|].
    + constructor; [done|].
      rewrite insert_sorted_Permutation. constructor; [|done].
      by apply not_before_R.
Qed.

Lemma sorted_StronglySorted (l : list A) : StronglySorted R (sorted before l).
Proof.
  induction l as [|x l IH]; simpl; [constructor|].
  by apply insert_sorted_StronglySorted.
Qed.

End sort_properties.

(** ** The target pool: capacity and eviction *)
Section pool_eviction.
Import Pool.
Local Open Scope Z_scope.
Implicit Types (targets : list (string * TargetData)).

Lemma score_le_trans : Transitive score_le.
Proof. intros x y z. unfold score_le. apply Qle_trans. Qed.

Lemma ascending_StronglySorted targets :
  StronglySorted score_le
    (sorted (fun x y => Qle_bool (score_of x) (score_of y)) targets).
Proof.
  apply sorted_StronglySorted; [| |apply score_le_trans].
  - intros x y H. by apply Qle_bool_iff.
  - intros x y H. unfold score_le.
    apply Qlt_le_weak, Qltb_lt. unfold Qltb. by rewrite H.
Qed.

(** The loop deletes the keys at the indices it visits. *)
Lemma evict_seq (sorted_targets : list (string * TargetData)) (r i : nat) targets :
  let victims := take r (drop i sorted_targets) in
  (i + r <= length sorted_targets)%nat ->
  NoDup victims.*1 ->
  (forall k, k ∈ victims.*1 -> k ∈ Dict.keys targets) ->
  evict sorted_targets (seq i r) targets
  = Ok (filter (fun kv => kv.1 ∉ victims.*1) targets).
Proof.
  revert i targets. induction r as [|r IH]; intros i targets victims Hlen Hnd Hin.
  - simpl. f_equal. symmetry. apply filter_all. intros x _. apply not_elem_of_nil.
  - simpl. destruct (lookup_lt_is_Some_2 sorted_targets i) as [[k v] Hi]; [lia|].
    rewrite Hi.
    assert (Hv : victims = (k, v) :: take r (drop (S i) sorted_targets)).
    { subst victims. by rewrite (drop_S _ _ _ Hi). }
    rewrite Hv in Hnd, Hin. simpl in Hnd, Hin.
    apply NoDup_cons in Hnd as [Hk Hnd].
    rewrite dict_del_ok by (apply Hin; left). rewrite bind_Ok.
    rewrite IH; [|lia|done|].
    + f_equal. rewrite list_filter_filter, Hv. apply list_filter_iff.
      intros [k' v']. simpl. rewrite not_elem_of_cons. tauto.
    + intros k' Hk'. rewrite dict_keys_del.
      apply list_elem_of_filter. split; [by intros ->|].
      apply Hin. by right.
Qed.

(** What is left after the first [r] items of a permutation are deleted by
    key is, up to order, the rest of the permutation. *)
Lemma filter_victims_Permutation (sorted_targets targets : list (string * TargetData))
    (r : nat) :
  sorted_targets ≡ₚ targets ->
  NoDup (Dict.keys targets) ->
  filter (fun kv => kv.1 ∉ (take r sorted_targets).*1) targets
  ≡ₚ drop r sorted_targets.
Proof.
  intros Hp Hnd. rewrite <- Hp.
  assert (Hnd' : NoDup (Dict.keys sorted_targets)).
  { unfold Dict.keys in *. by rewrite Hp. }
  rewrite <- (take_drop r sorted_targets) in Hnd'.
  unfold Dict.keys in Hnd'. rewrite fmap_app in Hnd'.
  apply NoDup_app in Hnd' as (_ & Hdisj & _).
  set (P := fun kv : string * TargetData => kv.1 ∉ (take r sorted_targets).*1) in *.
  assert (Heq : filter P (take r sorted_targets ++ drop r sorted_targets)
                = drop r sorted_targets); [|by rewrite take_drop in Heq; rewrite Heq].
  rewrite filter_app, filter_none, filter_all; [done| |]; subst P; simpl.
  - intros x Hx Hin. apply (Hdisj x.1); [done|]. by apply list_elem_of_fmap_2.
  - intros x Hx Hn. apply Hn. by apply list_elem_of_fmap_2.
Qed.


Lemma limit_pool_spec (C : Z) targets :
  0 <= C ->
  NoDup (Dict.keys targets) ->
  exists kept,
    limit_pool C targets = Ok kept /\
    NoDup (Dict.keys kept) /\
    Z.of_nat (length kept) = Z.min (Z.of_nat (length targets)) C /\
    (forall x, x ∈ kept -> x ∈ targets) /\
    (forall x, x ∈ targets -> x ∈ kept \/ x ∉ kept) /\
    (forall x y, x ∈ targets -> x ∉ kept -> y ∈ kept -> score_le x y).
Proof.
  intros HC Hnd. unfold limit_pool.
  destruct (C <? Z.of_nat (length targets)) eqn:Hfull.
  - apply Z.ltb_lt in Hfull.
    set (s := sorted (fun x y => Qle_bool (score_of x) (score_of y)) targets).
    set (r := Z.to_nat (Z.of_nat (length targets) - C)).
    assert (Hp : s ≡ₚ targets) by apply sorted_Permutation.
    assert (Hlen : length s = length targets) by by rewrite Hp.
    assert (Hnds : NoDup s.*1).
    { unfold Dict.keys in Hnd. by rewrite Hp. }
    rewrite evict_seq; [| lia | |]; rewrite ?drop_0.
    + set (kept := filter (fun kv => kv.1 ∉ (take r s).*1) targets).
      assert (Hk : kept ≡ₚ drop r s) by by apply filter_victims_Permutation.
      exists kept. split; [done|]. split; [|split; [|split; [|split]]].
      * unfold Dict.keys. eapply sublist_NoDup;
          [exact Hnd|apply fmap_sublist, sublist_filter].
      * rewrite Hk, length_drop. lia.
      * intros x Hx. by apply list_elem_of_filter in Hx as [_ ?].
      * intros x Hx. destruct (decide (x.1 ∉ (take r s).*1)) as [Hv|Hv].
        -- left. by apply list_elem_of_filter.
        -- right. by intros [? _]%list_elem_of_filter.
      * intros x y Hx Hnx Hy.
        pose proof (ascending_StronglySorted targets) as Hs. fold s in Hs.
        rewrite <- (take_drop r s) in Hs.
        eapply StronglySorted_app_1_elem_of; [exact Hs| |by rewrite <- Hk].
        rewrite <- Hp, <- (take_drop r s) in Hx.
        apply elem_of_app in Hx as [Hx|Hx]; [done|].
        exfalso. apply Hnx. by rewrite Hk.
    + eapply sublist_NoDup; [exact Hnds|apply fmap_sublist, sublist_take].
    + intros k (x & -> & Hx)%list_elem_of_fmap. unfold Dict.keys. rewrite <- Hp.
      apply list_elem_of_fmap_2. by apply (subseteq_take r s).
  - apply Z.ltb_ge in Hfull. exists targets.
    split; [done|]. split; [done|]. split; [lia|]. split; [done|].
    split; [by left|]. by intros x y Hx Hnx.
Qed.

Lemma upsert_entry_NoDup targets (symbol : string) (data : TargetData) (now : Q) :
  NoDup (Dict.keys targets) ->
  NoDup (Dict.keys (upsert_entry targets symbol data now)).
Proof.
  intros H. unfold upsert_entry.
  destruct (Dict.get symbol targets); by apply dict_set_NoDup.
Qed.

Lemma upsert_entry_length targets (symbol : string) (data : TargetData) (now : Q) :
  (length (upsert_entry targets symbol data now) <= S (length targets))%nat.
Proof.
  unfold upsert_entry.
  destruct (Dict.get symbol targets); rewrite dict_set_length; case_decide; lia.
Qed.

Lemma add_or_update_target_spec (self : DynamicTargetPool) (symbol : string)
    (data : TargetData) (now : Q) :
  0 <= max_pool_size self ->
  well_formed self ->
  let merged := upsert_entry (targets self) symbol data now in
  exists self',
    add_or_update_target self symbol data now = Ok self' /\
    well_formed self' /\
    max_pool_size self' = max_pool_size self /\
    size self' = Z.min (Z.of_nat (length merged)) (max_pool_size self) /\
    (forall x, x ∈ targets self' -> x ∈ merged) /\
    (forall x, x ∈ merged -> x ∈ targets self' \/ x ∉ targets self') /\
    (forall x y, x ∈ merged -> x ∉ targets self' -> y ∈ targets self' ->
                 score_le x y).
Proof.
  intros HC Hwf merged. unfold add_or_update_target. fold merged.
  destruct (limit_pool_spec (max_pool_size self) merged HC)
    as (kept & -> & Hnd & Hlen & Hsub & Hdec & Hlow).
  { by apply upsert_entry_NoDup. }
  rewrite bind_Ok. by exists (with_targets self kept).
Qed.

Lemma upserts_spec (C : Z) (ops : list (string * TargetData * Q))
    (self : DynamicTargetPool) :
  0 <= C -> max_pool_size self = C -> well_formed self -> size self <= C ->
  exists pool, upserts self ops = Ok pool /\ well_formed pool /\
               max_pool_size pool = C /\ size pool <= C.
Proof.
  intros HC. revert self. induction ops as [|[[symbol data] now] ops IH];
    intros self Hmax Hwf Hsize; simpl.
  - by exists self.
  - destruct (add_or_update_target_spec self symbol data now)
      as (self' & -> & Hwf' & Hmax' & Hsize' & _); [lia|done|].
    rewrite bind_Ok. apply IH; [congruence|done|lia].
Qed.

(** C5.  With a capacity [C] of at least 1: any sequence of
    [add_or_update_target] calls on a new pool succeeds and leaves at most
    [C] targets; and a call on any pool leaves [min(n, C)] targets, where
    [n] is the number of targets once the entry is merged or inserted, all
    of them among those [n]; every target it evicts scores no more than
    every target it keeps; and a target that scores strictly more than all
    the others is kept. *)
Theorem pool_capacity_and_eviction (C : Z) :
  1 <= C ->
  (forall ops, exists pool,
     upserts (new_pool C) ops = Ok pool /\ size pool <= C) /\
  (forall (self : DynamicTargetPool) (symbol : string) (data : TargetData) (now : Q),
     max_pool_size self = C -> well_formed self ->
     let merged := upsert_entry (targets self) symbol data now in
     exists self',
       add_or_update_target self symbol data now = Ok self' /\
       well_formed self' /\
       size self' = Z.min (Z.of_nat (length merged)) C /\
       (forall x, x ∈ targets self' -> x ∈ merged) /\
       (forall x y, x ∈ merged -> x ∉ targets self' -> y ∈ targets self' ->
                    (score_of x <= score_of y)%Q) /\
       (forall x, x ∈ merged ->
                  (forall y, y ∈ merged -> y ≠ x -> (score_of y < score_of x)%Q) ->
                  x ∈ targets self')).
Proof.
  intros HC. split.
  - intros ops.
    destruct (upserts_spec C ops (new_pool C)) as (pool & ? & _ & _ & ?);
      [lia|done|apply NoDup_nil_2|simpl; unfold size; simpl; lia|].
    by exists pool.
  - intros self symbol data now Hmax Hwf merged.
    destruct (add_or_update_target_spec self symbol data now)
      as (self' & Heq & Hwf' & _ & Hsize & Hsub & Hdec & Hlow); [lia|done|].
    fold merged in Hsize, Hsub, Hdec, Hlow. rewrite Hmax in Hsize.
    exists self'. repeat (split; [done|]).
    intros x Hx Hbest. destruct (Hdec x Hx) as [|Hout]; [done|].
    exfalso. unfold size in Hsize.
    destruct (targets self') as [|y kept] eqn:Hkept.
    + apply list_elem_of_split in Hx as (l1 & l2 & Hm). rewrite Hm in Hsize.
      rewrite length_app in Hsize. simpl in Hsize. lia.
    + assert (Hy : y ∈ y :: kept) by (by left).
      assert (Hne : y ≠ x) by (intros ->; by apply Hout).
      pose proof (Hbest y (Hsub y Hy) Hne) as Hlt.
      pose proof (Hlow x y Hx Hout Hy) as Hle. unfold score_le in Hle.
      apply (Qlt_not_le _ _ Hlt Hle).
Qed.
End pool_eviction.

Lemma pool_capacity_and_eviction_witness :
  exists pool,
    Pool.upserts (Pool.new_pool 2)
      [("BTCUSDT", {[ "score" := 70%Q ]}, 1%Q);
       ("XRPUSDT", {[ "score" := 60%Q ]}, 2%Q);
       ("ETHUSDT", {[ "score" := 65%Q ]}, 3%Q)] = Ok pool /\
    (Pool.size pool <= 2)%Z.
Proof.
  apply (pool_capacity_and_eviction 2).
  vm_compute. discriminate.
Defined.

(** ** The target pool: cooling down and ranking *)
Section pool_ranking.
Import Pool.
Local Open Scope Z_scope.

Lemma descending_StronglySorted (l : list (string * TargetData)) :
  StronglySorted (flip score_le)
    (sorted (fun x y => Qle_bool (score_of y) (score_of x)) l).
Proof.
  apply sorted_StronglySorted.
  - intros x y H. by apply Qle_bool_iff.
  - intros x y H. unfold flip, score_le.
    apply Qlt_le_weak, Qltb_lt. unfold Qltb. by rewrite H.
  - intros x y z Hxy Hyz. unfold flip in *. by eapply score_le_trans.
Qed.

Lemma py_slice_to_subseteq {A} (l : list A) (count : Z) : py_slice_to l count ⊆ l.
Proof. unfold py_slice_to. destruct (0 <=? count); apply subseteq_take. Qed.

Lemma elem_of_available (self : DynamicTargetPool) (now : Q)
    (x : string * TargetData) :
  x ∈ available_targets self true now
  <-> is_symbol_cooling_down self x.1 now = false /\ x ∈ targets self.
Proof.
  unfold available_targets. rewrite list_elem_of_filter. simpl.
  destruct (is_symbol_cooling_down self x.1 now); simpl.
  - split; [by intros [[] _]|by intros [? _]].
  - split; [by intros [_ ?]|by intros [_ ?]].
Qed.

(** A cooling symbol is in no answer. *)
Lemma cooling_symbol_excluded (self : DynamicTargetPool) (symbol : string)
    (now : Q) (count : Z) :
  is_symbol_cooling_down self symbol now = true ->
  symbol ∉ get_top_targets self count true now.
Proof.
  intros Hcool Hin. unfold get_top_targets in Hin.
  apply list_elem_of_fmap in Hin as (x & -> & Hx).
  apply py_slice_to_subseteq in Hx.
  rewrite sorted_Permutation in Hx.
  apply elem_of_available in Hx as [Hx _]. congruence.
Qed.

(** A target that is not cooling is in the answer when the answer has room
    for all that score at least as much. *)
Lemma ranked_symbol_included (self : DynamicTargetPool) (now : Q) (count : Z)
    (x : string * TargetData) :
  x ∈ targets self ->
  is_symbol_cooling_down self x.1 now = false ->
  Z.of_nat (length (rivals self now x)) <= count ->
  x.1 ∈ get_top_targets self count true now.
Proof.
  intros Hx Hcool Hcount. unfold get_top_targets.
  apply list_elem_of_fmap_2.
  set (s := sorted (fun x y => Qle_bool (score_of y) (score_of x))
              (available_targets self true now)).
  assert (Hp : s ≡ₚ available_targets self true now) by apply sorted_Permutation.
  assert (Hs : x ∈ s) by (rewrite Hp; by apply elem_of_available).
  apply list_elem_of_split in Hs as (l1 & l2 & Hs).
  pose proof (descending_StronglySorted (available_targets self true now)) as Hsorted.
  fold s in Hsorted. rewrite Hs in Hsorted.
  assert (Hl1 : forall y, y ∈ l1 -> Qle_bool (score_of x) (score_of y)).
  { intros y Hy. apply Is_true_true, Qle_bool_iff.
    apply (StronglySorted_app_1_elem_of _ _ _ y x Hsorted Hy). by left. }
  assert (Hlen : (S (length l1) <= length (rivals self now x))%nat).
  { unfold rivals. rewrite <- Hp, Hs, filter_app, length_app.
    rewrite (filter_all _ l1) by done.
    rewrite filter_cons_True; [simpl; lia|].
    apply Is_true_true, Qle_bool_iff. apply Qle_refl. }
  unfold py_slice_to. assert ((0 <=? count) = true) as -> by (apply Z.leb_le; lia).
  apply elem_of_take. exists (length l1). split; [|lia].
  rewrite Hs. by apply list_lookup_middle.
Qed.

(** C7.  For a symbol whose failure record counts [k] failures, the last
    one at [t]: a [get_top_targets] call with [exclude_cooling] made less
    than [min(3600, k*300)] seconds after [t] does not return the symbol; a
    call made at least that long after [t] returns it when it is a target
    and [count] leaves room for every available target that scores at least
    as much. *)
Theorem cooldown_window (self : DynamicTargetPool) (symbol : string)
    (f : FailureRecord) (now : Q) (count : Z) :
  attempt_failures self !! symbol = Some f ->
  let window := inject_Z (Z.min 3600 (f_count f * 300)) in
  ((now - last_failure f < window)%Q ->
   symbol ∉ get_top_targets self count true now) /\
  ((window <= now - last_failure f)%Q ->
   forall data, (symbol, data) ∈ targets self ->
     Z.of_nat (length (rivals self now (symbol, data))) <= count ->
     symbol ∈ get_top_targets self count true now).
Proof.
  intros Hf window. split.
  - intros Hlt. apply cooling_symbol_excluded.
    unfold is_symbol_cooling_down. rewrite Hf. by apply Qltb_lt.
  - intros Hge data Hin Hcount.
    apply (ranked_symbol_included self now count (symbol, data)); [done| |done].
    unfold is_symbol_cooling_down. simpl. rewrite Hf. by apply Qltb_ge.
Qed.

Lemma cooldown_window_witness :
  ("XRPUSDT" ∉ get_top_targets Scenario.pool_C 10 true 1500) /\
  ("XRPUSDT" ∈ get_top_targets Scenario.pool_C 10 true 2000).
Proof.
  split.
  - apply (cooldown_window Scenario.pool_C "XRPUSDT"
             {| f_count := 3; last_failure := 1000; reasons := ["a"; "b"; "c"] |}
             1500 10).
    + reflexivity.
    + reflexivity.
  - apply (cooldown_window Scenario.pool_C "XRPUSDT"
             {| f_count := 3; last_failure := 1000; reasons := ["a"; "b"; "c"] |}
             2000 10) with (data := {[ "score" := 60%Q ]}).
    + reflexivity.
    + vm_compute. discriminate.
    + apply elem_of_cons. right. by left.
    + vm_compute. discriminate.
Defined.

End pool_ranking.

(** ** The target pool: the range of the scores *)
Section pool_scores.
Import Pool.
Local Open Scope Q_scope.

Lemma dict_set_elem {V} (d : list (string * V)) (k : string) (v : V)
    (x : string * V) :
  x ∈ Dict.set k v d -> x ∈ d \/ x = (k, v).
Proof.
  induction d as [|[k' v'] d IH]; simpl.
  - intros ->%list_elem_of_singleton. by right.
  - case_bool_decide as Hk.
    + intros [->|Hx]%elem_of_cons; [subst; by right|].
      left. by apply elem_of_cons; right.
    + intros [->|Hx]%elem_of_cons; [left; by apply elem_of_cons; left|].
      destruct (IH Hx) as [?|?]; [|by right].
      left. by apply elem_of_cons; right.
Qed.

(** A score in range times a factor between 0 and 1 is in range. *)
Lemma scale_score_in_range (self : DynamicTargetPool) (symbol : string)
    (data : TargetData) (factor : Q) :
  0 <= factor -> factor <= 1 ->
  (symbol, data) ∈ targets self ->
  scores_in_range self ->
  scores_in_range (scale_score self symbol data factor).1.
Proof.
  intros H0 H1 Hin Hrange. unfold scale_score.
  destruct (data !! "score") as [score|] eqn:Hs; simpl; [|done].
  intros x [Hx| ->]%dict_set_elem; [by apply Hrange|].
  unfold score_of. simpl. rewrite lookup_insert_eq. simpl.
  destruct (Hrange _ Hin) as [Hlo Hhi].
  unfold score_of in Hlo, Hhi. simpl in Hlo, Hhi. rewrite Hs in Hlo, Hhi.
  simpl in Hlo, Hhi. split; nra.
Qed.

(** [record_attempt_failure] keeps the scores in range. *)
Lemma record_attempt_failure_in_range (self : DynamicTargetPool)
    (symbol reason : string) (now : Q) :
  failures_counted self ->
  scores_in_range self ->
  scores_in_range (record_attempt_failure self symbol reason now).1.
Proof.
  intros Hcount Hrange. unfold record_attempt_failure.
  set (record := match attempt_failures self !! symbol with
                 | Some f => _ | None => _ end).
  assert (Hrec : (1 <= f_count record)%Z).
  { subst record. destruct (attempt_failures self !! symbol) as [f|] eqn:Hf;
      simpl; [|lia]. specialize (Hcount _ _ Hf). lia. }
  simpl. destruct (Dict.get symbol (targets self)) as [data|] eqn:Hget; [|done].
  apply scale_score_in_range; [| |by apply dict_get_Some|done].
  - pose proof (py_min_l (1 # 2) (inject_Z (f_count record) * (1 # 10))). lra.
  - assert (0 <= py_min (1 # 2) (inject_Z (f_count record) * (1 # 10))); [|lra].
    apply py_min_glb; [lra|].
    assert (0 <= inject_Z (f_count record)); [|lra].
    change 0 with (inject_Z 0). rewrite <- Zle_Qle. lia.
Qed.

(** C6.  [record_success] multiplies the score by
    [1 + min(0.3, successCount * 0.05)] and does not clamp the product: the
    first success of a target that scores 100 leaves it the score 105, so
    the scores of a pool that were within [0, 100] are not any more. *)
Theorem record_success_leaves_range :
  scores_in_range Scenario.pool_top_score /\
  exists pool data score,
    record_success Scenario.pool_top_score "BTCUSDT" None 5 = (pool, Ok ()) /\
    Dict.get "BTCUSDT" (targets pool) = Some data /\
    data !! "score" = Some score /\
    score == 100 * (1 + 1 * (1 # 20)) /\
    score == 105 /\
    ~ scores_in_range pool.
Proof.
  split.
  - intros x ->%list_elem_of_singleton. by vm_compute.
  - eexists _, _, _. split; [reflexivity|]. split; [reflexivity|].
    split; [by vm_compute|]. split; [reflexivity|]. split; [reflexivity|].
    intros Hrange.
    destruct (Hrange ("BTCUSDT", <["score" := 100 * (1 + py_min (3 # 10) (inject_Z 1 * (1 # 20)))]> {[ "score" := 100 ]}))
      as [_ Hhi].
    + simpl. by left.
    + vm_compute in Hhi. by apply Hhi.
Qed.

End pool_scores.

(** ** Rounding is monotone *)
Section rounding.
Local Open Scope Q_scope.

Lemma Qltb_comp (a a' b b' : Q) : a == a' -> b == b' -> Qltb a b = Qltb a' b'.
Proof.
  intros Ha Hb. destruct (Qltb a' b') eqn:E.
  - apply Qltb_lt. apply Qltb_lt in E. lra.
  - apply Qltb_ge. apply Qltb_ge in E. lra.
Qed.

Lemma round_half_even_comp (x y : Q) : x == y -> round_half_even x = round_half_even y.
Proof.
  intros H. unfold round_half_even. rewrite (Qfloor_comp _ _ H).
  rewrite (Qltb_comp (x - _) (y - inject_Z (Qfloor y)) (1 # 2) (1 # 2)) by lra.
  rewrite (Qltb_comp (1 # 2) (1 # 2) (x - _) (y - inject_Z (Qfloor y))) by lra.
  done.
Qed.

Lemma py_round_comp (x y : Q) (p : Z) : x == y -> py_round x p = py_round y p.
Proof.
  intros H. unfold py_round.
  rewrite (round_half_even_comp (x * _) (y * Qpower 10 p)); [done|].
  by rewrite H.
Qed.

Lemma round_half_even_mono (x y : Q) :
  x <= y -> (round_half_even x <= round_half_even y)%Z.
Proof.
  intros Hxy. unfold round_half_even.
  pose proof (Qfloor_resp_le _ _ Hxy) as Hf.
  pose proof (Qfloor_le x) as Hx1. pose proof (Qlt_floor x) as Hx2.
  pose proof (Qfloor_le y) as Hy1. pose proof (Qlt_floor y) as Hy2.
  destruct (Z.eq_dec (Qfloor x) (Qfloor y)) as [Heq|Hne].
  - rewrite <- Heq in *.
    destruct (Qltb (x - _) (1 # 2)) eqn:E1; [repeat case_match; lia|].
    apply Qltb_ge in E1.
    destruct (Qltb (y - _) (1 # 2)) eqn:E2; [apply Qltb_lt in E2; lra|].
    destruct (Qltb (1 # 2) (x - _)) eqn:E3.
    + apply Qltb_lt in E3.
      assert (Qltb (1 # 2) (y - inject_Z (Qfloor x)) = true) as ->; [|lia].
      apply Qltb_lt. lra.
    + repeat case_match; lia.
  - assert (Qfloor x + 1 <= Qfloor y)%Z by lia.
    repeat case_match; lia.
Qed.

Lemma py_round_mono (x y : Q) (p : Z) : x <= y -> py_round x p <= py_round y p.
Proof.
  intros Hxy. unfold py_round, Qdiv.
  pose proof (Qpower_10_pos p) as Hp.
  apply Qmult_le_compat_r.
  - rewrite <- Zle_Qle. apply round_half_even_mono.
    by apply Qmult_le_compat_r; [|lra].
  - apply Qinv_le_0_compat. lra.
Qed.

End rounding.

(** ** [PositionManager]: the trailing stop *)
Section trailing_stop.
Import Position.
Local Open Scope Q_scope.

(** [update_stop_loss] leaves the stored stop order as it was or stores the
    rounded price. *)
Lemma update_stop_loss_stored (self : PositionManager) (symbol : string)
    (new_stop : Q) (symbol_info : result SymbolInfo)
    (stop_reply : result (option OrderResult)) (order : StopOrder) :
  stop_orders self !! symbol = Some order ->
  exists order',
    stop_orders (update_stop_loss self symbol new_stop symbol_info stop_reply).1.1
      !! symbol = Some order' /\
    (order' = order \/
     exists info, symbol_info = Ok info /\
       so_price order' = py_round new_stop (price_precision info)).
Proof.
  intros Hord. unfold update_stop_loss.
  destruct (Risk.get_position_for_symbol _ _) as [position|]; [|by eauto].
  destruct symbol_info as [info|e]; [|by eauto].
  destruct stop_reply as [[reply|]|e]; simpl; [|by eauto..].
  rewrite lookup_insert_eq. eexists. split; [done|]. right. by exists info.
Qed.

Lemma candidate_stop_long (st : StrategyParams) (price : Q) :
  price - price * (trailing_sl_distance st / 100) == candidate_stop st "LONG" price.
Proof. unfold candidate_stop. simpl. ring. Qed.

Lemma candidate_stop_short (st : StrategyParams) (side : string) (price : Q) :
  side ≠ "LONG" ->
  price + price * (trailing_sl_distance st / 100) == candidate_stop st side price.
Proof.
  intros Hs. unfold candidate_stop. rewrite bool_decide_eq_false_2 by done. ring.
Qed.

(** One call of [update_trailing_stop] that runs from entry to return with
    nothing in between, on a position that has a stop order: it leaves the
    stored order as it was or stores the candidate stop rounded to the
    symbol's price precision; it does the latter only when the candidate
    lies beyond the current stop and beyond the anti-chatter threshold;
    and when the current stop is itself a price of that precision, the
    stored price is not on the unfavourable side of it. *)
Theorem trailing_stop_moves_favorably (self : PositionManager) (symbol : string)
    (current_price : Q) (symbol_info : result SymbolInfo)
    (stop_reply : result (option OrderResult))
    (position : Position) (order : StopOrder) :
  Risk.get_position_for_symbol (risk_manager self) symbol = Some position ->
  stop_orders self !! symbol = Some order ->
  let side := pos_side position in
  let st := strategy self in
  let candidate := candidate_stop st side current_price in
  exists order',
    stop_orders
      (update_trailing_stop self symbol current_price symbol_info stop_reply).1.1
      !! symbol = Some order' /\
    (order' = order \/
     exists info, symbol_info = Ok info /\
       so_price order' = py_round candidate (price_precision info) /\
       beyond side (so_price order) candidate /\
       beyond side (chatter_threshold st side (so_price order)) candidate /\
       (on_grid info (so_price order) ->
        not_worse side (so_price order) (so_price order'))).
Proof.
  intros Hpos Hord side st candidate.
  unfold update_trailing_stop. rewrite Hpos.
  destruct (trailing_sl (strategy self)); simpl negb; cbv iota; [|by eauto].
  rewrite Hord. fold st.
  assert (Hmoved : forall new_stop,
    new_stop == candidate ->
    beyond side (so_price order) candidate ->
    beyond side (chatter_threshold st side (so_price order)) candidate ->
    exists order',
      stop_orders
        (let '(self', sent, _) :=
           update_stop_loss self symbol new_stop symbol_info stop_reply in
         (self', sent, stop_orders self' !! symbol)).1.1 !! symbol = Some order' /\
      (order' = order \/
       exists info, symbol_info = Ok info /\
         so_price order' = py_round candidate (price_precision info) /\
         beyond side (so_price order) candidate /\
         beyond side (chatter_threshold st side (so_price order)) candidate /\
         (on_grid info (so_price order) ->
          not_worse side (so_price order) (so_price order')))).
  { intros new_stop Hnew Hb1 Hb2.
    destruct (update_stop_loss_stored self symbol new_stop symbol_info
                stop_reply order Hord) as (order' & Hlook & Hcase).
    destruct (update_stop_loss _ _ _ _ _) as [[self' sent] ret]. simpl in *.
    exists order'. split; [done|].
    destruct Hcase as [->|(info & -> & Hprice)]; [by left|].
    right. exists info. split; [done|].
    rewrite (py_round_comp _ _ _ Hnew) in Hprice.
    split; [done|]. split; [done|]. split; [done|].
    intros Hgrid. unfold on_grid in Hgrid. unfold not_worse, beyond in *.
    rewrite Hprice. case_bool_decide.
    - apply Qle_trans with (py_round (so_price order) (price_precision info));
        [rewrite Hgrid; apply Qle_refl|apply py_round_mono; lra].
    - apply Qle_trans with (py_round (so_price order) (price_precision info));
        [apply py_round_mono; lra|rewrite Hgrid; apply Qle_refl]. }
  subst side. unfold beyond, chatter_threshold, not_worse in Hmoved |- *.
  destruct (bool_decide (pos_side position = "LONG")) eqn:Hside;
    [apply bool_decide_eq_true_1 in Hside|apply bool_decide_eq_false_1 in Hside].
  - pose proof (candidate_stop_long st current_price) as Hc.
    rewrite <- Hside in Hc. fold candidate in Hc.
    destruct (Qltb (so_price order) _) eqn:E1; [|by eauto].
    destruct (Qltb (so_price order * _) _) eqn:E2; [|by eauto].
    apply Qltb_lt in E1, E2. apply Hmoved; [done|lra|lra].
  - pose proof (candidate_stop_short st _ current_price Hside) as Hc.
    fold candidate in Hc.
    destruct (Qltb _ (so_price order)) eqn:E1; [|by eauto].
    destruct (Qltb _ (so_price order * _)) eqn:E2; [|by eauto].
    apply Qltb_lt in E1, E2. apply Hmoved; [done|lra|lra].
Qed.

(** A call that nothing interrupts is the call of [update_trailing_stop]. *)
Lemma update_trailing_stop_uninterrupted (self : PositionManager)
    (symbol : string) (current_price : Q) (symbol_info : result SymbolInfo)
    (stop_reply : result (option OrderResult)) :
  trailing_finish self symbol (trailing_begin self symbol current_price)
    symbol_info stop_reply
  = update_trailing_stop self symbol current_price symbol_info stop_reply.
Proof.
  unfold update_trailing_stop, trailing_begin, update_stop_loss.
  destruct (Risk.get_position_for_symbol _ _) as [position|]; [|done].
  destruct (trailing_sl (strategy self)); simpl negb; cbv iota; [|done].
  destruct (stop_orders self !! symbol) as [order|] eqn:Hord; [|done].
  assert (Hmoved : forall new_stop,
    trailing_finish self symbol (AwaitPrecision position new_stop)
      symbol_info stop_reply
    = (let '(self', sent, _) :=
         match symbol_info with
         | Raise _ => (self, [], None)
         | Ok info =>
             let new_stop_price := py_round new_stop (price_precision info) in
             let sent :=
               [CancelAll symbol] ++
               [StopMarket symbol
                  (if bool_decide (pos_side position = "LONG")
                   then "SELL" else "BUY")
                  (Qabs (pos_amount position)) new_stop_price] in
             match stop_reply with
             | Ok (Some stop_order) =>
                 let entry := {| so_order_id := orderId stop_order;
                                 so_price := new_stop_price;
                                 so_quantity := Qabs (pos_amount position) |} in
                 let trades :=
                   match active_trades self !! symbol with
                   | Some t =>
                       <[symbol := {| at_side := at_side t;
                                      at_quantity := at_quantity t;
                                      at_entry_price := at_entry_price t;
                                      at_leverage := at_leverage t;
                                      at_stop_loss := new_stop_price;
                                      at_partially_closed :=
                                        at_partially_closed t |}]>
                         (active_trades self)
                   | None => active_trades self
                   end in
                 ({| risk_manager := risk_manager self;
                     strategy := strategy self;
                     active_trades := trades;
                     stop_orders := <[symbol := entry]> (stop_orders self) |},
                  sent, Some entry)
             | _ => (self, sent, None)
             end
         end in
       (self', sent, stop_orders self' !! symbol))).
  { intros new_stop. unfold trailing_finish, trailing_resume.
    destruct symbol_info as [info|e]; [|by rewrite Hord].
    rewrite Hord. by destruct stop_reply as [[stop_order|]|e]. }
  destruct (bool_decide (pos_side position = "LONG")).
  - destruct (Qltb (so_price order) _); [|done].
    destruct (Qltb (so_price order * _) _); [|done]. apply Hmoved.
  - destruct (Qltb _ (so_price order)); [|done].
    destruct (Qltb _ (so_price order * _)); [|done]. apply Hmoved.
Qed.

(** C8.  [update_trailing_stop] stores the rounded candidate of the price
    it was called with over whatever stop is stored when its stop order
    is answered.  A call for a LONG position whose candidate passed both
    tests against the stop stored at its entry, and whose order the venue
    accepts after any other calls for the symbol have run meanwhile (none
    is one case), cancels the orders, places the stop at the rounded
    candidate and stores it; when that price is below the stop stored just
    before, the stored stop of the LONG position has moved down. *)
Theorem trailing_stop_moves_down (self : PositionManager) (symbol : string)
    (position : Position) (order before : StopOrder) (current_price : Q)
    (info : SymbolInfo) (stop_order : OrderResult)
    (others : list (Q * result SymbolInfo * result (option OrderResult))) :
  Risk.get_position_for_symbol (risk_manager self) symbol = Some position ->
  pos_side position = "LONG" ->
  trailing_sl (strategy self) = true ->
  stop_orders self !! symbol = Some order ->
  let new_stop :=
    current_price - current_price * (trailing_sl_distance (strategy self) / 100) in
  so_price order < new_stop ->
  so_price order * (1 + trailing_sl_interval (strategy self) / 100) < new_stop ->
  stop_orders (meanwhile self symbol others) !! symbol = Some before ->
  py_round new_stop (price_precision info) < so_price before ->
  exists after entry,
    trailing_finish (meanwhile self symbol others) symbol
      (trailing_begin self symbol current_price) (Ok info) (Ok (Some stop_order))
    = (after,
       [CancelAll symbol;
        StopMarket symbol "SELL" (Qabs (pos_amount position))
          (py_round new_stop (price_precision info))],
       Some entry) /\
    stop_orders after !! symbol = Some entry /\
    so_price entry = py_round new_stop (price_precision info) /\
    so_price entry < so_price before.
Proof.
  intros Hpos Hside Htrail Hord new_stop Hstop Hthreshold Hbefore Hlower.
  assert (Hbegin : trailing_begin self symbol current_price
                   = AwaitPrecision position new_stop).
  { unfold trailing_begin. rewrite Hpos, Htrail, Hord, Hside. cbn.
    fold new_stop. apply Qltb_lt in Hstop, Hthreshold.
    by rewrite Hstop, Hthreshold. }
  rewrite Hbegin. unfold trailing_finish, trailing_resume.
  rewrite Hbefore, Hside. cbn. rewrite lookup_insert_eq.
  eexists _, _. split; [reflexivity|]. cbn.
  rewrite lookup_insert_eq. done.
Qed.

(** The two ways of [trailing_stop_moves_down].  A stop stored at 0.502,
    off the grid of two decimals: one call at the price 0.5097 stores
    0.50.  A stop stored at 0.49: while a call at the price 0.505 is
    suspended, a call at 0.515 stores 0.51; the suspended call then stores
    0.50. *)
Lemma trailing_stop_moves_down_witness :
  (exists after entry,
     Position.trailing_finish
       (Position.meanwhile Scenario.trader_off_grid "DOGEUSDT" []) "DOGEUSDT"
       (Position.trailing_begin Scenario.trader_off_grid "DOGEUSDT" (5097 # 10000))
       (Ok Scenario.symbol_two_decimals)
       (Ok (Some {| Position.orderId := Some 2%Z; Position.avgPrice := None;
                    Position.executedQty := None |}))
     = (after,
        [Position.CancelAll "DOGEUSDT";
         Position.StopMarket "DOGEUSDT" "SELL" (Qabs 10)
           (py_round ((5097 # 10000) - (5097 # 10000) * (1 / 100)) 2)],
        Some entry) /\
     Position.stop_orders after !! "DOGEUSDT" = Some entry /\
     Position.so_price entry
     = py_round ((5097 # 10000) - (5097 # 10000) * (1 / 100)) 2 /\
     Position.so_price entry < 502 # 1000) /\
  (exists after entry,
     Position.trailing_finish
       (Position.meanwhile Scenario.trader_on_grid "DOGEUSDT"
          [(515 # 1000, Ok Scenario.symbol_two_decimals, Scenario.accepted)])
       "DOGEUSDT"
       (Position.trailing_begin Scenario.trader_on_grid "DOGEUSDT" (505 # 1000))
       (Ok Scenario.symbol_two_decimals)
       (Ok (Some {| Position.orderId := Some 3%Z; Position.avgPrice := None;
                    Position.executedQty := None |}))
     = (after,
        [Position.CancelAll "DOGEUSDT";
         Position.StopMarket "DOGEUSDT" "SELL" (Qabs 10)
           (py_round ((505 # 1000) - (505 # 1000) * (1 / 100)) 2)],
        Some entry) /\
     Position.stop_orders after !! "DOGEUSDT" = Some entry /\
     Position.so_price entry
     = py_round ((505 # 1000) - (505 # 1000) * (1 / 100)) 2 /\
     Position.so_price entry < 51 # 100).
Proof.
  split.
  - assert (H1 : Position.stop_orders
                   (Position.meanwhile Scenario.trader_off_grid "DOGEUSDT" [])
                   !! "DOGEUSDT"
                 = Some {| Position.so_order_id := Some 1%Z;
                           Position.so_price := 502 # 1000;
                           Position.so_quantity := 10 |}) by reflexivity.
    exact (trailing_stop_moves_down Scenario.trader_off_grid "DOGEUSDT"
             Scenario.long_position _ _ (5097 # 10000)
             Scenario.symbol_two_decimals _ []
             eq_refl eq_refl eq_refl eq_refl eq_refl eq_refl H1 eq_refl).
  - assert (H1 : Position.stop_orders
                   (Position.meanwhile Scenario.trader_on_grid "DOGEUSDT"
                      [(515 # 1000, Ok Scenario.symbol_two_decimals,
                        Scenario.accepted)])
                   !! "DOGEUSDT"
                 = Some {| Position.so_order_id := Some 2%Z;
                           Position.so_price := 51 # 100;
                           Position.so_quantity := 10 |}) by (vm_compute; reflexivity).
    exact (trailing_stop_moves_down Scenario.trader_on_grid "DOGEUSDT"
             Scenario.long_position _ _ (505 # 1000)
             Scenario.symbol_two_decimals _ _
             eq_refl eq_refl eq_refl eq_refl eq_refl eq_refl H1 eq_refl).
Defined.

End trailing_stop.

(** ** [PositionManager]: the partial close *)
Section partial_close.
Import Position.
Local Open Scope Q_scope.

(** A call returns nothing and leaves the record of the trade alone, or
    returns a trade and sets the flag that was not set. *)
Lemma process_partial_close_step (self : PositionManager) (symbol : string)
    (price : Q) (reply : result (option OrderResult)) (today : string)
    (trade : ActiveTrade) :
  active_trades self !! symbol = Some trade ->
  exists trade',
    active_trades (process_partial_close self symbol price reply today).1.1
      !! symbol = Some trade' /\
    ((process_partial_close self symbol price reply today).2 = None /\
     trade' = trade \/
     is_Some (process_partial_close self symbol price reply today).2 /\
     at_partially_closed trade = false /\
     at_partially_closed trade' = true).
Proof.
  intros Htrade. unfold process_partial_close, process_partial_close_body.
  destruct (partial_close_enabled _); simpl negb; cbv iota; [|by eauto].
  destruct (Risk.get_position_for_symbol _ _) as [position|]; [|by eauto].
  destruct (Risk._calculate_position_pnl_percent _ _) as [pnl_pct|e]; [|by eauto].
  destruct (Qltb _ pnl_pct); [|by eauto].
  rewrite Htrade.
  destruct (at_partially_closed trade) eqn:Hflag; [by eauto|].
  destruct reply as [[order_result|]|e]; [|by eauto..].
  destruct (Risk.record_trade _ _ _ _ _ _ _ _ _) as [rm trade_info]. simpl.
  rewrite lookup_insert_eq. eexists. split; [done|]. right. by eauto.
Qed.

Lemma partial_close_run_flagged (symbol : string) (ticks : list Tick)
    (self : PositionManager) (trade : ActiveTrade) :
  active_trades self !! symbol = Some trade ->
  at_partially_closed trade = true ->
  (partial_close_run self symbol ticks).2 = [].
Proof.
  revert self. induction ticks as [|t ticks IH]; intros self Htrade Hflag; [done|].
  simpl.
  destruct (process_partial_close_step (refresh_positions self (tick_positions t))
              symbol (tick_price t) (tick_reply t) (tick_today t) trade Htrade)
    as (trade' & Hlook & [[Hnone ->]|(_ & Hf & _)]); [|congruence].
  destruct (process_partial_close _ _ _ _ _) as [[self' sent] r]. simpl in *.
  specialize (IH self' Hlook Hflag).
  destruct (partial_close_run self' symbol ticks) as [self'' closes].
  simpl in *. by rewrite Hnone, IH.
Qed.

Lemma partial_close_run_once (symbol : string) (ticks : list Tick)
    (self : PositionManager) (trade : ActiveTrade) :
  active_trades self !! symbol = Some trade ->
  (length (partial_close_run self symbol ticks).2 <= 1)%nat.
Proof.
  revert self trade. induction ticks as [|t ticks IH]; intros self trade Htrade;
    [simpl; lia|].
  simpl.
  destruct (process_partial_close_step (refresh_positions self (tick_positions t))
              symbol (tick_price t) (tick_reply t) (tick_today t) trade Htrade)
    as (trade' & Hlook & [[Hnone ->]|([record Hsome] & _ & Hflag)]).
  - destruct (process_partial_close _ _ _ _ _) as [[self' sent] r]. simpl in *.
    specialize (IH self' trade Hlook).
    destruct (partial_close_run self' symbol ticks) as [self'' closes].
    simpl in *. by rewrite Hnone.
  - destruct (process_partial_close _ _ _ _ _) as [[self' sent] r]. simpl in *.
    pose proof (partial_close_run_flagged symbol ticks self' trade' Hlook Hflag) as Hrest.
    destruct (partial_close_run self' symbol ticks) as [self'' closes].
    simpl in *. rewrite Hsome, Hrest. simpl. lia.
Qed.

Lemma process_partial_close_flagged (self : PositionManager) (symbol : string)
    (price : Q) (reply : result (option OrderResult)) (today : string)
    (trade : ActiveTrade) :
  active_trades self !! symbol = Some trade ->
  at_partially_closed trade = true ->
  process_partial_close self symbol price reply today = (self, [], None).
Proof.
  intros Htrade Hflag. unfold process_partial_close, process_partial_close_body.
  destruct (partial_close_enabled _); simpl negb; cbv iota; [|done].
  destruct (Risk.get_position_for_symbol _ _) as [position|]; [|done].
  destruct (Risk._calculate_position_pnl_percent _ _) as [pnl_pct|e]; [|done].
  destruct (Qltb _ pnl_pct); [|done].
  by rewrite Htrade, Hflag.
Qed.

Lemma process_partial_close_accepted (self : PositionManager) (symbol : string)
    (price : Q) (reply : result (option OrderResult)) (today : string)
    (trade : ActiveTrade) (self' : PositionManager) (sent : list request)
    (record : Risk.TradeRecord) :
  active_trades self !! symbol = Some trade ->
  process_partial_close self symbol price reply today = (self', sent, Some record) ->
  exists position order_result trade',
    Risk.get_position_for_symbol (risk_manager self) symbol = Some position /\
    reply = Ok (Some order_result) /\
    let close_qty :=
      Qabs (pos_amount position) * (partial_close_percentage (strategy self) / 100) in
    sent = [Market symbol
              (if bool_decide (pos_side position = "LONG") then "SELL" else "BUY")
              close_qty true] /\
    Risk.tr_quantity record = default close_qty (executedQty order_result) /\
    active_trades self' !! symbol = Some trade' /\
    at_partially_closed trade' = true /\
    at_quantity trade' = at_quantity trade - Risk.tr_quantity record.
Proof.
  intros Htrade. unfold process_partial_close, process_partial_close_body.
  destruct (partial_close_enabled _); simpl negb; cbv iota; [|done].
  destruct (Risk.get_position_for_symbol _ _) as [position|]; [|done].
  destruct (Risk._calculate_position_pnl_percent _ _) as [pnl_pct|e]; [|done].
  destruct (Qltb _ pnl_pct); [|done].
  rewrite Htrade.
  destruct (at_partially_closed trade) eqn:Hflag; [done|].
  destruct reply as [[order_result|]|e]; [|done..].
  unfold Risk.record_trade. intros [= <- <- <-].
  exists position, order_result. eexists. split; [done|]. split; [done|].
  simpl. rewrite lookup_insert_eq. done.
Qed.

(** A position that has a record in [active_trades]: over any sequence
    of monitor passes [process_partial_close] returns at most one trade;
    once the record is flagged as partially closed every call is a no-op;
    and a call that returns a trade has sent one reduce-only market order
    for [partial_close_percentage] percent of the position's amount, has
    flagged the record, and has reduced its quantity by the quantity of
    the returned trade, which is the executed quantity the venue reports
    and, when it reports none, the quantity ordered. *)
Theorem partial_close_once (self : PositionManager) (symbol : string)
    (trade : ActiveTrade) :
  active_trades self !! symbol = Some trade ->
  (forall ticks, (length (partial_close_run self symbol ticks).2 <= 1)%nat) /\
  (at_partially_closed trade = true ->
   forall price reply today,
     process_partial_close self symbol price reply today = (self, [], None)) /\
  (forall price reply today self' sent record,
     process_partial_close self symbol price reply today
     = (self', sent, Some record) ->
     exists position order_result trade',
       Risk.get_position_for_symbol (risk_manager self) symbol = Some position /\
       reply = Ok (Some order_result) /\
       let close_qty :=
         Qabs (pos_amount position)
         * (partial_close_percentage (strategy self) / 100) in
       sent = [Market symbol
                 (if bool_decide (pos_side position = "LONG") then "SELL" else "BUY")
                 close_qty true] /\
       Risk.tr_quantity record = default close_qty (executedQty order_result) /\
       active_trades self' !! symbol = Some trade' /\
       at_partially_closed trade' = true /\
       at_quantity trade' = at_quantity trade - Risk.tr_quantity record).
Proof.
  intros Htrade. split; [|split].
  - intros ticks. by eapply partial_close_run_once.
  - intros Hflag price reply today. by eapply process_partial_close_flagged.
  - intros price reply today self' sent record.
    by apply process_partial_close_accepted.
Qed.

(** The quantity of a record shrinks by what the venue reports as
    executed, here 3 coins of the 5 ordered. *)
Lemma partial_close_by_executed_quantity :
  exists self' sent record trade',
    process_partial_close Scenario.trader_tracked "DOGEUSDT" (52 # 100)
      Scenario.partly_filled "2026-01-05" = (self', sent, Some record) /\
    sent = [Market "DOGEUSDT" "SELL" (10 * (50 / 100)) true] /\
    active_trades self' !! "DOGEUSDT" = Some trade' /\
    at_quantity trade' == 7 /\
    ~ at_quantity trade' == 10 - 10 * (50 / 100).
Proof.
  eexists _, _, _, _. split; [reflexivity|]. split; [reflexivity|].
  split; [by vm_compute|]. split; [reflexivity|].
  intros H. vm_compute in H. discriminate.
Qed.

Lemma pass_in_profit_ext (self self' : PositionManager) (symbol : string)
    (t : Tick) :
  strategy self' = strategy self ->
  pass_in_profit self symbol t -> pass_in_profit self' symbol t.
Proof.
  intros Hst (position & pnl_pct & order_result & Hpos & Hpnl & Hthr & Hreply).
  exists position, pnl_pct, order_result. by rewrite Hst.
Qed.

(** A pass in profit over a position that has no record in
    [active_trades]: the order is sent, a trade is returned and no record
    appears. *)
Lemma process_partial_close_untracked (self : PositionManager) (symbol : string)
    (t : Tick) :
  partial_close_enabled (strategy self) = true ->
  active_trades self !! symbol = None ->
  pass_in_profit self symbol t ->
  exists self' position order_result record,
    process_partial_close (refresh_positions self (tick_positions t)) symbol
      (tick_price t) (tick_reply t) (tick_today t)
    = (self',
       [Market symbol
          (if bool_decide (pos_side position = "LONG") then "SELL" else "BUY")
          (Qabs (pos_amount position)
           * (partial_close_percentage (strategy self) / 100)) true],
       Some record) /\
    Risk.get_position_for_symbol
      (risk_manager (refresh_positions self (tick_positions t))) symbol
    = Some position /\
    tick_reply t = Ok (Some order_result) /\
    Risk.tr_type record = "TP" /\
    Risk.tr_quantity record
    = default (Qabs (pos_amount position)
               * (partial_close_percentage (strategy self) / 100))
        (executedQty order_result) /\
    strategy self' = strategy self /\
    active_trades self' !! symbol = None.
Proof.
  intros Hen Hnone (position & pnl_pct & order_result & Hpos & Hpnl & Hthr & Hreply).
  unfold process_partial_close, process_partial_close_body.
  change (strategy (refresh_positions self (tick_positions t)))
    with (strategy self).
  change (active_trades (refresh_positions self (tick_positions t)))
    with (active_trades self).
  rewrite Hen, Hpos, Hpnl, Hreply, Hnone. simpl negb. cbv iota.
  apply Qltb_lt in Hthr. rewrite Hthr.
  eexists _, position, order_result, _. split; [reflexivity|].
  split; [done|]. split; [done|]. split; [done|]. split; [done|]. by split.
Qed.

(** C9.  The [partially_closed] flag is read from and written to the
    record of the symbol in [active_trades] only.  For a position that has
    no such record (one the bot did not open, or opened before a
    restart), with partial closing enabled: at every monitor pass at which
    the position is in profit above the threshold and the venue accepts
    the order, [process_partial_close] sends another reduce-only market
    order for [partial_close_percentage] percent of what is left of the
    position and returns a trade.  So [n] such passes make [n] partial
    closes, not at most one. *)
Theorem partial_close_repeats (self : PositionManager) (symbol : string)
    (ticks : list Tick) :
  partial_close_enabled (strategy self) = true ->
  active_trades self !! symbol = None ->
  Forall (pass_in_profit self symbol) ticks ->
  let closes := (partial_close_run self symbol ticks).2 in
  length closes = length ticks /\
  Forall2 (fun t record =>
             exists position order_result,
               Risk.get_position_for_symbol
                 (risk_manager (refresh_positions self (tick_positions t))) symbol
               = Some position /\
               tick_reply t = Ok (Some order_result) /\
               Risk.tr_type record = "TP" /\
               Risk.tr_quantity record
               = default (Qabs (pos_amount position)
                          * (partial_close_percentage (strategy self) / 100))
                   (executedQty order_result))
          ticks closes /\
  active_trades (partial_close_run self symbol ticks).1 !! symbol = None.
Proof.
  revert self. induction ticks as [|t ticks IH]; intros self Hen Hnone Hticks.
  { simpl. by split; [|split; [constructor|]]. }
  apply Forall_cons in Hticks as [Ht Hticks]. simpl.
  destruct (process_partial_close_untracked self symbol t Hen Hnone Ht)
    as (self' & position & order_result & record
        & Hrun & Hpos & Hreply & Htype & Hqty & Hst & Hnone').
  rewrite Hrun.
  assert (Hen' : partial_close_enabled (strategy self') = true) by by rewrite Hst.
  assert (Hticks' : Forall (pass_in_profit self' symbol) ticks).
  { eapply Forall_impl; [exact Hticks|]. intros t'. by apply pass_in_profit_ext. }
  specialize (IH self' Hen' Hnone' Hticks').
  destruct (partial_close_run self' symbol ticks) as [final closes].
  simpl in *. destruct IH as (Hlen & Hall & Hfinal).
  split; [by rewrite Hlen|]. split; [|done].
  constructor; [by exists position, order_result|].
  eapply Forall2_impl; [exact Hall|].
  intros t' record' (position' & order_result' & ? & ? & ? & ?).
  exists position', order_result'. by rewrite <- Hst.
Qed.

(** Two passes over the position opened by hand: 10 coins, then the 5
    that are left; each pass sends an order and returns a trade. *)
Lemma partial_close_repeats_witness :
  length (partial_close_run Scenario.trader_untracked "DOGEUSDT"
            [Scenario.tick_in_profit; Scenario.tick_after_close]).2 = 2%nat.
Proof.
  assert (H1 : pass_in_profit Scenario.trader_untracked "DOGEUSDT"
                 Scenario.tick_in_profit).
  { exists Scenario.long_position, (((52 # 100) - (1 # 2)) / (1 # 2) * 100),
      {| orderId := Some 2%Z; avgPrice := None; executedQty := None |}.
    split; [reflexivity|]. split; [reflexivity|]. split; reflexivity. }
  assert (H2 : pass_in_profit Scenario.trader_untracked "DOGEUSDT"
                 Scenario.tick_after_close).
  { exists Scenario.long_position_halved,
      (((52 # 100) - (1 # 2)) / (1 # 2) * 100),
      {| orderId := Some 2%Z; avgPrice := None; executedQty := None |}.
    split; [reflexivity|]. split; [reflexivity|]. split; reflexivity. }
  exact (proj1 (partial_close_repeats Scenario.trader_untracked "DOGEUSDT"
                  [Scenario.tick_in_profit; Scenario.tick_after_close]
                  eq_refl eq_refl
                  (Forall_cons_2 _ _ _ H1 (Forall_cons_2 _ _ _ H2 (Forall_nil_2 _))))).
Defined.

End partial_close.

(** ** The gateway methods built on [api_retry] *)
Section method_properties.
Import Gateway Methods.
Local Open Scope Z_scope.
Context {V : Type}.
Implicit Types (func : Z -> result V) (self : BinanceClient).

Lemma exception_handler_twice {A} (r : result A) :
  exception_handler (exception_handler (timer_decorator r))
  = match r with Ok a => Ok a | Raise _ => Raise CustomError end.
Proof. destruct r as [a|e]; [done|]. by destruct e. Qed.

(** X1.  A gateway method that forwards to [api_retry] under its own
    [@exception_handler] makes the calls and sleeps of [api_retry] and
    returns what the call returned; whatever error the retry loop ends
    with, the caller of the method receives a plain [CustomError], never
    [NetworkError], [InputError], [AccountError] or [APIError]. *)
Theorem gateway_method_raises_plain_error func self (now finish : Q) :
  create_market_order func self now finish
  = (let '(self', events, r) := api_retry_body func self now finish in
     (self', events,
      match r with Ok v => Ok v | Raise _ => Raise CustomError end)).
Proof.
  unfold create_market_order, api_retry.
  destruct (api_retry_body func self now finish) as [[self' events] r].
  by rewrite exception_handler_twice.
Qed.

Lemma set_margin_type_forwards func (no_need : option Z -> bool) (already : V)
    self (now finish : Q) :
  set_margin_type func no_need already self now finish
  = create_market_order func self now finish.
Proof.
  unfold set_margin_type, create_market_order, api_retry.
  destruct (api_retry_body func self now finish) as [[self' events] r].
  destruct r as [v|e]; [done|]. by destruct e.
Qed.

(** X2.  The [except BinanceAPIException] clause of [set_margin_type] is
    never entered, as [api_retry] lets no such exception out: the method
    behaves like a plain forwarding method whatever the message test
    answers.  So when the venue answers every attempt with an API error
    that has no branch of its own in the retry loop (the "no need to
    change margin type" error, code -4046, is one), the method makes
    [max_retries] attempts, sleeps [2^attempt] seconds between them and
    raises [CustomError], even if the message test would accept the
    error. *)
Theorem set_margin_type_never_tolerates (no_need : option Z -> bool)
    (already : V) self (now finish : Q) (code : option Z) :
  1 <= max_retries self ->
  code ∉ special_codes ->
  (forall func,
     set_margin_type func no_need already self now finish
     = create_market_order func self now finish) /\
  set_margin_type (always_raises (BinanceAPIException code)) no_need already
    self now finish
  = (self,
     rate_gate self now
       ++ (seqZ 1 (max_retries self - 1)
             ≫= (fun a => [Call a; Sleep (inject_Z (2 ^ a))]))
       ++ [Call (max_retries self)],
     Raise CustomError).
Proof.
  intros Hmax Hcode. split.
  { intros func. apply set_margin_type_forwards. }
  rewrite set_margin_type_forwards.
  unfold create_market_order, api_retry, api_retry_body.
  set (n := max_retries self).
  replace (seqZ 1 n) with (seqZ 1 (Z.of_nat (S (Z.to_nat (n - 1)))))
    by (f_equal; lia).
  rewrite (retry_loop_backoff _ _ (BinanceAPIException code)
             (Z.to_nat (n - 1)) 1) by (done || lia).
  simpl. by rewrite Z2Nat.id by lia.
Qed.

Lemma retry_loop_success_after func (max : Z) (m : nat) (a0 : Z) (v : V)
    (rest : list Z) :
  (forall a, a0 <= a < a0 + Z.of_nat m ->
     exists e, func a = Raise e /\ backed_off e) ->
  func (a0 + Z.of_nat m) = Ok v ->
  a0 + Z.of_nat m <= max ->
  retry_loop func max (seqZ a0 (Z.of_nat m) ++ (a0 + Z.of_nat m) :: rest)
  = ((seqZ a0 (Z.of_nat m) ≫= (fun a => [Call a; Sleep (inject_Z (2 ^ a))]))
       ++ [Call (a0 + Z.of_nat m)],
     Ok (Some v)).
Proof.
  revert a0. induction m as [|m IH]; intros a0 Hfail Hok Hmax.
  - simpl. rewrite Z.add_0_r in *. by rewrite Hok.
  - rewrite seqZ_cons by lia.
    replace (Z.pred (Z.of_nat (S m))) with (Z.of_nat m) by lia.
    destruct (Hfail a0) as (e & He & Hb); [lia|].
    rewrite <- app_comm_cons.
    rewrite (retry_loop_step_backoff _ _ _ _ e) by (done || lia).
    replace (a0 + Z.of_nat (S m)) with (Z.succ a0 + Z.of_nat m) in * by lia.
    rewrite IH; [done| |done|done].
    intros a Ha. apply Hfail. lia.
Qed.

Lemma total_backoff (m : nat) (a0 : Z) :
  0 <= a0 ->
  (total (sleeps (seqZ a0 (Z.of_nat m)
                    ≫= (fun a => [Call a; Sleep (inject_Z (2 ^ a))])))
   == inject_Z (2 ^ (a0 + Z.of_nat m) - 2 ^ a0))%Q.
Proof.
  revert a0. induction m as [|m IH]; intros a0 Ha0.
  - simpl. rewrite Z.add_0_r, Z.sub_diag. reflexivity.
  - rewrite seqZ_cons by lia.
    replace (Z.pred (Z.of_nat (S m))) with (Z.of_nat m) by lia.
    specialize (IH (Z.succ a0) ltac:(lia)).
    replace (Z.succ a0 + Z.of_nat m) with (a0 + Z.of_nat (S m)) in IH by lia.
    change (inject_Z (2 ^ a0)
            + total (sleeps (seqZ (Z.succ a0) (Z.of_nat m)
                      ≫= (fun a => [Call a; Sleep (inject_Z (2 ^ a))])))
            == inject_Z (2 ^ (a0 + Z.of_nat (S m)) - 2 ^ a0))%Q.
    rewrite IH, <- inject_Z_plus.
    replace (2 ^ Z.succ a0) with (2 * 2 ^ a0) by (rewrite Z.pow_succ_r; lia).
    apply inject_Z_injective. lia.
Qed.

Lemma calls_backoff (l : list Z) :
  calls (l ≫= (fun a => [Call a; Sleep (inject_Z (2 ^ a))])) = l.
Proof.
  induction l as [|a l IH]; [done|].
  change (a :: calls (l ≫= (fun a => [Call a; Sleep (inject_Z (2 ^ a))]))
          = a :: l).
  by rewrite IH.
Qed.

Lemma seqZ_split (k n : Z) :
  1 <= k <= n -> seqZ 1 n = seqZ 1 (k - 1) ++ k :: seqZ (k + 1) (n - k).
Proof.
  intros Hk. replace n with ((k - 1) + (n - k + 1)) at 1 by lia.
  rewrite seqZ_app by lia. f_equal.
  rewrite seqZ_cons by lia. f_equal; [lia|f_equal; lia].
Qed.

(** X3.  When the attempts before the [k]-th fail with errors the loop
    retries with exponential back-off and the [k]-th (at most
    [max_retries]) returns [v], [api_retry] returns [v] after exactly [k]
    calls, has slept [2^attempt] seconds after each failed one, [2^k - 2]
    seconds in all, and has set [last_api_call_time] to the time of the
    success. *)
Theorem retry_succeeds_after_backoff func self (now finish : Q) (k : Z) (v : V) :
  1 <= k <= max_retries self ->
  (forall a, 1 <= a < k -> exists e, func a = Raise e /\ backed_off e) ->
  func k = Ok v ->
  let loop := seqZ 1 (k - 1) ≫= (fun a => [Call a; Sleep (inject_Z (2 ^ a))]) in
  api_retry func self now finish
  = ({| max_retries := max_retries self; last_api_call_time := finish;
        min_time_between_calls := min_time_between_calls self |},
     rate_gate self now ++ loop ++ [Call k],
     Ok (Some v)) /\
  calls (loop ++ [Call k]) = seqZ 1 k /\
  (total (sleeps (loop ++ [Call k])) == inject_Z (2 ^ k - 2))%Q.
Proof.
  intros Hk Hfail Hok loop. split; [|split].
  - unfold api_retry, api_retry_body.
    rewrite (seqZ_split k (max_retries self)) by done.
    pose proof (retry_loop_success_after func (max_retries self)
                  (Z.to_nat (k - 1)) 1 v
                  (seqZ (k + 1) (max_retries self - k))) as Hloop.
    rewrite Z2Nat.id in Hloop by lia.
    replace (1 + (k - 1)) with k in Hloop by lia.
    rewrite Hloop; [done| |done|lia].
    intros a Ha. apply Hfail. lia.
  - subst loop. rewrite calls_app, calls_backoff.
    rewrite (seqZ_split k k) by lia.
    by rewrite Z.sub_diag.
  - assert (Hs : sleeps (loop ++ [Call k]) = sleeps loop).
    { unfold sleeps. rewrite omap_app. simpl. by rewrite app_nil_r. }
    rewrite Hs. subst loop.
    pose proof (total_backoff (Z.to_nat (k - 1)) 1) as Ht.
    rewrite Z2Nat.id in Ht by lia. rewrite Ht by lia.
    replace (1 + (k - 1)) with k by lia. reflexivity.
Qed.

End method_properties.

Lemma set_margin_type_never_tolerates_witness :
  Methods.set_margin_type
    (Gateway.always_raises (BinanceAPIException (Some (-4046)%Z)))
    (fun _ => true) () Gateway.new_client 1 2
  = (Gateway.new_client,
     [Gateway.Call 1; Gateway.Sleep 2; Gateway.Call 2; Gateway.Sleep 4;
      Gateway.Call 3; Gateway.Sleep 8; Gateway.Call 4; Gateway.Sleep 16;
      Gateway.Call 5],
     Raise CustomError).
Proof.
  apply (set_margin_type_never_tolerates (fun _ => true) ()
           Gateway.new_client 1 2 (Some (-4046)%Z)).
  - vm_compute. discriminate.
  - apply (bool_decide_eq_false_1 (Some (-4046)%Z ∈ Gateway.special_codes)).
    reflexivity.
Defined.

Lemma retry_succeeds_after_backoff_witness :
  Gateway.api_retry
    (fun a => if (a <? 3)%Z then Raise ClientError else Ok a)
    Gateway.new_client 1 2
  = ({| Gateway.max_retries := 5; Gateway.last_api_call_time := 2;
        Gateway.min_time_between_calls := 1 # 20 |},
     [Gateway.Call 1; Gateway.Sleep 2; Gateway.Call 2; Gateway.Sleep 4;
      Gateway.Call 3],
     Ok (Some 3%Z)).
Proof.
  apply (retry_succeeds_after_backoff
           (fun a => if (a <? 3)%Z then Raise ClientError else Ok a)
           Gateway.new_client 1 2 3 3%Z).
  - vm_compute. split; discriminate.
  - intros a Ha. exists ClientError. split; [|done].
    destruct (Z.ltb_spec a 3); [done|lia].
  - reflexivity.
Defined.

(** ** The target pool: look-ups, ranking and penalties *)
Section pool_lookups.
Import Pool Market.
Local Open Scope Z_scope.

Lemma dict_get_set_eq {V} (d : list (string * V)) (k : string) (v : V) :
  Dict.get k (Dict.set k v d) = Some v.
Proof.
  induction d as [|[k' v'] d IH]; simpl.
  - by rewrite bool_decide_eq_true_2.
  - case_bool_decide as Hk; simpl.
    + by rewrite bool_decide_eq_true_2.
    + by rewrite bool_decide_eq_false_2.
Qed.

Lemma dict_get_set_ne {V} (d : list (string * V)) (k k' : string) (v : V) :
  k' ≠ k -> Dict.get k' (Dict.set k v d) = Dict.get k' d.
Proof.
  intros Hne. induction d as [|[k0 v0] d IH]; simpl.
  - by rewrite bool_decide_eq_false_2.
  - case_bool_decide as Hk; simpl.
    + subst. by rewrite !bool_decide_eq_false_2 by done.
    + case_bool_decide; [done|apply IH].
Qed.

Lemma dict_get_elem {V} (d : list (string * V)) (k : string) (v : V) :
  NoDup (Dict.keys d) -> (k, v) ∈ d -> Dict.get k d = Some v.
Proof.
  intros Hnd Hin. destruct (Dict.get k d) as [v'|] eqn:Hget.
  - apply dict_get_Some in Hget.
    by injection (dict_item_unique d (k, v') (k, v) Hnd Hget Hin eq_refl) as ->.
  - apply dict_get_None in Hget. exfalso. apply Hget.
    unfold Dict.keys. by apply (list_elem_of_fmap_2 fst _ (k, v)).
Qed.

Lemma upsert_entry_get targets (symbol : string) (data : TargetData) (now : Q) :
  Dict.get symbol (upsert_entry targets symbol data now)
  = Some (<["last_update" := now]> (data ∪ default ∅ (Dict.get symbol targets))).
Proof.
  unfold upsert_entry. destruct (Dict.get symbol targets) as [old|]; simpl;
    rewrite dict_get_set_eq; [done|]. by rewrite (right_id ∅ (∪)).
Qed.

Lemma upsert_entry_get_ne targets (symbol other : string) (data : TargetData)
    (now : Q) :
  other ≠ symbol ->
  Dict.get other (upsert_entry targets symbol data now) = Dict.get other targets.
Proof.
  intros Hne. unfold upsert_entry.
  destruct (Dict.get symbol targets); by apply dict_get_set_ne.
Qed.

(** X4.  [add_or_update_target] followed by [get_target_data]: on a pool
    with distinct keys and a capacity that is not negative the call
    returns; afterwards a symbol that is still in the pool carries, for the
    updated symbol, the new data laid over the old ones and stamped with
    the clock, and for any other symbol the data it had.  When the pool has
    room (the symbol was there, or the pool was below its capacity) nothing
    is removed: the updated symbol is found and every other look-up answers
    as before. *)
Theorem lookup_after_update (self : DynamicTargetPool) (symbol : string)
    (data : TargetData) (now : Q) :
  well_formed self ->
  0 <= max_pool_size self ->
  let stored :=
    <["last_update" := now]> (data ∪ default ∅ (get_target_data self symbol)) in
  exists self',
    add_or_update_target self symbol data now = Ok self' /\
    (forall d, get_target_data self' symbol = Some d -> d = stored) /\
    (forall other d, other ≠ symbol ->
       get_target_data self' other = Some d ->
       get_target_data self other = Some d) /\
    (match get_target_data self symbol with
     | Some _ => size self
     | None => size self + 1
     end <= max_pool_size self ->
     get_target_data self' symbol = Some stored /\
     forall other, other ≠ symbol ->
       get_target_data self' other = get_target_data self other).
Proof.
  intros Hwf HC stored.
  destruct (add_or_update_target_spec self symbol data now HC Hwf)
    as (self' & Hcall & Hwf' & _ & _ & Hsub & _).
  exists self'. split; [done|].
  assert (Hnd : NoDup (Dict.keys (upsert_entry (targets self) symbol data now)))
    by by apply upsert_entry_NoDup.
  split; [|split].
  - intros d Hd. apply dict_get_Some, Hsub, (dict_get_elem _ _ _ Hnd) in Hd.
    rewrite upsert_entry_get in Hd. by injection Hd as <-.
  - intros other d Hne Hd.
    apply dict_get_Some, Hsub, (dict_get_elem _ _ _ Hnd) in Hd.
    by rewrite upsert_entry_get_ne in Hd.
  - intros Hroom.
    assert (Hkeep : self'
      = with_targets self (upsert_entry (targets self) symbol data now)).
    { unfold add_or_update_target, limit_pool in Hcall.
      assert (Hlen : Z.of_nat (length (upsert_entry (targets self) symbol data now))
                     <= max_pool_size self).
      { unfold upsert_entry, get_target_data, size in *.
        destruct (Dict.get symbol (targets self)) as [old|] eqn:Hget;
          rewrite dict_set_length; case_decide as Hk; try lia.
        exfalso. apply Hk. unfold Dict.keys.
        apply (list_elem_of_fmap_2 fst _ (symbol, old)). by apply dict_get_Some. }
      apply Z.ltb_ge in Hlen. rewrite Hlen in Hcall.
      rewrite bind_Ok in Hcall. by injection Hcall as <-. }
    subst self'. unfold get_target_data. simpl. split.
    + apply upsert_entry_get.
    + intros other Hne. by apply upsert_entry_get_ne.
Qed.

Lemma StronglySorted_lookup {A} (R : relation A) (l : list A) (i j : nat) (x y : A) :
  StronglySorted R l -> (i < j)%nat -> l !! i = Some x -> l !! j = Some y -> R x y.
Proof.
  intros Hs. revert i j. induction Hs as [|z l Hs IH Hall]; intros i j Hij Hi Hj.
  - done.
  - destruct j as [|j]; [lia|]. destruct i as [|i]; simpl in *.
    + injection Hi as <-. rewrite Forall_forall in Hall.
      apply Hall. by eapply list_elem_of_lookup_2.
    + apply (IH i j); [lia|done|done].
Qed.

(** X5.  The answer of [get_top_targets] for a [count] that is not
    negative, on a pool with distinct keys: it names [count] symbols, or
    all the available ones when they are fewer; no symbol twice; each is a
    target, and not a cooling one when these are excluded; and the scores
    do not increase along the answer. *)
Theorem top_targets_ranked (self : DynamicTargetPool) (count : Z)
    (exclude_cooling : bool) (now : Q) :
  well_formed self ->
  0 <= count ->
  let top := get_top_targets self count exclude_cooling now in
  Z.of_nat (length top)
  = Z.min count (Z.of_nat (length (available_targets self exclude_cooling now))) /\
  NoDup top /\
  (forall symbol, symbol ∈ top ->
     is_Some (get_target_data self symbol) /\
     (exclude_cooling = true -> is_symbol_cooling_down self symbol now = false)) /\
  (forall (i j : nat) s1 s2 d1 d2, (i < j)%nat ->
     top !! i = Some s1 -> top !! j = Some s2 ->
     get_target_data self s1 = Some d1 -> get_target_data self s2 = Some d2 ->
     (score_of (s2, d2) <= score_of (s1, d1))%Q).
Proof.
  intros Hwf Hcount top. subst top. unfold get_top_targets, py_slice_to.
  assert ((0 <=? count) = true) as -> by by apply Z.leb_le.
  set (avail := available_targets self exclude_cooling now).
  set (s := sorted (fun x y => Qle_bool (score_of y) (score_of x)) avail).
  assert (Hp : s ≡ₚ avail) by apply sorted_Permutation.
  assert (Havail : avail `sublist_of` targets self) by apply sublist_filter.
  assert (Hin : forall x, x ∈ take (Z.to_nat count) s -> x ∈ targets self).
  { intros x Hx. apply (subseteq_take (Z.to_nat count) s) in Hx.
    rewrite Hp in Hx. by apply (sublist_subseteq _ _ Havail). }
  split; [|split; [|split]].
  - rewrite length_fmap, length_take, <- Hp. lia.
  - eapply sublist_NoDup; [|apply fmap_sublist, sublist_take].
    rewrite Hp. eapply sublist_NoDup; [exact Hwf|by apply fmap_sublist].
  - intros symbol (x & -> & Hx)%list_elem_of_fmap. split.
    + unfold get_target_data. apply dict_get_is_Some.
      unfold Dict.keys. apply list_elem_of_fmap_2. by apply Hin.
    + intros ->. apply (subseteq_take (Z.to_nat count) s) in Hx.
      rewrite Hp in Hx. by apply elem_of_available in Hx as [? _].
  - intros i j s1 s2 d1 d2 Hij H1 H2 Hd1 Hd2.
    rewrite list_lookup_fmap in H1, H2.
    destruct (take (Z.to_nat count) s !! i) as [x1|] eqn:Hx1; [|done].
    destruct (take (Z.to_nat count) s !! j) as [x2|] eqn:Hx2; [|done].
    simpl in H1, H2. injection H1 as <-. injection H2 as <-.
    assert (Hsame : forall x d, x ∈ take (Z.to_nat count) s ->
              get_target_data self x.1 = Some d -> x = (x.1, d)).
    { intros x d Hx Hd.
      apply (dict_item_unique (targets self));
        [done|by apply Hin|by apply dict_get_Some|done]. }
    rewrite <- (Hsame x1 d1), <- (Hsame x2 d2);
      [|by eapply list_elem_of_lookup_2|done|by eapply list_elem_of_lookup_2|done].
    pose proof (descending_StronglySorted avail) as Hsorted. fold s in Hsorted.
    apply lookup_take_Some in Hx1 as [Hx1 _].
    apply lookup_take_Some in Hx2 as [Hx2 _].
    apply (StronglySorted_lookup _ _ i j x1 x2 Hsorted Hij Hx1 Hx2).
Qed.

Lemma record_attempt_failure_booked (self : DynamicTargetPool)
    (symbol reason : string) (now : Q) :
  attempt_failures (record_attempt_failure self symbol reason now).1
  = <[symbol :=
        match attempt_failures self !! symbol with
        | None => {| f_count := 1; last_failure := now; reasons := [reason] |}
        | Some f => {| f_count := f_count f + 1; last_failure := now;
                       reasons := reasons f ++ [reason] |}
        end]> (attempt_failures self).
Proof.
  unfold record_attempt_failure. simpl.
  destruct (Dict.get symbol (targets self)) as [data|]; [|done].
  unfold scale_score. by destruct (data !! "score").
Qed.

Lemma record_success_failures (self : DynamicTargetPool) (symbol : string)
    (data : option TargetData) (now : Q) :
  attempt_failures (record_success self symbol data now).1 = attempt_failures self.
Proof.
  unfold record_success. simpl.
  destruct (Dict.get symbol (targets self)) as [d|]; [|done].
  unfold scale_score. by destruct (d !! "score").
Qed.

(** X6.  A failure recorded at time [t] puts the symbol into its cooldown
    at once, also when the score update of the same call raises: for at
    least 300 seconds [get_top_targets] with [exclude_cooling] does not
    return the symbol, however many targets are asked for, and a success
    recorded for it in between does not end the cooldown. *)
Theorem failure_starts_cooldown (self : DynamicTargetPool)
    (symbol reason : string) (t now : Q) (count : Z) :
  failures_counted self ->
  (now - t < 300)%Q ->
  let failed := (record_attempt_failure self symbol reason t).1 in
  failures_counted failed /\
  is_symbol_cooling_down failed symbol now = true /\
  (symbol ∉ get_top_targets failed count true now) /\
  (forall data t', symbol ∉
     get_top_targets (record_success failed symbol data t').1 count true now).
Proof.
  intros Hcounted Hnow failed.
  assert (Hbooked := record_attempt_failure_booked self symbol reason t).
  fold failed in Hbooked.
  assert (Hcounted' : failures_counted failed).
  { intros s f. rewrite Hbooked.
    destruct (decide (s = symbol)) as [->|Hne].
    - rewrite lookup_insert_eq. intros [= <-].
      destruct (attempt_failures self !! symbol) as [f0|] eqn:Hf0; simpl; [|lia].
      specialize (Hcounted _ _ Hf0). lia.
    - rewrite lookup_insert_ne by done. apply Hcounted. }
  assert (Hcool : is_symbol_cooling_down failed symbol now = true).
  { unfold is_symbol_cooling_down. rewrite Hbooked, lookup_insert_eq.
    apply Qltb_lt.
    set (f := match attempt_failures self !! symbol with
              | Some f => _ | None => _ end).
    assert (Hf : last_failure f = t /\ 1 <= f_count f).
    { subst f. destruct (attempt_failures self !! symbol) as [f0|] eqn:Hf0;
        simpl; [|split; [done|lia]].
      specialize (Hcounted _ _ Hf0). split; [done|lia]. }
    destruct Hf as [-> Hk].
    eapply Qlt_le_trans; [exact Hnow|].
    change (300%Q) with (inject_Z 300). rewrite <- Zle_Qle. lia. }
  split; [done|]. split; [done|]. split.
  - by apply cooling_symbol_excluded.
  - intros data t'. apply cooling_symbol_excluded.
    unfold is_symbol_cooling_down in *.
    by rewrite record_success_failures.
Qed.

End pool_lookups.

Lemma lookup_after_update_witness :
  exists self',
    Pool.add_or_update_target Scenario.pool_top_score "ETHUSDT"
      {[ "score" := 40%Q ]} 7
    = Ok self' /\
    Market.get_target_data self' "ETHUSDT"
    = Some (<["last_update" := 7%Q]> {[ "score" := 40%Q ]}) /\
    Market.get_target_data self' "BTCUSDT"
    = Market.get_target_data Scenario.pool_top_score "BTCUSDT".
Proof.
  assert (Hwf : Pool.well_formed Scenario.pool_top_score).
  { unfold Pool.well_formed. simpl. apply NoDup_singleton. }
  assert (Hcap : (0 <= Pool.max_pool_size Scenario.pool_top_score)%Z).
  { vm_compute. discriminate. }
  destruct (lookup_after_update Scenario.pool_top_score "ETHUSDT"
              {[ "score" := 40%Q ]} 7 Hwf Hcap) as (self' & Hcall & _ & _ & Hroom).
  exists self'. split; [exact Hcall|].
  lapply Hroom; [intros [Hsym Hother]|vm_compute; discriminate].
  split; [|by apply Hother].
  rewrite Hsym. reflexivity.
Defined.

Lemma top_targets_ranked_witness :
  NoDup (Pool.get_top_targets Scenario.pool_top_score 3 true 5).
Proof.
  assert (Hwf : Pool.well_formed Scenario.pool_top_score).
  { unfold Pool.well_formed. simpl. apply NoDup_singleton. }
  assert (Hcount : (0 <= 3)%Z) by (vm_compute; discriminate).
  exact (proj1 (proj2
    (top_targets_ranked Scenario.pool_top_score 3 true 5 Hwf Hcount))).
Defined.

Lemma failure_starts_cooldown_witness :
  "BTCUSDT" ∉
    Pool.get_top_targets
      (Pool.record_attempt_failure Scenario.pool_top_score "BTCUSDT" "margin" 10).1
      3 true 200.
Proof.
  assert (Hcounted : Pool.failures_counted Scenario.pool_top_score).
  { intros s f Hf. simpl in Hf. by rewrite lookup_empty in Hf. }
  assert (Hnow : (200 - 10 < 300)%Q) by reflexivity.
  exact (proj1 (proj2 (proj2
    (failure_starts_cooldown Scenario.pool_top_score "BTCUSDT" "margin"
       10 200 3 Hcounted Hnow)))).
Defined.

(** ** The opportunity score *)
Section score_properties.
Import Pool Market.
Local Open Scope Q_scope.

(** Case analysis on the conditions of the goal. *)
Local Ltac case_ifs :=
  repeat match goal with |- context [if ?b then _ else _] => destruct b end.

Lemma py_max_l (a b : Q) : a <= py_max a b.
Proof.
  unfold py_max. destruct (Qltb a b) eqn:E; [|apply Qle_refl].
  apply Qltb_lt in E. lra.
Qed.

Lemma py_max_r (a b : Q) : b <= py_max a b.
Proof.
  unfold py_max. destruct (Qltb a b) eqn:E; [apply Qle_refl|].
  by apply Qltb_ge in E.
Qed.

Lemma py_max_lub (a b c : Q) : a <= c -> b <= c -> py_max a b <= c.
Proof. intros Ha Hb. unfold py_max. by destruct (Qltb a b). Qed.

Lemma opportunity_score_in_range (pool : DynamicTargetPool) (symbol : string)
    (price_data technical_data : TargetData) (market_state : result TargetData)
    (now : Q) :
  0 <= calculate_opportunity_score pool symbol price_data technical_data
         market_state now <= 100.
Proof.
  unfold calculate_opportunity_score.
  destruct market_state as [ms|e]; simpl; [|lra].
  split; [apply py_max_l|].
  apply py_max_lub; [lra|apply py_min_l].
Qed.

Lemma price_change_score_bounds (c : Q) : 5 <= price_change_score c <= 20.
Proof.
  unfold price_change_score.
  case_ifs; lra.
Qed.

Lemma volatility_bonus_bounds (v : Q) : 0 <= volatility_bonus v <= 10.
Proof.
  unfold volatility_bonus.
  case_ifs; lra.
Qed.

Lemma technical_score_bounds (technical_data : TargetData) :
  technical_data ≠ ∅ -> 2 <= technical_score technical_data <= 15.
Proof.
  intros Hne. unfold technical_score. rewrite bool_decide_eq_false_2 by done.
  set (rsi := if Qltb (get_or technical_data "rsi" 50) 30 then 15
              else if Qltb 70 (get_or technical_data "rsi" 50) then 10 else 5).
  assert (Hrsi : 5 <= rsi <= 15).
  { subst rsi.
    case_ifs; lra. }
  set (rsi' := if Qeq_bool (get_or technical_data "rsi_trend" 0) 0
               then rsi else rsi + 5).
  assert (Hrsi' : 5 <= rsi' <= 20).
  { subst rsi'. case_ifs; lra. }
  set (macd := if _ || _ then 5 else 0).
  assert (Hmacd : 0 <= macd <= 5).
  { subst macd. case_ifs; lra. }
  set (macd' := if Qltb _ (5 # 10000) then macd + 10 else macd).
  assert (Hmacd' : 0 <= macd' <= 15).
  { subst macd'. case_ifs; lra. }
  set (ema := if Qeq_bool (get_or technical_data "ema_trend" 0) 0 then 0 else 10).
  assert (Hema : 0 <= ema <= 10).
  { subst ema. case_ifs; lra. }
  set (adx := if Qltb 30 _ then 15 else _).
  assert (Hadx : 5 <= adx <= 15).
  { subst adx.
    case_ifs; lra. }
  set (bb := if Qltb _ (1 # 10) then 15 else _).
  assert (Hbb : 0 <= bb <= 15).
  { subst bb.
    case_ifs; lra. }
  clearbody rsi' macd' ema adx bb. split.
  - apply Qle_shift_div_l; lra.
  - apply Qle_shift_div_r; lra.
Qed.

Lemma raw_score_plain (price_data market_state : TargetData) :
  55 <= raw_score price_data ∅ market_state <= 80.
Proof.
  unfold raw_score.
  assert (technical_score ∅ = 0) as -> by done.
  change (Qltb 0 0) with false. cbv iota.
  pose proof (price_change_score_bounds (get_or price_data "price_change_24h" 0)).
  pose proof (volatility_bonus_bounds (get_or market_state "volatility_score" 1)).
  lra.
Qed.

Lemma raw_score_technical (price_data technical_data market_state : TargetData) :
  technical_data ≠ ∅ ->
  57 # 2 <= raw_score price_data technical_data market_state <= 95 # 2.
Proof.
  intros Hne. unfold raw_score.
  pose proof (technical_score_bounds technical_data Hne) as Ht.
  assert (Qltb 0 (technical_score technical_data) = true) as ->
    by (apply Qltb_lt; lra).
  pose proof (price_change_score_bounds (get_or price_data "price_change_24h" 0)).
  pose proof (volatility_bonus_bounds (get_or market_state "volatility_score" 1)).
  split.
  - apply Qle_shift_div_l; lra.
  - apply Qle_shift_div_r; lra.
Qed.

Lemma no_history_score (pool : DynamicTargetPool) (symbol : string)
    (price_data technical_data market_state : TargetData) (now lo hi : Q) :
  no_history pool symbol ->
  0 <= lo -> hi <= 100 ->
  lo <= raw_score price_data technical_data market_state <= hi ->
  lo <= calculate_opportunity_score pool symbol price_data technical_data
          (Ok market_state) now <= hi.
Proof.
  intros [Hf Hs] Hlo Hhi Hraw.
  unfold calculate_opportunity_score, cooling_factor, success_factor.
  rewrite Hf, Hs. simpl.
  set (raw := raw_score price_data technical_data market_state) in *.
  assert (Hmin : py_min 100 (raw * 1 * 1) == raw).
  { unfold py_min. destruct (Qltb _ 100) eqn:E; [lra|].
    apply Qltb_ge in E. lra. }
  unfold py_max. destruct (Qltb 0 _) eqn:E; [lra|].
  apply Qltb_ge in E. lra.
Qed.

(** X7.  [calculate_opportunity_score] answers a score within [0, 100]
    whatever it is given, also when the market state cannot be read.  So
    the step of [refresh_targets_data] that scores a symbol and stores it
    with [add_or_update_target] returns a pool, on a pool with distinct
    keys and a capacity that is not negative, and keeps every score of the
    pool within [0, 100] if they were. *)
Theorem refresh_keeps_scores_in_range (pool : DynamicTargetPool)
    (symbol : string) (last_price price_change_24h : Q)
    (technical_data : TargetData) (full_refresh : bool)
    (market_state : result TargetData) (current_time score_time update_time : Q) :
  well_formed pool ->
  (0 <= max_pool_size pool)%Z ->
  scores_in_range pool ->
  (forall price_data,
     0 <= calculate_opportunity_score pool symbol price_data technical_data
            market_state score_time <= 100) /\
  exists pool',
    store_target pool symbol last_price price_change_24h technical_data
      full_refresh market_state current_time score_time update_time = Ok pool' /\
    well_formed pool' /\
    scores_in_range pool'.
Proof.
  intros Hwf HC Hrange. split.
  { intros price_data. apply opportunity_score_in_range. }
  unfold store_target.
  set (data0 := <["last_check" := current_time]> _).
  set (score := calculate_opportunity_score pool symbol data0 _ market_state score_time).
  assert (Hscore : 0 <= score <= 100) by apply opportunity_score_in_range.
  set (data := <["opportunity_score" := score]> (<["score" := score]> data0)).
  destruct (add_or_update_target_spec pool symbol data update_time HC Hwf)
    as (pool' & Hcall & Hwf' & _ & _ & Hsub & _).
  exists pool'. split; [done|]. split; [done|].
  intros x Hx. apply Hsub in Hx. unfold upsert_entry in Hx.
  assert (Hnew : forall old : TargetData,
            score_of (symbol, <["last_update" := update_time]> (data ∪ old))
            = score).
  { intros old. unfold score_of. simpl.
    rewrite lookup_insert_ne by done.
    erewrite lookup_union_Some_l; [done|].
    subst data. rewrite lookup_insert_ne by done. by rewrite lookup_insert_eq. }
  destruct (Dict.get symbol (targets pool)) as [old|].
  - apply dict_set_elem in Hx as [Hx| ->]; [by apply Hrange|].
    by rewrite Hnew.
  - apply dict_set_elem in Hx as [Hx| ->]; [by apply Hrange|].
    rewrite <- (right_id ∅ (∪) data). by rewrite Hnew.
Qed.

(** X8.  For a symbol with no recorded failure or success, scored while
    the market state can be read: with technical indicators the score lies
    between 28.5 and 47.5, without them between 55 and 80.  A symbol
    scored in a full refresh thus ranks below every symbol scored in a
    quick one. *)
Theorem technical_data_lowers_score (pool : DynamicTargetPool)
    (symbol : string) (price_data technical_data market_state : TargetData)
    (now : Q) :
  no_history pool symbol ->
  technical_data ≠ ∅ ->
  let full := calculate_opportunity_score pool symbol price_data technical_data
                (Ok market_state) now in
  let quick := calculate_opportunity_score pool symbol price_data ∅
                 (Ok market_state) now in
  57 # 2 <= full <= 95 # 2 /\ 55 <= quick <= 80 /\ full < quick.
Proof.
  intros Hh Hne full quick.
  assert (Hfull : 57 # 2 <= full <= 95 # 2).
  { apply no_history_score; [done|lra|lra|by apply raw_score_technical]. }
  assert (Hquick : 55 <= quick <= 80).
  { apply no_history_score; [done|lra|lra|apply raw_score_plain]. }
  split; [done|]. split; [done|]. lra.
Qed.

End score_properties.

Lemma refresh_keeps_scores_in_range_witness :
  exists pool',
    Market.store_target Scenario.pool_top_score "ETHUSDT" 2000 12 ∅ false
      (Ok ∅) 100 101 102 = Ok pool' /\
    Pool.well_formed pool' /\
    Pool.scores_in_range pool'.
Proof.
  apply (refresh_keeps_scores_in_range Scenario.pool_top_score "ETHUSDT"
           2000 12 ∅ false (Ok ∅) 100 101 102).
  - unfold Pool.well_formed. simpl. apply NoDup_singleton.
  - vm_compute. discriminate.
  - intros x ->%list_elem_of_singleton. by vm_compute.
Defined.

Lemma technical_data_lowers_score_witness :
  (Market.calculate_opportunity_score Scenario.pool_top_score "ETHUSDT"
     {[ "price_change_24h" := 12 ]} {[ "rsi" := 25 ]} (Ok ∅) 100
   < Market.calculate_opportunity_score Scenario.pool_top_score "ETHUSDT"
       {[ "price_change_24h" := 12 ]} ∅ (Ok ∅) 100)%Q.
Proof.
  apply (technical_data_lowers_score Scenario.pool_top_score "ETHUSDT"
           {[ "price_change_24h" := 12%Q ]} {[ "rsi" := 25%Q ]} ∅ 100).
  - split; reflexivity.
  - apply (bool_decide_eq_false_1 ({[ "rsi" := 25%Q ]} = (∅ : Pool.TargetData))).
    reflexivity.
Defined.

(** ** The account refresh *)
Section account_properties.
Import Risk Account.
Local Open Scope Z_scope.

Lemma dict_keys_set {V} (d : list (string * V)) (k k' : string) (v : V) :
  k' ∈ Dict.keys (Dict.set k v d) <-> k' ∈ Dict.keys d \/ k' = k.
Proof.
  destruct (decide (k ∈ Dict.keys d)) as [Hin|Hin].
  - rewrite dict_keys_set_present by done. split; [by left|].
    intros [?| ->]; done.
  - rewrite dict_keys_set_absent by done.
    rewrite elem_of_app, list_elem_of_singleton. done.
Qed.

Lemma by_symbol_keys_acc (l : list Position) (d : list (string * Position))
    (k : string) :
  k ∈ Dict.keys (foldl (fun d pos => Dict.set (pos_symbol pos) pos d) d l)
  <-> k ∈ Dict.keys d \/ k ∈ pos_symbol <$> l.
Proof.
  revert d. induction l as [|pos l IH]; intros d; simpl.
  - split; [by left|]. intros [?|?%elem_of_nil]; done.
  - rewrite IH, dict_keys_set, elem_of_cons. tauto.
Qed.

Lemma by_symbol_get_None (l : list Position) (k : string) :
  Dict.get k (by_symbol l) = None <-> k ∉ pos_symbol <$> l.
Proof.
  rewrite dict_get_None. unfold by_symbol. rewrite by_symbol_keys_acc.
  unfold Dict.keys. simpl. rewrite elem_of_nil. tauto.
Qed.

Lemma by_symbol_key_acc (l : list Position) (d : list (string * Position)) :
  (forall kv, kv ∈ d -> kv.1 = pos_symbol kv.2) ->
  forall kv, kv ∈ foldl (fun d pos => Dict.set (pos_symbol pos) pos d) d l ->
    kv.1 = pos_symbol kv.2.
Proof.
  revert d. induction l as [|pos l IH]; intros d Hd; simpl; [done|].
  apply IH. intros kv [Hkv| ->]%dict_set_elem; [by apply Hd|done].
Qed.

Lemma by_symbol_key (l : list Position) (kv : string * Position) :
  kv ∈ by_symbol l -> kv.1 = pos_symbol kv.2.
Proof. apply by_symbol_key_acc. by intros ? ?%elem_of_nil. Qed.

Lemma record_trade_open_booked (self : RiskManager) (today symbol side : string)
    (quantity entry_price : Q) (exit_price pnl : option Q) (trade_type : string) :
  let self' := (record_trade self today symbol side quantity entry_price
                  exit_price pnl trade_type).1 in
  same_account self' self /\
  position_history self'
  = position_history self
    ++ [{| tr_symbol := symbol; tr_side := side; tr_quantity := quantity;
           tr_entry_price := entry_price; tr_exit_price := exit_price;
           tr_pnl := pnl; tr_type := trade_type |}] /\
  trades_on self' today = trades_on self today + 1.
Proof.
  simpl. split; [by repeat split|]. split; [done|].
  unfold trades_on. simpl. rewrite lookup_insert_eq.
  destruct (daily_pnl self !! today) as [d|]; simpl;
    destruct pnl as [p|]; simpl; try done;
    by destruct (_ || _).
Qed.

Lemma book_opened_held (others : list Position) (today : string)
    (self : RiskManager) (pos : Position) :
  pos_symbol pos ∈ pos_symbol <$> others ->
  book_opened (by_symbol others) today self (pos_symbol pos, pos) = self.
Proof.
  intros Hin. unfold book_opened.
  destruct (Dict.get _ _) eqn:Hget; [done|].
  by apply by_symbol_get_None in Hget.
Qed.

Lemma book_opened_new (others : list Position) (today : string)
    (self : RiskManager) (pos : Position) :
  pos_symbol pos ∉ pos_symbol <$> others ->
  book_opened (by_symbol others) today self (pos_symbol pos, pos)
  = (record_trade self today (pos_symbol pos)
       (if bool_decide (pos_side pos = "LONG") then "BUY" else "SELL")
       (Qabs (pos_amount pos)) (pos_entry_price pos) None None "MANUAL_OPEN").1.
Proof.
  intros Hin%by_symbol_get_None. unfold book_opened. by rewrite Hin.
Qed.

Lemma book_closed_held (others : list Position) (today : string)
    (self : RiskManager) (pos : Position) :
  pos_symbol pos ∈ pos_symbol <$> others ->
  book_closed (by_symbol others) today self (pos_symbol pos, pos) = self.
Proof.
  intros Hin. unfold book_closed.
  destruct (Dict.get _ _) eqn:Hget; [done|].
  by apply by_symbol_get_None in Hget.
Qed.

Lemma book_closed_gone (others : list Position) (today : string)
    (self : RiskManager) (pos : Position) :
  pos_symbol pos ∉ pos_symbol <$> others ->
  book_closed (by_symbol others) today self (pos_symbol pos, pos)
  = (record_trade self today (pos_symbol pos)
       (if bool_decide (pos_side pos = "LONG") then "SELL" else "BUY")
       (Qabs (pos_amount pos)) (pos_entry_price pos) (Some 0%Q) (Some 0%Q)
       "MANUAL_CLOSE").1.
Proof.
  intros Hin%by_symbol_get_None. unfold book_closed. by rewrite Hin.
Qed.

Lemma same_account_trans (a b c : RiskManager) :
  same_account a b -> same_account b c -> same_account a c.
Proof.
  intros (? & ? & ? & ? & ? & ? & ?) (? & ? & ? & ? & ? & ? & ?).
  repeat split; congruence.
Qed.

Lemma foldl_book_opened (others : list Position) (today : string)
    (items : list (string * Position)) (self : RiskManager) :
  (forall kv, kv ∈ items -> kv.1 = pos_symbol kv.2) ->
  let self' := foldl (book_opened (by_symbol others) today) self items in
  same_account self' self /\
  position_history self'
  = position_history self ++ (manual_open <$> missing_from others items.*2) /\
  trades_on self' today
  = trades_on self today + Z.of_nat (length (missing_from others items.*2)).
Proof.
  revert self. induction items as [|[symbol pos] items IH]; intros self Hkey.
  - simpl. split; [done|]. split; [by rewrite app_nil_r|lia].
  - assert (Hs : symbol = pos_symbol pos) by (apply (Hkey (symbol, pos)); left).
    subst symbol.
    assert (Hrest : forall kv, kv ∈ items -> kv.1 = pos_symbol kv.2).
    { intros kv Hkv. apply Hkey. by right. }
    cbn [foldl fmap list_fmap snd]. unfold missing_from. rewrite filter_cons.
    destruct (decide (pos_symbol pos ∉ pos_symbol <$> others)) as [Hnew|Hheld].
    + rewrite book_opened_new by done.
      set (booked := (record_trade self today _ _ _ _ _ _ _).1).
      destruct (IH booked Hrest) as (Hsame & Hhist & Hcount).
      destruct (record_trade_open_booked self today (pos_symbol pos)
                  (if bool_decide (pos_side pos = "LONG") then "BUY" else "SELL")
                  (Qabs (pos_amount pos)) (pos_entry_price pos) None None
                  "MANUAL_OPEN") as (Hsame0 & Hhist0 & Hcount0).
      fold booked in Hsame0, Hhist0, Hcount0.
      split; [|split].
      * by eapply same_account_trans.
      * unfold missing_from in Hhist. rewrite Hhist, Hhist0.
        rewrite <- app_assoc. done.
      * unfold missing_from in Hcount. rewrite Hcount, Hcount0.
        simpl length. lia.
    + rewrite book_opened_held; [by apply IH|].
      by destruct (decide (pos_symbol pos ∈ pos_symbol <$> others)).
Qed.

Lemma foldl_book_closed (others : list Position) (today : string)
    (items : list (string * Position)) (self : RiskManager) :
  (forall kv, kv ∈ items -> kv.1 = pos_symbol kv.2) ->
  let self' := foldl (book_closed (by_symbol others) today) self items in
  same_account self' self /\
  position_history self'
  = position_history self ++ (manual_close <$> missing_from others items.*2) /\
  trades_on self' today
  = trades_on self today + Z.of_nat (length (missing_from others items.*2)).
Proof.
  revert self. induction items as [|[symbol pos] items IH]; intros self Hkey.
  - simpl. split; [done|]. split; [by rewrite app_nil_r|lia].
  - assert (Hs : symbol = pos_symbol pos) by (apply (Hkey (symbol, pos)); left).
    subst symbol.
    assert (Hrest : forall kv, kv ∈ items -> kv.1 = pos_symbol kv.2).
    { intros kv Hkv. apply Hkey. by right. }
    cbn [foldl fmap list_fmap snd]. unfold missing_from. rewrite filter_cons.
    destruct (decide (pos_symbol pos ∉ pos_symbol <$> others)) as [Hnew|Hheld].
    + rewrite book_closed_gone by done.
      set (booked := (record_trade self today _ _ _ _ _ _ _).1).
      destruct (IH booked Hrest) as (Hsame & Hhist & Hcount).
      destruct (record_trade_open_booked self today (pos_symbol pos)
                  (if bool_decide (pos_side pos = "LONG") then "SELL" else "BUY")
                  (Qabs (pos_amount pos)) (pos_entry_price pos) (Some 0%Q)
                  (Some 0%Q) "MANUAL_CLOSE") as (Hsame0 & Hhist0 & Hcount0).
      fold booked in Hsame0, Hhist0, Hcount0.
      split; [|split].
      * by eapply same_account_trans.
      * unfold missing_from in Hhist. rewrite Hhist, Hhist0.
        rewrite <- app_assoc. done.
      * unfold missing_from in Hcount. rewrite Hcount, Hcount0.
        simpl length. lia.
    + rewrite book_closed_held; [by apply IH|].
      by destruct (decide (pos_symbol pos ∈ pos_symbol <$> others)).
Qed.

Lemma booked_spec (self : RiskManager) (b : gmap string Balance)
    (positions_reply : list Position) (today : string) :
  let previous := open_positions self in
  let appeared := missing_from previous (by_symbol positions_reply).*2 in
  let vanished := missing_from positions_reply (by_symbol previous).*2 in
  let self' := booked self b positions_reply today in
  same_account self' (with_account self b positions_reply) /\
  position_history self'
  = position_history self ++ (manual_open <$> appeared)
      ++ (manual_close <$> vanished) /\
  trades_on self' today
  = trades_on self today + Z.of_nat (length appeared)
    + Z.of_nat (length vanished).
Proof.
  intros previous appeared vanished self'.
  subst self' appeared vanished previous. unfold booked.
  set (start := with_account self b positions_reply).
  destruct (foldl_book_opened (open_positions self) today
              (by_symbol positions_reply) start)
    as (Hsame1 & Hhist1 & Hcount1); [apply by_symbol_key|].
  set (mid := foldl _ start _) in *.
  destruct (foldl_book_closed positions_reply today
              (by_symbol (open_positions self)) mid)
    as (Hsame2 & Hhist2 & Hcount2); [apply by_symbol_key|].
  split; [|split].
  - by eapply same_account_trans.
  - rewrite Hhist2, Hhist1. by rewrite <- app_assoc.
  - rewrite Hcount2, Hcount1. done.
Qed.

Lemma update_account_info_booked (self : RiskManager) (b : gmap string Balance)
    (positions_reply : list Position) (today : string) :
  let mid := booked self b positions_reply today in
  let total := get_total_balance mid in
  let peak := if Qltb (peak_balance mid) total then total else peak_balance mid in
  (update_account_info self (Ok b) positions_reply today).1
  = (if Qltb 0 peak
     then with_drawdown
            (if Qltb (peak_balance mid) total then with_peak_balance mid total
             else mid)
            (((peak - total) / peak) * 100)%Q
     else if Qltb (peak_balance mid) total then with_peak_balance mid total
          else mid).
Proof.
  unfold update_account_info, booked. simpl.
  set (mid := foldl _ (foldl _ _ _) _).
  by destruct (Qltb (peak_balance mid) (get_total_balance mid)).
Qed.

Lemma update_account_info_fields (self : RiskManager) (b : gmap string Balance)
    (positions_reply : list Position) (today : string) :
  let mid := booked self b positions_reply today in
  let t := get_total_balance mid in
  let p' := if Qltb (peak_balance mid) t then t else peak_balance mid in
  let self' := (update_account_info self (Ok b) positions_reply today).1 in
  balances self' = balances mid /\
  peak_balance self' = p' /\
  drawdown self'
  = (if Qltb 0 p' then ((p' - t) / p' * 100)%Q else drawdown mid).
Proof.
  intros mid t p' self'. subst self'. rewrite update_account_info_booked.
  fold mid t p'. subst p'.
  destruct (Qltb (peak_balance mid) t); by destruct (Qltb 0 _).
Qed.

(** X9.  A successful [update_account_info] takes over the balances and the
    positions the venue reports and books one ledger line for every
    symbol that differs between the two position lists: a [MANUAL_OPEN]
    line for each symbol that is reported and was not held, then a
    [MANUAL_CLOSE] line (with exit price and profit 0) for each symbol
    that was held and is not reported.  Each of these lines counts as a
    trade of the day. *)
Theorem refresh_books_manual_trades (self : RiskManager)
    (b : gmap string Balance) (positions_reply : list Position) (today : string) :
  let previous := open_positions self in
  let appeared := missing_from previous (by_symbol positions_reply).*2 in
  let vanished := missing_from positions_reply (by_symbol previous).*2 in
  let self' := (update_account_info self (Ok b) positions_reply today).1 in
  (update_account_info self (Ok b) positions_reply today).2 = true /\
  balances self' = b /\
  open_positions self' = positions_reply /\
  position_history self'
  = position_history self ++ (manual_open <$> appeared)
      ++ (manual_close <$> vanished) /\
  trades_on self' today
  = trades_on self today + Z.of_nat (length appeared)
    + Z.of_nat (length vanished).
Proof.
  intros previous appeared vanished self'. subst self'.
  split; [done|].
  rewrite update_account_info_booked.
  destruct (booked_spec self b positions_reply today)
    as ((_ & Hb & Hp & _) & Hhist & Hcount).
  set (mid := booked self b positions_reply today) in *.
  repeat case_match; simpl; by (split; [|split; [|split]]).
Qed.

Local Open Scope Q_scope.

(** X10.  After a successful [update_account_info] the peak balance is the
    larger of the old peak and the new total balance, so it never
    decreases and is never below the total.  While the peak is positive
    the drawdown is [(peak - total) / peak * 100]: it is not negative, it
    is 0 when the total reaches or passes the old peak, and it is at most
    100 as long as the total is not negative.  While the peak is not
    positive the drawdown keeps its old value.  When the balances cannot
    be read the manager is left as it was and the answer is [False]. *)
Theorem refresh_tracks_peak_and_drawdown (self : RiskManager)
    (b : gmap string Balance) (positions_reply : list Position) (today : string) :
  let self' := (update_account_info self (Ok b) positions_reply today).1 in
  let total := get_total_balance self' in
  ((peak_balance self <= peak_balance self')%Q /\
   (total <= peak_balance self')%Q /\
   (peak_balance self' == peak_balance self \/ peak_balance self' == total)%Q) /\
  ((0 < peak_balance self')%Q ->
   (drawdown self' == (peak_balance self' - total) / peak_balance self' * 100)%Q /\
   (0 <= drawdown self')%Q /\
   ((peak_balance self <= total)%Q -> (drawdown self' == 0)%Q) /\
   ((0 <= total)%Q -> (drawdown self' <= 100)%Q)) /\
  ((peak_balance self' <= 0)%Q -> drawdown self' = drawdown self) /\
  (forall e, update_account_info self (Raise e) positions_reply today
             = (self, false)).
Proof.
  intros self' total.
  destruct (update_account_info_fields self b positions_reply today)
    as (Hbal & Hpeak & Hdd).
  fold self' in Hbal, Hpeak, Hdd.
  destruct (booked_spec self b positions_reply today)
    as ((_ & _ & _ & Hd & _ & Hp & _) & _ & _).
  simpl in Hp, Hd.
  set (mid := booked self b positions_reply today) in *.
  assert (Htotal : total = get_total_balance mid).
  { subst total. unfold get_total_balance. by rewrite Hbal. }
  rewrite Hp in Hpeak, Hdd. rewrite Hd in Hdd.
  set (t := get_total_balance mid) in *.
  set (p := peak_balance self) in *.
  rewrite Hpeak, Hdd, Htotal. clear Hpeak Hdd Htotal Hbal Hp Hd.
  split; [|split; [|split; [|done]]].
  - destruct (Qltb p t) eqn:Hpt.
    + apply Qltb_lt in Hpt. split; [lra|]. split; [lra|]. right. reflexivity.
    + apply Qltb_ge in Hpt. split; [lra|]. split; [lra|]. left. reflexivity.
  - intros Hpos. rewrite (proj2 (Qltb_lt _ _) Hpos).
    split; [reflexivity|].
    set (p' := if Qltb p t then t else p) in *.
    assert (Hle : t <= p').
    { subst p'. destruct (Qltb p t) eqn:Hpt; [lra|by apply Qltb_ge in Hpt]. }
    assert (Hdiv : 0 <= (p' - t) / p') by (apply Qle_shift_div_l; lra).
    split; [lra|]. split.
    + intros Hge. assert (Heq : p' == t).
      { subst p'. destruct (Qltb p t) eqn:Hpt; [reflexivity|].
        apply Qltb_ge in Hpt. lra. }
      assert (Hz : (p' - t) / p' == 0); [|lra].
      field_simplify_eq; lra.
    + intros Ht. assert (Hone : (p' - t) / p' <= 1); [|lra].
      apply Qle_shift_div_r; lra.
  - intros Hnp.
    assert (Hf : Qltb 0 (if Qltb p t then t else p) = false)
      by by apply Qltb_ge.
    by rewrite Hf.
Qed.

End account_properties.

(** ** The protection mode *)
Section protection_properties.
Import Risk Protection.
Local Open Scope Q_scope.

Lemma enter_protection_mode_protected (self : Guard) (r : reason) (now : Q) :
  protection_mode (manager (enter_protection_mode self r now)) = true /\
  (protection_mode (manager self) = true ->
   enter_protection_mode self r now = self) /\
  (protection_mode (manager self) = false ->
   protection_start_time (enter_protection_mode self r now) = Some now).
Proof.
  unfold enter_protection_mode.
  destruct (protection_mode (manager self)) eqn:Hp; simpl; by rewrite ?Hp.
Qed.

(** X11.  One call of [detect_market_anomalies].  When it reports an
    anomaly the protection mode is on afterwards; if it was on already
    nothing changes, so the first reason and start time stay.  The
    protection mode ends only in a call that finds no anomaly (volatility
    at most 3, drawdown at most 5) and is made more than 7200 seconds
    after the recorded start or with a drawdown below 3; a protection mode
    with no recorded start never ends.  A call that finds no anomaly while
    the mode is off changes nothing. *)
Theorem protection_mode_transitions (self : Guard) (btc_volatility : option Q)
    (extreme_price_movement : option bool) (now : Q) :
  let after := (detect_market_anomalies self btc_volatility
                  extreme_price_movement now).1 in
  let found := (detect_market_anomalies self btc_volatility
                  extreme_price_movement now).2 in
  (found = true -> protection_mode (manager after) = true) /\
  (found = true -> protection_mode (manager self) = true -> after = self) /\
  (found = true -> protection_mode (manager self) = false ->
   protection_start_time after = Some now) /\
  (protection_mode (manager self) = true ->
   protection_mode (manager after) = false ->
   found = false /\
   default 1 btc_volatility <= 3 /\
   drawdown (manager self) <= 5 /\
   exists start, protection_start_time self = Some start /\
     (7200 < now - start \/ drawdown (manager self) < 3)) /\
  (protection_mode (manager self) = true ->
   protection_start_time self = None -> after = self) /\
  (found = false -> protection_mode (manager self) = false -> after = self).
Proof.
  intros after found. subst after found. unfold detect_market_anomalies.
  set (vol := default 1 btc_volatility).
  set (rate := _calculate_position_change_rate self now).
  unfold _is_rapid_drawdown.
  assert (Hentered : forall r,
    let after := enter_protection_mode self r now in
    (true = true -> protection_mode (manager after) = true) /\
    (true = true -> protection_mode (manager self) = true -> after = self) /\
    (true = true -> protection_mode (manager self) = false ->
     protection_start_time after = Some now) /\
    (protection_mode (manager self) = true ->
     protection_mode (manager after) = false ->
     true = false /\ vol <= 3 /\ drawdown (manager self) <= 5 /\
     exists start, protection_start_time self = Some start /\
       (7200 < now - start \/ drawdown (manager self) < 3)) /\
    (protection_mode (manager self) = true ->
     protection_start_time self = None -> after = self) /\
    (true = false -> protection_mode (manager self) = false -> after = self)).
  { intros r after. subst after.
    destruct (enter_protection_mode_protected self r now) as (H1 & H2 & H3).
    split; [done|]. split; [intros _; exact H2|]. split; [intros _; exact H3|].
    split; [intros _ Hoff; rewrite H1 in Hoff; discriminate|].
    split; [intros Hp _; by apply H2|]. intros Hf. discriminate. }
  destruct (Qltb 3 vol) eqn:Hvol; [apply Hentered|].
  destruct (Qltb 300 rate) eqn:Hrate; [apply Hentered|].
  destruct (Qltb 5 (drawdown (manager self))) eqn:Hdd; [apply Hentered|].
  cbn [andb].
  destruct (default false extreme_price_movement) eqn:Hex; [apply Hentered|].
  clear Hentered. apply Qltb_ge in Hvol, Hdd.
  unfold _should_exit_protection_mode, exit_protection_mode.
  destruct (protection_mode (manager self)) eqn:Hp; cbn [andb negb fst snd].
  - destruct (protection_start_time self) as [start|] eqn:Hstart;
      cbn [fst snd].
    + destruct (Qltb 7200 (now - start)) eqn:Hlong; cbn [fst snd manager].
      * apply Qltb_lt in Hlong.
        split; [done|]. split; [done|]. split; [done|].
        split; [|split; [done|done]].
        intros _ _. split; [done|]. split; [done|]. split; [done|].
        exists start. split; [done|by left].
      * destruct (Qltb (drawdown (manager self)) 3) eqn:Hcalm;
          cbn [fst snd manager].
        -- apply Qltb_lt in Hcalm.
           split; [done|]. split; [done|]. split; [done|].
           split; [|split; [done|done]].
           intros _ _. split; [done|]. split; [done|]. split; [done|].
           exists start. split; [done|by right].
        -- split; [done|]. split; [done|]. split; [done|].
           split; [|split; [done|done]].
           intros _ Hoff. congruence.
    + split; [done|]. split; [done|]. split; [done|].
      split; [|split; [done|done]].
      intros _ Hoff. congruence.
  - split; [done|]. split; [done|]. split; [done|].
    split; [|split; [done|done]].
    intros Hon. discriminate.
Qed.

Lemma filter_length_le {A} (P R : A -> Prop) `{!forall x, Decision (P x)}
    `{!forall x, Decision (R x)} (l : list A) :
  (forall x, P x -> R x) -> (length (filter P l) <= length (filter R l))%nat.
Proof.
  intros HPR. induction l as [|x l IH]; [done|].
  rewrite !filter_cons. destruct (decide (P x)) as [HP|HP].
  - rewrite decide_True by by apply HPR. simpl. lia.
  - destruct (decide (R x)); simpl; lia.
Qed.

(** X12.  [_calculate_position_change_rate] compares the positions opened
    in the last hour with a twenty-fourth of those opened in the last day:
    the rate exceeds 300 exactly when the last day saw fewer openings
    than six times those of the last hour.  In that case
    [detect_market_anomalies] reports an anomaly and the protection mode
    is on afterwards, whatever the market data say. *)
Theorem rapid_position_growth (self : Guard) (now : Q) :
  let recent := opened_since self (now - 3600) in
  let day := opened_since self (now - 86400) in
  (recent <= day)%Z /\
  (Qltb 300 (_calculate_position_change_rate self now) = true
   <-> (day < 6 * recent)%Z) /\
  ((day < 6 * recent)%Z ->
   forall btc_volatility extreme_price_movement,
     (detect_market_anomalies self btc_volatility extreme_price_movement now).2
     = true /\
     protection_mode
       (manager (detect_market_anomalies self btc_volatility
                   extreme_price_movement now).1) = true).
Proof.
  intros recent day.
  assert (Hle : (recent <= day)%Z).
  { subst recent day. unfold opened_since. apply inj_le.
    apply filter_length_le. intros ts Hts.
    apply Qltb_lt. apply Qltb_lt in Hts. lra. }
  assert (Hrate : Qltb 300 (_calculate_position_change_rate self now) = true
                  <-> (day < 6 * recent)%Z).
  { unfold _calculate_position_change_rate.
    subst recent day. unfold opened_since in *.
    set (r := length (filter (fun ts => Qltb (now - 3600) ts = true)
                        (position_history_timestamps self))) in *.
    set (d := length (filter (fun ts => Qltb (now - 86400) ts = true)
                        (position_history_timestamps self))) in *.
    destruct (0 <? d)%nat eqn:Hday.
    - apply Nat.ltb_lt in Hday.
      assert (HdQ : 0 < inject_Z (Z.of_nat d)).
      { change 0 with (inject_Z 0). rewrite <- Zlt_Qlt. lia. }
      assert (Havg : 0 < inject_Z (Z.of_nat d) / 24)
        by (apply Qlt_shift_div_l; lra).
      rewrite (proj2 (Qltb_lt _ _) Havg).
      set (x := (inject_Z (Z.of_nat r) / (inject_Z (Z.of_nat d) / 24) - 1) * 100).
      assert (Hx : 300 < x <-> (Z.of_nat d < 6 * Z.of_nat r)%Z).
      { subst x.
        assert (Heq : inject_Z (Z.of_nat r) / (inject_Z (Z.of_nat d) / 24)
                      == 24 * inject_Z (Z.of_nat r) / inject_Z (Z.of_nat d))
          by (field; lra).
        rewrite Heq. split.
        - intros H.
          assert (H4 : 4 < 24 * inject_Z (Z.of_nat r) / inject_Z (Z.of_nat d))
            by lra.
          apply (Qmult_lt_compat_r _ _ (inject_Z (Z.of_nat d))) in H4; [|done].
          assert (Hmul : 24 * inject_Z (Z.of_nat r) / inject_Z (Z.of_nat d)
                         * inject_Z (Z.of_nat d)
                         == 24 * inject_Z (Z.of_nat r)) by (field; lra).
          rewrite Hmul in H4.
          assert (H6 : inject_Z (Z.of_nat d) < inject_Z (6 * Z.of_nat r)).
          { rewrite inject_Z_mult. change (inject_Z 6) with 6. lra. }
          by rewrite Zlt_Qlt.
        - intros H. rewrite Zlt_Qlt, inject_Z_mult in H.
          change (inject_Z 6) with 6 in H.
          assert (H4 : 4 < 24 * inject_Z (Z.of_nat r) / inject_Z (Z.of_nat d));
            [|lra].
          apply Qlt_shift_div_l; lra. }
      rewrite <- Hx. rewrite Qltb_lt. unfold py_max.
      destruct (Qltb 0 x) eqn:E; [done|]. apply Qltb_ge in E. split; lra.
    - apply Nat.ltb_ge in Hday.
      change (Qltb 0 1) with true. cbv iota.
      assert (Hr : r = 0%nat) by lia. assert (Hd : d = 0%nat) by lia.
      rewrite Hr, Hd.
      split; [|lia]. intros H. by vm_compute in H. }
  split; [done|]. split; [done|].
  intros Hgrow vol extreme. apply Hrate in Hgrow.
  unfold detect_market_anomalies.
  destruct (Qltb 3 (default 1 vol)); cbn [fst snd].
  - split; [done|]. apply enter_protection_mode_protected.
  - rewrite Hgrow. cbn [fst snd]. split; [done|].
    apply enter_protection_mode_protected.
Qed.

End protection_properties.

(** ** Stop loss, take profit and the closing rule *)
Section exit_properties.
Import Risk Exits.
Local Open Scope Q_scope.





(** X15.  [should_close_position] and [process_partial_close] test the
    same profit threshold.  On a position manager that shares the strategy
    of its risk manager, whenever [should_close_position] answers that the
    position is to be kept, [process_partial_close] for the same symbol and
    price sends no order and changes nothing.  So the partial close that
    [check_and_process_signal] attempts after that answer never takes
    place. *)
Theorem kept_position_is_not_partly_closed (self : Position.PositionManager)
    (symbol : string) (current_price : Q) (signal_type : string)
    (market_reply : result (option Position.OrderResult)) (today : string) :
  Position.strategy self = strategy (Position.risk_manager self) ->
  should_close_position (Position.risk_manager self) symbol current_price
    signal_type = Ok (false, "") ->
  Position.process_partial_close self symbol current_price market_reply today
  = (self, [], None).
Proof.
  intros Hst Hkeep.
  unfold Position.process_partial_close, Position.process_partial_close_body.
  unfold should_close_position in Hkeep. rewrite Hst.
  destruct (partial_close_enabled (strategy (Position.risk_manager self)))
    eqn:Hen; [|done]. simpl.
  destruct (get_position_for_symbol (Position.risk_manager self) symbol)
    as [position|]; [|done].
  destruct (_ || _); [done|].
  destruct (_calculate_position_pnl_percent position current_price)
    as [pnl_pct|e]; [|done].
  rewrite bind_Ok in Hkeep.
  destruct (Qltb _ pnl_pct); [done|done].
Qed.

Lemma account_risk_loop_zero_leverage (total_balance : Q)
    (positions : list Position) (total_risk : Q) :
  (exists pos, pos ∈ positions /\ pos_leverage pos = 0%Z) ->
  exists e, account_risk_loop total_balance positions total_risk = Raise e.
Proof.
  revert total_risk. induction positions as [|pos rest IH]; intros total_risk.
  - by intros (? & ?%elem_of_nil & _).
  - intros (bad & Hin & Hzero). simpl.
    destruct (py_truediv _ _) as [r|e] eqn:Hdiv; [|by exists e].
    rewrite bind_Ok. apply IH.
    apply elem_of_cons in Hin as [->|Hin]; [|by exists bad].
    exfalso. rewrite Hzero in Hdiv.
    rewrite py_truediv_zero in Hdiv; [done|]. simpl. ring.
Qed.

(** X16.  [check_risk_limits] always answers, and it answers [True] only
    if the protection mode is off, the drawdown is at most [max_drawdown],
    fewer than [max_open_positions] positions are open, fewer than
    [max_daily_trades] trades were booked today, and the account risk
    could be computed and is at most [max_account_risk].  When the account
    risk cannot be computed, as with a position reported at leverage 0 on
    an account with a positive balance, the answer is [False]. *)
Theorem risk_limits_sound (self : RiskManager) (today : string) :
  (exists ok, check_risk_limits self today = Ok ok) /\
  (check_risk_limits self today = Ok true ->
   protection_mode self = false /\
   drawdown self <= max_drawdown (strategy self) /\
   (Z.of_nat (length (open_positions self)) < max_open_positions (strategy self))%Z /\
   (Account.trades_on self today < max_daily_trades (strategy self))%Z /\
   exists account_risk,
     _calculate_total_account_risk self = Ok account_risk /\
     account_risk <= max_account_risk (strategy self)) /\
  (0 < get_total_balance self ->
   (exists pos, pos ∈ open_positions self /\ pos_leverage pos = 0%Z) ->
   check_risk_limits self today = Ok false).
Proof.
  split; [|split].
  - unfold check_risk_limits, try_except.
    destruct (check_risk_limits_body self today) as [ok|e]; by eexists.
  - unfold check_risk_limits, try_except, check_risk_limits_body,
      Account.trades_on.
    destruct (protection_mode self); [done|].
    destruct (Qltb (max_drawdown _) (drawdown self)) eqn:Hdd; [done|].
    destruct (_ <=? Z.of_nat _)%Z eqn:Hopen; [done|].
    destruct (_ <=? match daily_pnl self !! today with
                    | Some d => trade_count d | None => 0%Z end)%Z eqn:Hday;
      [done|].
    destruct (Qltb (profit_threshold_daily _) _); [done|].
    destruct (Qltb _ (- loss_threshold_daily _)); [done|].
    destruct (_calculate_total_account_risk self) as [risk|e]; [|done].
    rewrite bind_Ok.
    destruct (Qltb (max_account_risk _) risk) eqn:Hrisk; [done|].
    intros _. apply Qltb_ge in Hdd, Hrisk.
    apply Z.leb_gt in Hopen, Hday.
    split; [done|]. split; [done|]. split; [done|]. split; [done|].
    by exists risk.
  - intros Hbal Hbad.
    assert (Hrisk : exists e, _calculate_total_account_risk self = Raise e).
    { unfold _calculate_total_account_risk.
      assert (Qle_bool (get_total_balance self) 0 = false) as ->.
      { apply Qltb_lt in Hbal. unfold Qltb in Hbal.
        by destruct (Qle_bool _ _). }
      by apply account_risk_loop_zero_leverage. }
    destruct Hrisk as [e Hrisk].
    unfold check_risk_limits, try_except, check_risk_limits_body.
    rewrite Hrisk.
    repeat match goal with
           | |- context [if ?b then _ else _] => destruct b; try done
           end.
Qed.

End exit_properties.


Lemma kept_position_is_not_partly_closed_witness :
  Position.process_partial_close Scenario.trader_tracked "DOGEUSDT" (505 # 1000)
    Scenario.accepted "2026-01-05"
  = (Scenario.trader_tracked, [], None).
Proof.
  apply (kept_position_is_not_partly_closed Scenario.trader_tracked "DOGEUSDT"
           (505 # 1000) "LONG" Scenario.accepted "2026-01-05").
  - reflexivity.
  - reflexivity.
Defined.

(** ** The filters of the strategy *)
Section strategy_properties.
Import Strategy.
Local Open Scope Z_scope.

Lemma halving_floor (a : Z) : Z.max 1 (Z.max 1 a / 2) = Z.max 1 (a / 2).
Proof.
  destruct (Z.le_gt_cases 1 a) as [Ha|Ha].
  - by rewrite (Z.max_r 1 a) by done.
  - rewrite (Z.max_l 1 a) by lia. change (1 / 2) with 0.
    assert (a / 2 <= 0) by (apply Z.div_le_upper_bound; lia).
    lia.
Qed.



Lemma endswith_spec (s suffix : string) :
  endswith s suffix = true <-> exists prefix, s = prefix +:+ suffix.
Proof.
  induction s as [|c s IH]; cbn [endswith].
  - destruct (String.eqb "" suffix) eqn:E.
    + apply String.eqb_eq in E as <-. split; [intros _; by exists ""|done].
    + apply String.eqb_neq in E. split; [done|].
      intros ([|c p] & Hp); [|done]. change ("" = suffix) in Hp. congruence.
  - destruct (String.eqb (String c s) suffix) eqn:E.
    + apply String.eqb_eq in E as <-. split; [intros _; by exists ""|done].
    + apply String.eqb_neq in E. rewrite IH. split.
      * intros [p ->]. by exists (String c p).
      * intros ([|c' p] & Hp).
        -- change (String c s = suffix) in Hp. congruence.
        -- change (String c s = String c' (p +:+ suffix)) in Hp.
           injection Hp as -> ->. by exists p.
Qed.

(** X18.  [get_trading_symbols] answers a sublist of the symbols it is
    given, in their order.  A symbol is in the answer exactly when it ends
    with the quote asset and, if the whitelist names any symbol, is on the
    whitelist, otherwise is not on the blacklist: with a whitelist in
    force the blacklist is not consulted.  The default lists, each holding
    only the empty string, let every symbol that ends with a quote asset
    that is not empty through. *)
Theorem trading_symbols_filter (whitelist_symbols blacklist_symbols : list string)
    (quote_asset : string) (all_symbols : list string) :
  let answer := get_trading_symbols whitelist_symbols blacklist_symbols
                  quote_asset all_symbols in
  answer `sublist_of` all_symbols /\
  (forall s, s ∈ answer <->
     s ∈ all_symbols /\
     (exists prefix, s = prefix +:+ quote_asset) /\
     if any whitelist_symbols then s ∈ whitelist_symbols
     else s ∉ blacklist_symbols) /\
  (quote_asset ≠ "" ->
   get_trading_symbols [""] [""] quote_asset all_symbols
   = filter (fun s => endswith s quote_asset = true) all_symbols).
Proof.
  intros answer. subst answer. unfold get_trading_symbols.
  split; [|split].
  - destruct (any whitelist_symbols);
      (etrans; [apply sublist_filter|apply sublist_filter]).
  - intros s. destruct (any whitelist_symbols);
      rewrite !list_elem_of_filter, endswith_spec; tauto.
  - intros Hq. change (any [""]) with false. cbv iota.
    rewrite list_filter_filter. apply list_filter_iff.
    intros s. split; [by intros [? _]|]. intros Hs. split; [done|].
    intros ->%list_elem_of_singleton.
    apply endswith_spec in Hs as ([|c p] & Hp); [|done].
    change ("" = quote_asset) in Hp. congruence.
Qed.

End strategy_properties.

(** ** Opening and closing positions *)
Section desk_properties.
Import Risk Position Exits Desk.
Local Open Scope Q_scope.

(** X19.  [open_position] sends nothing to the venue, stores nothing and
    returns [None] whenever [check_risk_limits] does not answer [True]; in
    particular while the protection mode is on. *)
Theorem open_position_respects_limits (self : Book) (symbol signal_type : string)
    (signal_strength market_volatility : Q) (tp_targets tp_quantities : list Q)
    (v : Venue) :
  let rm := risk_manager (manager self) in
  let result := open_position self symbol signal_type signal_strength
                  market_volatility tp_targets tp_quantities v in
  (check_risk_limits rm (today v) <> Ok true ->
   result = Returns (self, [], NotOpened)) /\
  (protection_mode rm = true -> result = Returns (self, [], NotOpened)).
Proof.
  intros rm result. subst result. unfold open_position. fold rm.
  split.
  - intros Hno. destruct (check_risk_limits rm (today v)) as [[|]|e]; done.
  - intros Hp. by rewrite check_risk_limits_protected.
Qed.

(** X20.  With the sizing mode [FIXED], [calculate_position_size] answers
    the quantity 0, so [open_position] for a symbol with no position
    listed sends nothing to the venue, stores nothing and returns [None],
    whatever the signal and the venue are. *)
Theorem fixed_sizing_never_opens (self : Book) (symbol signal_type : string)
    (signal_strength market_volatility : Q) (tp_targets tp_quantities : list Q)
    (v : Venue) :
  position_size_type (Risk.strategy (risk_manager (manager self))) = "FIXED" ->
  get_position_for_symbol (risk_manager (manager self)) symbol = None ->
  open_position self symbol signal_type signal_strength market_volatility
    tp_targets tp_quantities v
  = Returns (self, [], NotOpened).
Proof.
  intros Hfixed Hnone. unfold open_position. rewrite Hnone.
  destruct (check_risk_limits _ _) as [[|]|e]; [|done|done].
  f_equal. unfold enter_position.
  destruct (mark_price v) as [current_price|e]; [|done].
  destruct (Qle_bool current_price 0); [done|].
  set (size := calculate_position_size _ _ _ _ _ _).
  assert (Hsize : size
    = Ok (0, default_leverage (Risk.strategy (risk_manager (manager self))))).
  { subst size. destruct (protection_mode (risk_manager (manager self))) eqn:Hp.
    - by apply calculate_position_size_protected.
    - unfold calculate_position_size.
      destruct (fixed_mode_body_raises (risk_manager (manager self))
                  (info_for_size v) current_price
                  (calculate_stop_loss (risk_manager (manager self))
                     (info_for_stop v) current_price signal_type
                     market_volatility)
                  signal_type signal_strength Hp Hfixed) as [e He].
      by rewrite He. }
  by rewrite Hsize.
Qed.

(** X21.  [open_position] awaits [close_position] while it holds
    [position_lock], and [close_position] starts by awaiting the same
    lock.  So when the risk limits are met and the risk manager lists a
    position of the symbol in the direction opposite to the signal,
    [open_position] never returns: it sends nothing and keeps the lock. *)
Theorem reversal_under_lock_never_returns (self : Book)
    (symbol signal_type : string) (signal_strength market_volatility : Q)
    (tp_targets tp_quantities : list Q) (v : Venue) (existing : Position) :
  check_risk_limits (risk_manager (manager self)) (today v) = Ok true ->
  get_position_for_symbol (risk_manager (manager self)) symbol = Some existing ->
  (pos_side existing = "LONG" /\ signal_type = "SHORT") \/
  (pos_side existing = "SHORT" /\ signal_type = "LONG") ->
  open_position self symbol signal_type signal_strength market_volatility
    tp_targets tp_quantities v
  = Waits.
Proof.
  intros Hok Hpos Hrev. unfold open_position. rewrite Hok, Hpos.
  by destruct Hrev as [[-> ->]|[-> ->]].
Qed.

Lemma close_position_body_accepted (self : Book) (symbol : string)
    (order_result : OrderResult) (today : string) (position : Position) :
  get_position_for_symbol (risk_manager (manager self)) symbol = Some position ->
  exists after,
    close_position_body self symbol (Ok (Some order_result)) today
    = (after,
       [Order (CancelAll symbol);
        Order (Market symbol
                 (if bool_decide (pos_side position = "LONG") then "SELL" else "BUY")
                 (Qabs (pos_amount position)) true)],
       Some (close_line symbol position order_result)) /\
    position_history (risk_manager (manager after))
    = position_history (risk_manager (manager self))
      ++ [close_line symbol position order_result] /\
    open_positions (risk_manager (manager after))
    = open_positions (risk_manager (manager self)) /\
    active_trades (manager after) !! symbol = None /\
    stop_orders (manager after) !! symbol = None /\
    take_profit_orders after !! symbol = None.
Proof.
  intros Hpos. unfold close_position_body. rewrite Hpos.
  eexists. split; [reflexivity|]. cbn.
  split; [done|]. split; [done|].
  split; [apply lookup_delete_eq|]. split; apply lookup_delete_eq.
Qed.

(** X22.  An accepted [close_position] sends the cancel request and one
    reduce-only market order for the whole position, books one [CLOSE]
    line, and drops the symbol's active trade, stop order and take-profit
    orders; the list of open positions is left to the next account
    refresh.  A second [close_position] before that refresh therefore
    sends the same order and books the same line again.  When the venue
    refuses the order the two requests have been sent and nothing is
    changed. *)
Theorem close_position_repeats (self : Book) (symbol : string)
    (order_result : OrderResult) (today : string) (position : Position) :
  get_position_for_symbol (risk_manager (manager self)) symbol = Some position ->
  let sent :=
    [Order (CancelAll symbol);
     Order (Market symbol
              (if bool_decide (pos_side position = "LONG") then "SELL" else "BUY")
              (Qabs (pos_amount position)) true)] in
  let line := close_line symbol position order_result in
  exists first second,
    close_position false self symbol (Ok (Some order_result)) today
    = Returns (first, sent, Some line) /\
    close_position false first symbol (Ok (Some order_result)) today
    = Returns (second, sent, Some line) /\
    position_history (risk_manager (manager first))
    = position_history (risk_manager (manager self)) ++ [line] /\
    position_history (risk_manager (manager second))
    = position_history (risk_manager (manager self)) ++ [line; line] /\
    open_positions (risk_manager (manager first))
    = open_positions (risk_manager (manager self)) /\
    active_trades (manager first) !! symbol = None /\
    stop_orders (manager first) !! symbol = None /\
    take_profit_orders first !! symbol = None /\
    (forall reply, reply = Ok None \/ (exists e, reply = Raise e) ->
       close_position false self symbol reply today
       = Returns (self, sent, None)).
Proof.
  intros Hpos sent line.
  destruct (close_position_body_accepted self symbol order_result today
              position Hpos)
    as (first & Hfirst & Hhist1 & Hopen1 & Hat & Hso & Htp).
  assert (Hpos1 : get_position_for_symbol (risk_manager (manager first)) symbol
                  = Some position).
  { unfold get_position_for_symbol in *. by rewrite Hopen1. }
  destruct (close_position_body_accepted first symbol order_result today
              position Hpos1)
    as (second & Hsecond & Hhist2 & _).
  exists first, second. unfold close_position. cbv iota.
  split; [by rewrite Hfirst|]. split; [by rewrite Hsecond|].
  split; [done|].
  split; [by rewrite Hhist2, Hhist1, <- app_assoc|].
  split; [done|]. split; [done|]. split; [done|]. split; [done|].
  intros reply Hreply. f_equal. unfold close_position_body. rewrite Hpos.
  by destruct Hreply as [->|[e ->]].
Qed.

Lemma enter_position_accepted (self : Book) (symbol signal_type : string)
    (signal_strength market_volatility : Q) (v : Venue)
    (current_price quantity : Q) (leverage : Z) (order_result : OrderResult) :
  mark_price v = Ok current_price ->
  0 < current_price ->
  let stop_loss_price :=
    calculate_stop_loss (risk_manager (manager self)) (info_for_stop v)
      current_price signal_type market_volatility in
  calculate_position_size (risk_manager (manager self)) (info_for_size v)
    current_price stop_loss_price signal_type signal_strength
  = Ok (quantity, leverage) ->
  0 < quantity ->
  (exists m, margin_reply v = Ok m) ->
  (exists l, leverage_reply v = Ok l) ->
  market_reply v = Ok (Some order_result) ->
  let side := if bool_decide (signal_type = "LONG") then "BUY" else "SELL" in
  let reduce_side := if bool_decide (signal_type = "LONG") then "SELL" else "BUY" in
  let filled_price := default current_price (avgPrice order_result) in
  let filled_qty := default quantity (executedQty order_result) in
  let rec := record_trade (risk_manager (manager self)) (today v) symbol side
               filled_qty filled_price None None "OPEN" in
  let recorded stops :=
    {| manager :=
         {| risk_manager := rec.1;
            Position.strategy := Position.strategy (manager self);
            active_trades :=
              <[symbol := {| at_side := signal_type; at_quantity := filled_qty;
                             at_entry_price := filled_price;
                             at_leverage := leverage;
                             at_stop_loss := stop_loss_price;
                             at_partially_closed := false |}]>
                (active_trades (manager self));
            stop_orders := stops |};
       take_profit_orders := take_profit_orders self;
       position_history_timestamps :=
         position_history_timestamps self ++ [now v] |} in
  let sent :=
    [SetMarginType symbol; SetLeverage symbol leverage;
     Order (Market symbol side quantity false);
     Order (StopMarket symbol reduce_side filled_qty stop_loss_price)] in
  enter_position self symbol signal_type signal_strength market_volatility [] [] v
  = match stop_reply v with
    | Raise _ => (recorded (stop_orders (manager self)), sent, NotOpened)
    | Ok (Some o) =>
        (recorded (<[symbol := {| so_order_id := orderId o;
                                  so_price := stop_loss_price;
                                  so_quantity := filled_qty |}]>
                     (stop_orders (manager self))),
         sent, Opened rec.2)
    | Ok None => (recorded (stop_orders (manager self)), sent, Opened rec.2)
    end.
Proof.
  intros Hprice Hpos stop_loss_price Hsize Hqty [m Hm] [l Hl] Hmarket.
  intros side reduce_side filled_price filled_qty rec recorded sent.
  unfold enter_position. rewrite Hprice.
  assert (Qle_bool current_price 0 = false) as ->.
  { apply Qltb_lt in Hpos. unfold Qltb in Hpos. by destruct (Qle_bool _ _). }
  fold stop_loss_price. rewrite Hsize.
  assert (Qle_bool quantity 0 = false) as ->.
  { apply Qltb_lt in Hqty. unfold Qltb in Hqty. by destruct (Qle_bool _ _). }
  rewrite Hm, Hl, Hmarket.
  fold side reduce_side filled_price filled_qty.
  destruct (stop_reply v) as [[o|]|e]; done.
Qed.

(** X23.  Once the venue has accepted the entry order of [open_position]
    (risk limits met, no position listed for the symbol, a positive mark
    price and quantity, no take-profit targets), the [OPEN] line is in the
    ledger and the active trade is stored, not flagged as partially
    closed, with the stop of [calculate_stop_loss]; the requests were the
    margin type, the leverage, the market order and the stop order, in
    this order.  If the stop order is accepted it is stored at that stop
    price and the ledger line is returned; if the stop request raises,
    [open_position] returns [None] although the position is open, and no
    stop order is stored for it. *)
Theorem accepted_entry_is_recorded (self : Book) (symbol signal_type : string)
    (signal_strength market_volatility : Q) (v : Venue)
    (current_price quantity : Q) (leverage : Z) (order_result : OrderResult) :
  check_risk_limits (risk_manager (manager self)) (today v) = Ok true ->
  get_position_for_symbol (risk_manager (manager self)) symbol = None ->
  mark_price v = Ok current_price ->
  0 < current_price ->
  let stop_loss_price :=
    calculate_stop_loss (risk_manager (manager self)) (info_for_stop v)
      current_price signal_type market_volatility in
  calculate_position_size (risk_manager (manager self)) (info_for_size v)
    current_price stop_loss_price signal_type signal_strength
  = Ok (quantity, leverage) ->
  0 < quantity ->
  (exists m, margin_reply v = Ok m) ->
  (exists l, leverage_reply v = Ok l) ->
  market_reply v = Ok (Some order_result) ->
  exists after sent result,
    open_position self symbol signal_type signal_strength market_volatility
      [] [] v = Returns (after, sent, result) /\
    sent
    = [SetMarginType symbol; SetLeverage symbol leverage;
       Order (Market symbol
                (if bool_decide (signal_type = "LONG") then "BUY" else "SELL")
                quantity false);
       Order (StopMarket symbol
                (if bool_decide (signal_type = "LONG") then "SELL" else "BUY")
                (default quantity (executedQty order_result)) stop_loss_price)] /\
    (exists line,
       position_history (risk_manager (manager after))
       = position_history (risk_manager (manager self)) ++ [line] /\
       tr_type line = "OPEN" /\
       tr_quantity line = default quantity (executedQty order_result) /\
       ((forall e, stop_reply v <> Raise e) -> result = Opened line)) /\
    (exists trade,
       active_trades (manager after) !! symbol = Some trade /\
       at_stop_loss trade = stop_loss_price /\
       at_partially_closed trade = false) /\
    (forall o, stop_reply v = Ok (Some o) ->
       exists stop, stop_orders (manager after) !! symbol = Some stop /\
         so_price stop = stop_loss_price) /\
    (forall e, stop_reply v = Raise e ->
       result = NotOpened /\
       stop_orders (manager after) !! symbol
       = stop_orders (manager self) !! symbol).
Proof.
  intros Hok Hnone Hprice Hpos stop_loss_price Hsize Hqty Hm Hl Hmarket.
  unfold open_position. rewrite Hok, Hnone.
  rewrite (enter_position_accepted self symbol signal_type signal_strength
             market_volatility v current_price quantity leverage order_result)
    by done.
  fold stop_loss_price.
  destruct (stop_reply v) as [[o|]|e] eqn:Hstop.
  - eexists _, _, _. split; [reflexivity|]. split; [done|].
    split; [|split; [|split; [|done]]].
    + eexists. split; [reflexivity|]. by repeat split.
    + eexists. split; [cbn; apply lookup_insert_eq|done].
    + intros o' _. eexists. split; [cbn; apply lookup_insert_eq|done].
  - eexists _, _, _. split; [reflexivity|]. split; [done|].
    split; [|split; [|split; [|done]]].
    + eexists. split; [reflexivity|]. by repeat split.
    + eexists. split; [cbn; apply lookup_insert_eq|done].
    + intros o' [=].
  - eexists _, _, _. split; [reflexivity|]. split; [done|].
    split; [|split; [|split]].
    + eexists. split; [reflexivity|]. split; [done|]. split; [done|].
      intros He'. by destruct (He' e).
    + eexists. split; [cbn; apply lookup_insert_eq|done].
    + intros o' [=].
    + intros e' _. by split.
Qed.

End desk_properties.

Lemma fixed_sizing_never_opens_witness :
  Desk.open_position Cases.book_fixed "BTCUSDT" "LONG" 80 1 [] []
    (Cases.venue_A Scenario.accepted)
  = Desk.Returns (Cases.book_fixed, [], Desk.NotOpened).
Proof.
  apply (fixed_sizing_never_opens Cases.book_fixed "BTCUSDT" "LONG" 80 1 [] []
           (Cases.venue_A Scenario.accepted)).
  - reflexivity.
  - reflexivity.
Defined.

Lemma reversal_under_lock_never_returns_witness :
  Desk.open_position Cases.book_long "DOGEUSDT" "SHORT" 80 1 [] []
    (Cases.venue_A Scenario.accepted)
  = Desk.Waits.
Proof.
  apply (reversal_under_lock_never_returns Cases.book_long "DOGEUSDT" "SHORT"
           80 1 [] [] (Cases.venue_A Scenario.accepted) Scenario.long_position).
  - reflexivity.
  - reflexivity.
  - left. split; reflexivity.
Defined.

Lemma close_position_repeats_witness :
  exists first second,
    Desk.close_position false Cases.book_long "DOGEUSDT" Scenario.partly_filled
      "2026-01-05"
    = Desk.Returns
        (first,
         [Desk.Order (Position.CancelAll "DOGEUSDT");
          Desk.Order (Position.Market "DOGEUSDT" "SELL" (Qabs 10) true)],
         Some (Desk.close_line "DOGEUSDT" Scenario.long_position
                 {| Position.orderId := Some 2%Z;
                    Position.avgPrice := Some (52 # 100)%Q;
                    Position.executedQty := Some 3%Q |})) /\
    Risk.position_history (Position.risk_manager (Desk.manager second))
    = Risk.position_history (Position.risk_manager (Desk.manager Cases.book_long))
      ++ [Desk.close_line "DOGEUSDT" Scenario.long_position
            {| Position.orderId := Some 2%Z;
               Position.avgPrice := Some (52 # 100)%Q;
               Position.executedQty := Some 3%Q |};
          Desk.close_line "DOGEUSDT" Scenario.long_position
            {| Position.orderId := Some 2%Z;
               Position.avgPrice := Some (52 # 100)%Q;
               Position.executedQty := Some 3%Q |}].
Proof.
  assert (Hpos : Risk.get_position_for_symbol
                   (Position.risk_manager (Desk.manager Cases.book_long))
                   "DOGEUSDT" = Some Scenario.long_position) by reflexivity.
  destruct (close_position_repeats Cases.book_long "DOGEUSDT"
              {| Position.orderId := Some 2%Z;
                 Position.avgPrice := Some (52 # 100)%Q;
                 Position.executedQty := Some 3%Q |} "2026-01-05"
              Scenario.long_position Hpos)
    as (first & second & Hfirst & _ & _ & Hhist & _).
  exists first, second. split; [exact Hfirst|exact Hhist].
Defined.

Lemma accepted_entry_is_recorded_witness :
  exists after sent result,
    Desk.open_position Cases.book_A "BTCUSDT" "LONG" 80 1 [] []
      (Cases.venue_A (Raise NetworkError))
    = Desk.Returns (after, sent, result) /\
    result = Desk.NotOpened /\
    Position.stop_orders (Desk.manager after) !! "BTCUSDT" = None /\
    is_Some (Position.active_trades (Desk.manager after) !! "BTCUSDT").
Proof.
  assert (Hok : Risk.check_risk_limits
                  (Position.risk_manager (Desk.manager Cases.book_A))
                  (Desk.today (Cases.venue_A (Raise NetworkError))) = Ok true)
    by reflexivity.
  assert (Hnone : Risk.get_position_for_symbol
                    (Position.risk_manager (Desk.manager Cases.book_A))
                    "BTCUSDT" = None) by reflexivity.
  assert (Hprice : Desk.mark_price (Cases.venue_A (Raise NetworkError))
                   = Ok 100%Q) by reflexivity.
  assert (Hpos : (0 < 100)%Q) by reflexivity.
  assert (Hsize : Risk.calculate_position_size
                    (Position.risk_manager (Desk.manager Cases.book_A))
                    (Desk.info_for_size (Cases.venue_A (Raise NetworkError)))
                    100
                    (Exits.calculate_stop_loss
                       (Position.risk_manager (Desk.manager Cases.book_A))
                       (Desk.info_for_stop (Cases.venue_A (Raise NetworkError)))
                       100 "LONG" 1)
                    "LONG" 80
                  = Ok ((125000 # 1000)%Q, 5%Z)) by (vm_compute; reflexivity).
  assert (Hqty : (0 < 125000 # 1000)%Q) by reflexivity.
  destruct (accepted_entry_is_recorded Cases.book_A "BTCUSDT" "LONG" 80 1
              (Cases.venue_A (Raise NetworkError)) 100 (125000 # 1000) 5
              {| Position.orderId := Some 2%Z; Position.avgPrice := None;
                 Position.executedQty := None |}
              Hok Hnone Hprice Hpos Hsize Hqty
              (ex_intro _ () eq_refl) (ex_intro _ () eq_refl) eq_refl)
    as (after & sent & result & Hcall & _ & _ & (trade & Htrade & _) & _ & Hfail).
  exists after, sent, result. split; [exact Hcall|].
  destruct (Hfail NetworkError eq_refl) as [Hres Hstop].
  split; [exact Hres|]. split; [rewrite Hstop; reflexivity|].
  rewrite Htrade. by eexists.
Defined.

(** ** Acting on a signal *)
Section signal_properties.
Import Risk Position Exits Desk Signals.
Local Open Scope Q_scope.

Lemma close_then_still_listed (self : Book) (symbol : string)
    (order_result : OrderResult) (today : string) (position : Position) :
  get_position_for_symbol (risk_manager (manager self)) symbol = Some position ->
  exists first,
    close_position_body self symbol (Ok (Some order_result)) today
    = (first,
       [Order (CancelAll symbol);
        Order (Market symbol
                 (if bool_decide (pos_side position = "LONG") then "SELL" else "BUY")
                 (Qabs (pos_amount position)) true)],
       Some (close_line symbol position order_result)) /\
    get_position_for_symbol (risk_manager (manager first)) symbol
    = Some position.
Proof.
  intros Hpos. unfold close_position_body. rewrite Hpos.
  eexists. split; [reflexivity|]. exact Hpos.
Qed.

(** X24.  A tradable signal against the direction of the position held
    makes [check_and_process_signal] close the position first.  When the
    venue accepts that close, the position is still listed as open, so
    the [open_position] that follows takes the reversal path: if the risk
    limits are met after the close, it awaits [close_position] under its
    own lock and [check_and_process_signal] never returns; otherwise the
    answer is [False], with the position closed and none opened. *)
Theorem reversal_signal_outcome (self : Book) (symbol : string) (s : Signal)
    (market_volatility : Q) (tp_targets tp_quantities : list Q) (v : Venue)
    (trail_info : result SymbolInfo)
    (trail_reply partial_reply : result (option OrderResult))
    (position : Position) (order_result : OrderResult) :
  tradable s = true ->
  get_position_for_symbol (risk_manager (manager self)) symbol = Some position ->
  (pos_side position = "LONG" /\ signal s = "SHORT") \/
  (pos_side position = "SHORT" /\ signal s = "LONG") ->
  close_reply v = Ok (Some order_result) ->
  exists first sent,
    close_position false self symbol (close_reply v) (today v)
    = Returns (first, sent, Some (close_line symbol position order_result)) /\
    check_and_process_signal self symbol s market_volatility tp_targets
      tp_quantities v trail_info trail_reply partial_reply
    = match check_risk_limits (risk_manager (manager first)) (today v) with
      | Ok true => Waits
      | _ => Returns (first, sent, false)
      end.
Proof.
  intros Htrad Hpos Hrev Hclose.
  destruct (close_then_still_listed self symbol order_result (today v)
              position Hpos) as (first & Hfirst & Hlisted).
  exists first. eexists.
  unfold check_and_process_signal, close_position. cbv iota.
  rewrite Htrad, Hpos, Hclose, Hfirst. cbn [negb].
  split; [reflexivity|].
  assert (Hshould : should_close_position (risk_manager (manager self)) symbol
                      (last_price s) (signal s) = Ok (true, "Ters sinyal")).
  { unfold should_close_position. rewrite Hpos.
    by destruct Hrev as [[-> ->]|[-> ->]]. }
  rewrite Hshould.
  assert (Hdir : directional s = true).
  { unfold directional. by destruct Hrev as [[_ ->]|[_ ->]]. }
  rewrite Hdir. unfold try_open, open_position.
  destruct (check_risk_limits _ _) as [[|]|e]; [|done|done].
  rewrite Hlisted.
  by destruct Hrev as [[-> ->]|[-> ->]].
Qed.

Lemma reversal_signal_outcome_witness :
  exists first sent,
    close_position false Cases.book_long "DOGEUSDT"
      (close_reply (Cases.venue_A (Ok None))) (today (Cases.venue_A (Ok None)))
    = Returns (first, sent,
               Some (close_line "DOGEUSDT" Scenario.long_position
                       {| orderId := Some 2%Z; avgPrice := None;
                          executedQty := None |})) /\
    check_and_process_signal Cases.book_long "DOGEUSDT"
      {| tradable := true; signal := "SHORT"; signal_strength := 80;
         last_price := 51 # 100 |}
      1 [] [] (Cases.venue_A (Ok None)) (Ok Scenario.symbol_A) (Ok None)
      (Ok None)
    = match check_risk_limits (risk_manager (manager first))
              (today (Cases.venue_A (Ok None))) with
      | Ok true => Waits
      | _ => Returns (first, sent, false)
      end.
Proof.
  assert (H1 : tradable {| tradable := true; signal := "SHORT";
                           signal_strength := 80; last_price := 51 # 100 |}
               = true) by reflexivity.
  assert (H2 : get_position_for_symbol
                 (risk_manager (manager Cases.book_long)) "DOGEUSDT"
               = Some Scenario.long_position) by reflexivity.
  exact (reversal_signal_outcome Cases.book_long "DOGEUSDT" _ 1 [] []
           (Cases.venue_A (Ok None)) (Ok Scenario.symbol_A) (Ok None) (Ok None)
           Scenario.long_position _ H1 H2
           (or_introl (conj eq_refl eq_refl)) eq_refl).
Defined.

(** X25.  When the signal does not oppose the position held, partial
    closing is enabled and the position's profit is above
    [partial_close_threshold], [check_and_process_signal] closes the whole
    position, not [partial_close_percentage] of it: one reduce-only market
    order for the full amount.  Nothing else is sent: with a [LONG] or
    [SHORT] signal the [open_position] that follows finds the closed
    position still listed and returns it, so the answer is [True] exactly
    when the risk limits are met after the close; with any other signal
    the answer is [True]. *)
Theorem profit_signal_closes_whole_position (self : Book) (symbol : string)
    (s : Signal) (market_volatility : Q) (tp_targets tp_quantities : list Q)
    (v : Venue) (trail_info : result SymbolInfo)
    (trail_reply partial_reply : result (option OrderResult))
    (position : Position) (order_result : OrderResult) (pnl_pct : Q) :
  tradable s = true ->
  get_position_for_symbol (risk_manager (manager self)) symbol = Some position ->
  signal s = pos_side position \/ directional s = false ->
  partial_close_enabled (Risk.strategy (risk_manager (manager self))) = true ->
  _calculate_position_pnl_percent position (last_price s) = Ok pnl_pct ->
  partial_close_threshold (Risk.strategy (risk_manager (manager self))) < pnl_pct ->
  close_reply v = Ok (Some order_result) ->
  exists first,
    check_and_process_signal self symbol s market_volatility tp_targets
      tp_quantities v trail_info trail_reply partial_reply
    = Returns
        (first,
         [Order (CancelAll symbol);
          Order (Market symbol
                   (if bool_decide (pos_side position = "LONG")
                    then "SELL" else "BUY")
                   (Qabs (pos_amount position)) true)],
         if directional s
         then match check_risk_limits (risk_manager (manager first)) (today v) with
              | Ok true => true
              | _ => false
              end
         else true) /\
    position_history (risk_manager (manager first))
    = position_history (risk_manager (manager self))
      ++ [close_line symbol position order_result] /\
    active_trades (manager first) !! symbol = None.
Proof.
  intros Htrad Hpos Hsame Hen Hpnl Hthr Hclose.
  destruct (close_position_body_accepted self symbol order_result (today v)
              position Hpos)
    as (first & Hfirst & Hhist & Hopen & Hat & _).
  assert (Hlisted : get_position_for_symbol (risk_manager (manager first)) symbol
                    = Some position).
  { unfold get_position_for_symbol in *. by rewrite Hopen. }
  exists first. split; [|by split].
  unfold check_and_process_signal, close_position. cbv iota.
  rewrite Htrad, Hpos, Hclose, Hfirst. cbn [negb].
  assert (Hshould : should_close_position (risk_manager (manager self)) symbol
                      (last_price s) (signal s) = Ok (true, "Kısmi kar alma")).
  { unfold should_close_position. rewrite Hpos, Hen, Hpnl. cbn.
    apply Qltb_lt in Hthr. rewrite Hthr.
    assert ((bool_decide (pos_side position = "LONG")
             && bool_decide (signal s = "SHORT"))
            || (bool_decide (pos_side position = "SHORT")
                && bool_decide (signal s = "LONG")) = false) as ->; [|done].
    destruct Hsame as [Hs|Hd].
    - rewrite Hs. repeat case_bool_decide; try done; congruence.
    - unfold directional in Hd. apply orb_false_iff in Hd as [-> ->].
      by rewrite !andb_false_r. }
  rewrite Hshould.
  destruct (directional s) eqn:Hdir; [|done].
  unfold try_open, open_position.
  destruct (check_risk_limits _ _) as [[|]|e]; [|done|done].
  rewrite Hlisted.
  destruct Hsame as [Hs|Hd]; [|congruence].
  unfold directional in Hdir. rewrite Hs in *.
  assert ((bool_decide (pos_side position = "LONG")
           && bool_decide (pos_side position = "LONG"))
          || (bool_decide (pos_side position = "SHORT")
              && bool_decide (pos_side position = "SHORT")) = true) as ->; [|done].
  by rewrite !andb_diag.
Qed.

Lemma profit_signal_closes_whole_position_witness :
  exists first,
    check_and_process_signal Cases.book_long "DOGEUSDT"
      {| tradable := true; signal := "LONG"; signal_strength := 80;
         last_price := 52 # 100 |}
      1 [] [] (Cases.venue_A (Ok None)) (Ok Scenario.symbol_A) (Ok None)
      (Ok None)
    = Returns
        (first,
         [Order (CancelAll "DOGEUSDT");
          Order (Market "DOGEUSDT" "SELL" (Qabs 10) true)],
         match check_risk_limits (risk_manager (manager first)) "2026-01-05" with
         | Ok true => true
         | _ => false
         end).
Proof.
  assert (H1 : get_position_for_symbol
                 (risk_manager (manager Cases.book_long)) "DOGEUSDT"
               = Some Scenario.long_position) by reflexivity.
  assert (H2 : _calculate_position_pnl_percent Scenario.long_position (52 # 100)
               = Ok (((52 # 100) - (1 # 2)) / (1 # 2) * 100)) by reflexivity.
  assert (H3 : partial_close_threshold
                 (Risk.strategy (risk_manager (manager Cases.book_long)))
               < ((52 # 100) - (1 # 2)) / (1 # 2) * 100) by (vm_compute; reflexivity).
  destruct (profit_signal_closes_whole_position Cases.book_long "DOGEUSDT"
              {| tradable := true; signal := "LONG"; signal_strength := 80;
                 last_price := 52 # 100 |}
              1 [] [] (Cases.venue_A (Ok None)) (Ok Scenario.symbol_A) (Ok None)
              (Ok None) Scenario.long_position
              {| orderId := Some 2%Z; avgPrice := None; executedQty := None |}
              _ eq_refl H1 (or_introl eq_refl) eq_refl H2 H3 eq_refl)
    as (first & Hrun & _).
  exists first. exact Hrun.
Defined.

End signal_properties.
